(** * francophone-lex: research view, outbox pipeline and trust view-model

    A shallow embedding of [apps/web/src/components/research/research-view.tsx]
    and [apps/web/src/lib/exporters.ts].

    - JavaScript strings are sequences of UTF-16 code units ([Js.jsstring]).
    - React state is a record ([ViewState]); an event handler is a state
      transformer that also logs the effects it performs (toasts, telemetry
      events, calls of the remote agent).
    - Platform services whose code is not part of the repository (the URL
      parser, the date parser, jsPDF, the agent service) are parameters. *)

From Stdlib Require Import String Ascii.
From Stdlib Require Import List NArith ZArith Bool Lia Permutation Sorted.
Import ListNotations.
Open Scope string_scope.
Open Scope list_scope.

Set Implicit Arguments.

(* ===================================================================== *)
(** ** JavaScript strings *)
(* ===================================================================== *)

Module Js.

Definition jsstring := list N.

(** An ASCII literal as a sequence of code units. *)
Definition lit (s : string) : jsstring :=
  map N_of_ascii (list_ascii_of_string s).

Fixpoint eqb (a b : jsstring) : bool :=
  match a, b with
  | [], [] => true
  | x :: a', y :: b' => N.eqb x y && eqb a' b'
  | _, _ => false
  end.

(** [Boolean(s)] for a string: only the empty string is falsy. *)
Definition truthy (s : jsstring) : bool :=
  match s with [] => false | _ :: _ => true end.

(** ECMAScript WhiteSpace and LineTerminator code points, the ones
    [String.prototype.trim] strips. *)
Definition isWhiteSpace (c : N) : bool :=
  (N.leb 9 c && N.leb c 13) || N.eqb c 32 || N.eqb c 160 || N.eqb c 5760
  || (N.leb 8192 c && N.leb c 8202) || N.eqb c 8232 || N.eqb c 8233
  || N.eqb c 8239 || N.eqb c 8287 || N.eqb c 12288 || N.eqb c 65279.

Fixpoint trimStart (s : jsstring) : jsstring :=
  match s with
  | [] => []
  | c :: s' => if isWhiteSpace c then trimStart s' else s
  end.

Definition trimEnd (s : jsstring) : jsstring := rev (trimStart (rev s)).

Definition trim (s : jsstring) : jsstring := trimEnd (trimStart s).

(** Decimal rendering of a natural number ([n.toString()], template
    literals). *)
Fixpoint uint_codes (d : Decimal.uint) : jsstring :=
  match d with
  | Decimal.Nil => []
  | Decimal.D0 d => 48%N :: uint_codes d
  | Decimal.D1 d => 49%N :: uint_codes d
  | Decimal.D2 d => 50%N :: uint_codes d
  | Decimal.D3 d => 51%N :: uint_codes d
  | Decimal.D4 d => 52%N :: uint_codes d
  | Decimal.D5 d => 53%N :: uint_codes d
  | Decimal.D6 d => 54%N :: uint_codes d
  | Decimal.D7 d => 55%N :: uint_codes d
  | Decimal.D8 d => 56%N :: uint_codes d
  | Decimal.D9 d => 57%N :: uint_codes d
  end.

Definition ofNat (n : nat) : jsstring := uint_codes (Nat.to_uint n).

(** [Array.prototype.join]. *)
Fixpoint join (sep : jsstring) (parts : list jsstring) : jsstring :=
  match parts with
  | [] => []
  | [p] => p
  | p :: rest => p ++ sep ++ join sep rest
  end.

Fixpoint prefixb (p s : jsstring) : bool :=
  match p, s with
  | [], _ => true
  | x :: p', y :: s' => N.eqb x y && prefixb p' s'
  | _ :: _, [] => false
  end.

(** The text before and after the first occurrence of [pat] in [s]. *)
Fixpoint splitFirst (pat s : jsstring) : option (jsstring * jsstring) :=
  match s with
  | [] => if prefixb pat [] then Some ([], []) else None
  | c :: s' =>
      if prefixb pat s then Some ([], skipn (length pat) s)
      else match splitFirst pat s' with
           | Some (before, after) => Some (c :: before, after)
           | None => None
           end
  end.

(** GetSubstitution for a string pattern (no capture groups): [$$], [$&],
    [$`] and [$'] are expanded, every other character is literal. *)
Fixpoint substitution (matched before after tpl : jsstring) : jsstring :=
  match tpl with
  | [] => []
  | c :: r =>
      if N.eqb c 36 then
        match r with
        | [] => [c]
        | d :: r' =>
            if N.eqb d 36 then 36%N :: substitution matched before after r'
            else if N.eqb d 38 then matched ++ substitution matched before after r'
            else if N.eqb d 96 then before ++ substitution matched before after r'
            else if N.eqb d 39 then after ++ substitution matched before after r'
            else c :: substitution matched before after r
        end
      else c :: substitution matched before after r
  end.

(** [s.replace(pat, by)] with a string pattern: the first occurrence only. *)
Definition replace (s pat by_ : jsstring) : jsstring :=
  match splitFirst pat s with
  | None => s
  | Some (before, after) => before ++ substitution pat before after by_ ++ after
  end.

(** [Array.from(new Set(xs))]: a [Set] keeps the insertion order of the first
    occurrence of each value. *)
Definition setAdd (seen : list jsstring) (x : jsstring) : list jsstring :=
  if existsb (eqb x) seen then seen else seen ++ [x].

Definition arrayFromSet (xs : list jsstring) : list jsstring :=
  fold_left setAdd xs [].

End Js.

Import Js.

(** Code units of the non-ASCII punctuation used in the source texts. *)
Definition EM_DASH : N := 8212.
Definition BULLET : N := 8226.
Definition ELLIPSIS : N := 8230.

(* ===================================================================== *)
(** ** Data model (research-view.tsx, lib/api types as the view uses them) *)
(* ===================================================================== *)

Inductive RiskLevel := LOW | MEDIUM | HIGH.

Record IracRule := {
  rule_citation : jsstring;
  rule_source_url : jsstring;
  rule_binding : bool;
  rule_effective_date : jsstring
}.

Record Citation := {
  cit_title : jsstring;
  cit_court_or_publisher : jsstring;
  cit_date : jsstring;
  cit_url : jsstring;
  cit_note : option jsstring
}.

Record Jurisdiction := {
  jur_country : jsstring;
  jur_eu : bool;
  jur_ohada : bool
}.

Record Risk := {
  risk_level : RiskLevel;
  risk_why : jsstring;
  risk_hitl_required : bool
}.

Record IracPayload := {
  jurisdiction : Jurisdiction;
  issue : jsstring;
  rules : list IracRule;
  application : jsstring;
  conclusion : jsstring;
  citations : list Citation;
  risk : Risk
}.

Record NonAllowlisted := {
  na_title : option jsstring;
  na_url : jsstring
}.

Record RuleCounts := {
  rc_total : nat;
  rc_binding : nat;
  rc_nonBinding : nat
}.

(** [ratio] (a float, used only for the percentage text) is left out. *)
Record CitationSummary := {
  cs_total : nat;
  cs_allowlisted : nat;
  cs_nonAllowlisted : list NonAllowlisted;
  cs_translationWarnings : option (list jsstring);
  cs_rules : RuleCounts
}.

Record VerificationNote := {
  note_code : jsstring;
  note_message : jsstring
}.

Record Verification := {
  ver_status : option jsstring;
  ver_notes : list VerificationNote;
  ver_allowlistViolations : list jsstring
}.

Record TrustRisk := {
  tr_verification : option Verification
}.

Record Provenance := {
  prov_totalSources : nat;
  prov_withEli : nat;
  prov_withEcli : nat;
  prov_akomaArticles : nat;
  prov_residencyBreakdown : list (jsstring * nat);
  prov_bindingLanguages : list (jsstring * nat)
}.

Record Requirement := {
  req_version : jsstring
}.

Record Consent := {
  consent_requirement : option Requirement;
  consent_accepted : bool;
  consent_latestVersion : option jsstring
}.

Record CouncilOfEurope := {
  coe_requirement : option Requirement;
  coe_acknowledged : bool;
  coe_acknowledgedVersion : option jsstring
}.

Record FriaArtifact := {
  art_id : jsstring;
  art_title : jsstring;
  art_evidenceUrl : option jsstring;
  art_releaseTag : option jsstring;
  art_validated : bool
}.

Record Compliance := {
  friaRequired : bool;
  friaValidated : bool;
  friaReasons : list jsstring;
  friaArtifacts : list FriaArtifact;
  cepejPassed : bool;
  cepejViolations : list jsstring;
  consent : Consent;
  councilOfEurope : CouncilOfEurope
}.

Record TrustPanel := {
  tp_citationSummary : option CitationSummary;
  tp_provenance : option Provenance;
  tp_risk : option TrustRisk;
  tp_compliance : option Compliance
}.

Record AgentRef := {
  agent_code : jsstring;
  agent_label : jsstring
}.

Record Notice := {
  notice_message : jsstring
}.

(** [plan] and [toolLogs] are only handed to the plan drawer and are left
    out. *)
Record AgentRunResponse := {
  runId : jsstring;
  run_agent : option AgentRef;
  run_data : option IracPayload;
  run_notices : list Notice;
  run_reused : bool;
  run_verification : option Verification;
  run_trustPanel : option TrustPanel
}.

(** The texts of [messages.research.trust] and
    [messages.research.compliance] the compliance and allowlist sections use.
    The i18n catalogue is not part of the sources; it is a parameter. *)
Record TrustMessages := {
  msg_allowlistClean : jsstring;
  msg_allowlistIssues : jsstring;
  msg_complianceFria : jsstring;
  msg_complianceFriaFallback : jsstring;
  msg_complianceCepej : jsstring;
  msg_complianceCepejFallback : jsstring;
  msg_complianceConsentPending : jsstring;
  msg_complianceConsentAcknowledged : jsstring;
  msg_complianceCoePending : jsstring;
  msg_complianceCoeAcknowledged : jsstring;
  msg_complianceFriaValidated : jsstring;
  msg_complianceFriaPending : jsstring;
  msg_complianceFriaNotRequired : jsstring;
  msg_complianceResolved : jsstring;
  msg_complianceResolvedDetail : jsstring;
  msg_complianceUnavailable : jsstring;
  msg_complianceFriaEvidence : jsstring;
  msg_complianceFriaEvidenceValidated : jsstring;
  msg_complianceFriaEvidencePending : jsstring;
  (** [complianceMessages.cepejViolations[code]], [None] for [undefined] *)
  msg_cepejViolations : jsstring -> option jsstring
}.

(** An element without a [className]. *)
Definition noClass : string := EmptyString.

(** Rendered markup: text, an element with its class names, a link. *)
#[local] Set Warnings "-register-all".
Inductive Node :=
| Text (t : jsstring)
| El (tag : string) (className : string) (children : list Node)
| Anchor (href : jsstring) (className : string) (children : list Node).

(* ===================================================================== *)
(** ** Trust and compliance view-model (research-view.tsx, 266-412) *)
(* ===================================================================== *)

Module Trust.

Section Derivations.

(** [new URL(url).hostname]; [None] when the constructor throws. *)
Variable url_hostname : jsstring -> option jsstring.
Variable trustMessages : TrustMessages.
Variable latestRun : option AgentRunResponse.

(** [a ?? b] on nullable values. *)
Definition nullish {A} (a b : option A) : option A :=
  match a with Some _ => a | None => b end.

Definition opt_bind {A B} (a : option A) (f : A -> option B) : option B :=
  match a with Some x => f x | None => None end.

Definition trustPanel : option TrustPanel :=
  opt_bind latestRun run_trustPanel.

Definition trustCitationSummary : option CitationSummary :=
  opt_bind trustPanel tp_citationSummary.

Definition trustRisk : option TrustRisk :=
  opt_bind trustPanel tp_risk.

Definition trustCompliance : option Compliance :=
  opt_bind trustPanel tp_compliance.

Definition verification : option Verification :=
  nullish (opt_bind latestRun run_verification)
          (opt_bind trustRisk tr_verification).

Definition allowlistViolations : list jsstring :=
  match verification with
  | Some v => ver_allowlistViolations v
  | None => []
  end.

(** The callback of [allowlistViolations.map]: hostname, or the raw string
    when [new URL] throws. *)
Definition hostOrRaw (url : jsstring) : jsstring :=
  match url_hostname url with
  | Some h => h
  | None => url
  end.

Definition fallbackViolationHosts : list jsstring :=
  if Nat.eqb (length allowlistViolations) 0 then []
  else
    let hosts := filter truthy (map hostOrRaw allowlistViolations) in
    arrayFromSet hosts.

Definition allowlistClean : bool :=
  match trustCitationSummary with
  | Some cs => Nat.eqb (length (cs_nonAllowlisted cs)) 0
  | None => Nat.eqb (length allowlistViolations) 0
  end.

Definition optTruthy (s : option jsstring) : bool :=
  match s with Some t => truthy t | None => false end.

Definition allowlistDetails : list jsstring :=
  match trustCitationSummary with
  | Some cs =>
      map (fun item =>
             match na_title item with
             | Some t =>
                 if truthy t
                 then t ++ [32%N; EM_DASH; 32%N] ++ na_url item
                 else na_url item
             | None => na_url item
             end)
          (cs_nonAllowlisted cs)
  | None => fallbackViolationHosts
  end.

Definition allowlistSummary : jsstring :=
  if allowlistClean then msg_allowlistClean trustMessages
  else msg_allowlistIssues trustMessages.

(** [issues.push(x)] *)
Definition push (issues : list jsstring) (x : jsstring) : list jsstring :=
  issues ++ [x].

Definition cepejDetail (tc : Compliance) : jsstring :=
  if negb (Nat.eqb (length (cepejViolations tc)) 0) then
    join [32%N; BULLET; 32%N]
         (map (fun code =>
                 match msg_cepejViolations trustMessages code with
                 | Some text => text
                 | None => msg_complianceCepejFallback trustMessages
                 end)
              (cepejViolations tc))
  else msg_complianceCepejFallback trustMessages.

Definition complianceIssues : list jsstring :=
  match trustCompliance with
  | None => []
  | Some tc =>
      let issues := [] in
      let issues :=
        if friaRequired tc && negb (friaValidated tc) then
          let reason :=
            match friaReasons tc with
            | r :: _ => r
            | [] => msg_complianceFriaFallback trustMessages
            end in
          push issues
               (replace (msg_complianceFria trustMessages) (lit "{reason}") reason)
        else issues in
      let issues :=
        if negb (cepejPassed tc) then
          push issues
               (replace (msg_complianceCepej trustMessages) (lit "{detail}")
                        (cepejDetail tc))
        else issues in
      let issues :=
        match consent_requirement (consent tc) with
        | Some requirement =>
            if negb (consent_accepted (consent tc)) then
              push issues
                   (replace (msg_complianceConsentPending trustMessages)
                            (lit "{version}") (req_version requirement))
            else issues
        | None => issues
        end in
      let issues :=
        match coe_requirement (councilOfEurope tc) with
        | Some requirement =>
            if truthy (req_version requirement)
               && negb (coe_acknowledged (councilOfEurope tc)) then
              push issues
                   (replace (msg_complianceCoePending trustMessages)
                            (lit "{version}") (req_version requirement))
            else issues
        | None => issues
        end in
      issues
  end.

Definition complianceStatusMessages : list jsstring :=
  match trustCompliance with
  | None => []
  | Some tc =>
      let statuses := [] in
      let statuses :=
        if friaRequired tc then
          push statuses
               (if friaValidated tc
                then msg_complianceFriaValidated trustMessages
                else msg_complianceFriaPending trustMessages)
        else push statuses (msg_complianceFriaNotRequired trustMessages) in
      let statuses :=
        match consent_requirement (consent tc) with
        | Some requirement =>
            push statuses
                 (if consent_accepted (consent tc)
                  then replace (msg_complianceConsentAcknowledged trustMessages)
                               (lit "{version}") (req_version requirement)
                  else replace (msg_complianceConsentPending trustMessages)
                               (lit "{version}") (req_version requirement))
        | None =>
            match consent_latestVersion (consent tc) with
            | Some v =>
                if truthy v then
                  push statuses
                       (replace (msg_complianceConsentAcknowledged trustMessages)
                                (lit "{version}") v)
                else statuses
            | None => statuses
            end
        end in
      let coeVersion :=
        match coe_requirement (councilOfEurope tc) with
        | Some requirement =>
            if truthy (req_version requirement)
            then Some (req_version requirement) else None
        | None => None
        end in
      let statuses :=
        match coeVersion with
        | Some v =>
            push statuses
                 (if coe_acknowledged (councilOfEurope tc)
                  then replace (msg_complianceCoeAcknowledged trustMessages)
                               (lit "{version}") v
                  else replace (msg_complianceCoePending trustMessages)
                               (lit "{version}") v)
        | None =>
            match coe_acknowledgedVersion (councilOfEurope tc) with
            | Some v =>
                if truthy v then
                  push statuses
                       (replace (msg_complianceCoeAcknowledged trustMessages)
                                (lit "{version}") v)
                else statuses
            | None => statuses
            end
        end in
      statuses
  end.

(** One [<li>] of the FRIA evidence list (lines 909-937). *)
Definition artifactItem (artifact : FriaArtifact) : Node :=
  El "li" noClass
     ([ if optTruthy (art_evidenceUrl artifact) then
          Anchor (match art_evidenceUrl artifact with Some u => u | None => [] end)
                 "underline decoration-slate-500/70 hover:decoration-slate-200"
                 [Text (art_title artifact)]
        else Text (art_title artifact) ]
      ++ [ Text (match art_releaseTag artifact with
                 | Some tag =>
                     if truthy tag then [32%N; EM_DASH; 32%N] ++ tag else []
                 | None => []
                 end) ]
      ++ [ El "span"
              (if art_validated artifact
               then "ml-2 rounded-full px-2 py-0.5 text-xs uppercase tracking-wide bg-teal-500/20 text-teal-100"
               else "ml-2 rounded-full px-2 py-0.5 text-xs uppercase tracking-wide bg-amber-500/20 text-amber-100")
              [Text (if art_validated artifact
                     then msg_complianceFriaEvidenceValidated trustMessages
                     else msg_complianceFriaEvidencePending trustMessages)] ]).

(** What is rendered under the compliance heading (lines 882-944). *)
Definition complianceSection : list Node :=
  match trustCompliance with
  | Some tc =>
      (if Nat.eqb (length complianceIssues) 0 then
         [ El "p" "mt-1 text-slate-200" [Text (msg_complianceResolved trustMessages)];
           El "p" "mt-1 text-slate-300" [Text (msg_complianceResolvedDetail trustMessages)] ]
       else
         [ El "ul" "mt-2 space-y-1 list-inside list-disc text-amber-200"
              (map (fun issue => El "li" noClass [Text issue]) complianceIssues) ])
      ++ (if Nat.ltb 0 (length complianceStatusMessages) then
            [ El "ul" "mt-3 space-y-1 list-inside list-disc text-slate-300"
                 (map (fun status => El "li" noClass [Text status])
                      complianceStatusMessages) ]
          else [])
      ++ (if Nat.ltb 0 (length (friaArtifacts tc)) then
            [ El "div" "mt-3 space-y-2"
                 [ El "p" "text-xs font-semibold uppercase tracking-wide text-slate-400"
                      [Text (msg_complianceFriaEvidence trustMessages)];
                   El "ul" "space-y-1 text-sm text-slate-300"
                      (map artifactItem (friaArtifacts tc)) ] ]
          else [])
  | None =>
      [ El "p" "mt-1 text-slate-400" [Text (msg_complianceUnavailable trustMessages)] ]
  end.

End Derivations.

End Trust.

(* ===================================================================== *)
(** ** Outbox store (hooks/use-outbox) *)
(* ===================================================================== *)

Module Outbox.

(** The type of [agentSettings] is declared outside the sources; the view
    only passes the value through. *)
Inductive AgentSettings := RawSettings (raw : jsstring).

(** The argument of [enqueue]: an item without its id. *)
Record OutboxInput := {
  in_question : jsstring;
  in_context : jsstring;
  in_confidentialMode : bool;
  in_agentCode : jsstring;
  in_agentLabel : jsstring;
  in_agentSettings : option AgentSettings
}.

Record OutboxItem := {
  item_id : nat;
  item_question : jsstring;
  item_context : jsstring;
  item_confidentialMode : bool;
  item_agentCode : jsstring;
  item_agentLabel : jsstring;
  item_agentSettings : option AgentSettings
}.

(** Modelled from the spec: the id generator of the outbox hook, which is
    missing from the sources ("assigns a fresh unique id"). Ids are natural
    numbers here; a fresh one is above every id in the queue. *)
Definition freshId (items : list OutboxItem) : nat :=
  S (list_max (map item_id items)).

(** Modelled from the spec: [enqueue] of the outbox hook, which is missing
    from the sources ("assigns a fresh unique id, appends to the end of the
    ordered sequence"). *)
Definition enqueue (input : OutboxInput) (items : list OutboxItem)
  : list OutboxItem :=
  items ++ [ {| item_id := freshId items;
                item_question := in_question input;
                item_context := in_context input;
                item_confidentialMode := in_confidentialMode input;
                item_agentCode := in_agentCode input;
                item_agentLabel := in_agentLabel input;
                item_agentSettings := in_agentSettings input |} ].

(** Modelled from the spec: [remove] of the outbox hook, which is missing
    from the sources ("removes the item with that id if present; no-op if
    absent"). *)
Definition remove (id : nat) (items : list OutboxItem) : list OutboxItem :=
  filter (fun it => negb (Nat.eqb (item_id it) id)) items.

End Outbox.

Import Outbox.

(* ===================================================================== *)
(** ** Submission orchestrator (research-view.tsx, 96-112, 201-237, 494-670) *)
(* ===================================================================== *)

Module Orchestrator.

Inductive Locale := Fr | En.

Inductive Source := Manual | Auto.

(** The argument of [submitResearchQuestion]. *)
Record AgentRequest := {
  rq_question : jsstring;
  rq_context : jsstring;
  rq_orgId : jsstring;
  rq_userId : jsstring;
  rq_confidentialMode : bool;
  rq_agentCode : jsstring;
  (** [None] stands for [undefined] and for an omitted property *)
  rq_agentSettings : option AgentSettings
}.

(** What a [catch] clause receives: an [Error] instance with its [message]
    property, or any other thrown value. *)
Inductive Thrown :=
| ErrorInstance (message : jsstring)
| NotAnError.

(** How the promise of [mutation.mutateAsync] settles. *)
Inductive AgentOutcome :=
| Resolved (data : AgentRunResponse)
| Rejected (error : Thrown).

Inductive JsValue :=
| JNull
| JBool (b : bool)
| JNum (n : nat)
| JStr (s : jsstring).

(** The effects a handler performs, in the order it performs them. *)
Inductive Effect :=
| PreventDefault
| ToastError (message : jsstring) (id : option jsstring)
| ToastInfo (message : jsstring)
| ToastSuccess (message : jsstring) (id : option jsstring)
| TelemetryEvent (name : string) (props : list (string * JsValue))
| AgentCall (request : AgentRequest)
| WindowEvent (name : string)
| WindowOpen (url : jsstring).

Record AgentOption := {
  opt_key : jsstring;
  opt_code : jsstring;
  opt_label : jsstring;
  opt_mission : jsstring
}.

Record OutboxMessages := {
  om_queued : jsstring;
  om_sent : option jsstring;
  om_stillOffline : jsstring
}.

(** What the component gets from outside: props, module constants and the
    agent service. *)
Record Env := {
  locale : Locale;
  outboxMessages : OutboxMessages;
  AGENT_OPTIONS : list AgentOption;
  DEMO_ORG_ID : jsstring;
  DEMO_USER_ID : jsstring;
  (** the settled result of [submitResearchQuestion] for a request *)
  submitResearchQuestion : AgentRequest -> AgentOutcome
}.

(** The React state of [ResearchView] and of the hooks it uses. *)
Record ViewState := {
  question : jsstring;
  context : jsstring;
  ohadaMode : bool;
  euOverlay : bool;
  confidentialMode : bool;
  agentCode : jsstring;
  latestRun : option AgentRunResponse;
  (** [open] of [usePlanDrawer] *)
  planOpen : bool;
  (** [useOnlineStatus()] *)
  online : bool;
  (** [items] of [useOutbox()] *)
  outboxItems : list OutboxItem
}.

(** A handler: from the state it runs in to its result, the state it leaves
    and the effects it performed. *)
Definition M (A : Type) : Type := ViewState -> A * ViewState * list Effect.

Definition ret {A} (a : A) : M A := fun s => (a, s, []).

Definition bind {A B} (m : M A) (f : A -> M B) : M B :=
  fun s =>
    let '(a, s1, e1) := m s in
    let '(b, s2, e2) := f a s1 in
    (b, s2, e1 ++ e2).

Declare Scope handler_scope.
Delimit Scope handler_scope with handler.
Notation "x <- m ;; k" := (bind m (fun x => k))
  (at level 61, m at next level, right associativity) : handler_scope.
Notation "m ;; k" := (bind m (fun _ => k))
  (at level 61, right associativity) : handler_scope.
Local Open Scope handler_scope.

Definition getState : M ViewState := fun s => (s, s, []).

Definition perform (e : Effect) : M unit := fun s => (tt, s, [e]).

Definition when (b : bool) (m : M unit) : M unit :=
  if b then m else ret tt.

Definition resultOf {A} (r : A * ViewState * list Effect) : A := fst (fst r).
Definition stateOf {A} (r : A * ViewState * list Effect) : ViewState := snd (fst r).
Definition effectsOf {A} (r : A * ViewState * list Effect) : list Effect := snd r.

(** *** State setters *)

Definition setQuestion (v : jsstring) : M unit := fun s =>
  (tt, {| question := v; context := context s; ohadaMode := ohadaMode s;
          euOverlay := euOverlay s; confidentialMode := confidentialMode s;
          agentCode := agentCode s; latestRun := latestRun s;
          planOpen := planOpen s; online := online s;
          outboxItems := outboxItems s |}, []).

Definition setContext (v : jsstring) : M unit := fun s =>
  (tt, {| question := question s; context := v; ohadaMode := ohadaMode s;
          euOverlay := euOverlay s; confidentialMode := confidentialMode s;
          agentCode := agentCode s; latestRun := latestRun s;
          planOpen := planOpen s; online := online s;
          outboxItems := outboxItems s |}, []).

Definition setLatestRun (data : AgentRunResponse) : M unit := fun s =>
  (tt, {| question := question s; context := context s; ohadaMode := ohadaMode s;
          euOverlay := euOverlay s; confidentialMode := confidentialMode s;
          agentCode := agentCode s; latestRun := Some data;
          planOpen := planOpen s; online := online s;
          outboxItems := outboxItems s |}, []).

(** [toggle(value)] of the plan drawer store *)
Definition toggle (value : bool) : M unit := fun s =>
  (tt, {| question := question s; context := context s; ohadaMode := ohadaMode s;
          euOverlay := euOverlay s; confidentialMode := confidentialMode s;
          agentCode := agentCode s; latestRun := latestRun s;
          planOpen := value; online := online s;
          outboxItems := outboxItems s |}, []).

Definition setOutboxItems (f : list OutboxItem -> list OutboxItem) : M unit :=
  fun s =>
  (tt, {| question := question s; context := context s; ohadaMode := ohadaMode s;
          euOverlay := euOverlay s; confidentialMode := confidentialMode s;
          agentCode := agentCode s; latestRun := latestRun s;
          planOpen := planOpen s; online := online s;
          outboxItems := f (outboxItems s) |}, []).

(** [enqueue] and [remove] of [useOutbox()], acting on the queue held in
    the state. *)
Definition enqueue (input : OutboxInput) : M unit :=
  setOutboxItems (Outbox.enqueue input).

Definition remove (id : nat) : M unit :=
  setOutboxItems (Outbox.remove id).

Section Handlers.

Variable env : Env.

Definition successMessage : jsstring :=
  match locale env with
  | Fr => lit "Analyse pr" ++ [234%N] ++ lit "te"
  | En => lit "Analysis ready"
  end.

Definition validationMessage : jsstring :=
  match locale env with
  | Fr => lit "Veuillez saisir une question juridique."
  | En => lit "Please enter a legal question."
  end.

Definition selectedAgent (s : ViewState) : option AgentOption :=
  match find (fun option => Js.eqb (opt_code option) (agentCode s))
             (AGENT_OPTIONS env) with
  | Some option => Some option
  | None => hd_error (AGENT_OPTIONS env)
  end.

(** [selectedAgent?.label ?? agentCode] *)
Definition selectedAgentLabel (s : ViewState) : jsstring :=
  match selectedAgent s with
  | Some option => opt_label option
  | None => agentCode s
  end.

Definition telemetryEnabled (s : ViewState) : bool :=
  negb (confidentialMode s).

Definition sendTelemetryEvent (name : string) (props : list (string * JsValue))
  : M unit :=
  perform (TelemetryEvent name props).

(** [await mutation.mutateAsync(request)] *)
Definition mutateAsync (request : AgentRequest) : M AgentOutcome :=
  perform (AgentCall request) ;;
  ret (submitResearchQuestion env request).

(** [error instanceof Error ? error.message : 'Agent indisponible'] *)
Definition failureMessage (error : Thrown) : jsstring :=
  match error with
  | ErrorInstance message => message
  | NotAnError => lit "Agent indisponible"
  end.

(** The object literal both [enqueue] calls of [onSubmit] build. *)
Definition submittedInput (s : ViewState) : OutboxInput :=
  {| in_question := question s;
     in_context := context s;
     in_confidentialMode := confidentialMode s;
     in_agentCode := agentCode s;
     in_agentLabel := selectedAgentLabel s;
     in_agentSettings := None |}.

Definition submittedRequest (s : ViewState) : AgentRequest :=
  {| rq_question := question s;
     rq_context := context s;
     rq_orgId := DEMO_ORG_ID env;
     rq_userId := DEMO_USER_ID env;
     rq_confidentialMode := confidentialMode s;
     rq_agentCode := agentCode s;
     rq_agentSettings := None |}.

Definition riskLevelName (l : RiskLevel) : jsstring :=
  match l with
  | LOW => lit "LOW"
  | MEDIUM => lit "MEDIUM"
  | HIGH => lit "HIGH"
  end.

Definition onSubmit : M unit :=
  perform PreventDefault ;;
  s <- getState ;;
  if negb (truthy (trim (question s))) then
    perform (ToastError validationMessage None)
  else if negb (online s) then
    enqueue (submittedInput s) ;;
    perform (ToastInfo (om_queued (outboxMessages env))) ;;
    when (telemetryEnabled s)
         (sendTelemetryEvent "outbox_enqueued"
            [("offline", JBool true); ("agent", JStr (agentCode s))]) ;;
    setQuestion [] ;;
    setContext []
  else
    when (telemetryEnabled s)
         (sendTelemetryEvent "run_submitted"
            [("questionLength", JNum (length (question s)));
             ("ohadaMode", JBool (ohadaMode s));
             ("euOverlay", JBool (euOverlay s));
             ("confidentialMode", JBool (confidentialMode s));
             ("agent", JStr (agentCode s))]) ;;
    outcome <- mutateAsync (submittedRequest s) ;;
    match outcome with
    | Resolved data =>
        setLatestRun data ;;
        toggle true ;;
        perform (ToastSuccess successMessage None) ;;
        perform (WindowEvent "avocat-run-success") ;;
        when (telemetryEnabled s)
             (sendTelemetryEvent "run_completed"
                [("runId", JStr (runId data));
                 ("jurisdiction",
                  match run_data data with
                  | Some d => JStr (jur_country (jurisdiction d))
                  | None => JNull
                  end);
                 ("risk",
                  match run_data data with
                  | Some d => JStr (riskLevelName (risk_level (risk d)))
                  | None => JNull
                  end);
                 ("agent",
                  JStr (match run_agent data with
                        | Some a => agent_code a
                        | None => agentCode s
                        end))])
    | Rejected error =>
        let message := failureMessage error in
        perform (ToastError message None) ;;
        when (telemetryEnabled s)
             (sendTelemetryEvent "run_failed"
                [("message", JStr message); ("agent", JStr (agentCode s))]) ;;
        enqueue (submittedInput s) ;;
        perform (ToastInfo (om_queued (outboxMessages env))) ;;
        when (telemetryEnabled s)
             (sendTelemetryEvent "outbox_enqueued"
                [("offline", JBool false); ("agent", JStr (agentCode s))])
    end.

(** [latestRun?.data?.jurisdiction.country ?? null] as a telemetry value *)
Definition jurisdictionCode (s : ViewState) : JsValue :=
  match latestRun s with
  | Some run =>
      match run_data run with
      | Some d => JStr (jur_country (jurisdiction d))
      | None => JNull
      end
  | None => JNull
  end.

Definition handleVoiceTranscript (text : jsstring) : M unit :=
  s <- getState ;;
  setQuestion (if truthy (question s)
               then trim (question s) ++ [32%N] ++ text
               else text) ;;
  when (telemetryEnabled s) (sendTelemetryEvent "voice_dictation_used" []).

Definition handleOcrText (text : jsstring) : M unit :=
  s <- getState ;;
  setContext (if truthy (context s)
              then context s ++ [10%N] ++ text
              else text) ;;
  when (telemetryEnabled s) (sendTelemetryEvent "camera_ocr_added" []).

Definition handleBilingualSelect (language : Locale) : M unit :=
  s <- getState ;;
  when (telemetryEnabled s)
       (sendTelemetryEvent "bilingual_toggle"
          [("language", JStr (match language with Fr => lit "fr" | En => lit "en" end));
           ("jurisdiction", jurisdictionCode s)]).

Definition handleCitationVisit (url : jsstring) : M unit :=
  s <- getState ;;
  when (telemetryEnabled s)
       (sendTelemetryEvent "citation_clicked"
          [("url", JStr url); ("jurisdiction", jurisdictionCode s)]).

Definition verifyCitation (url : jsstring) : M unit :=
  s <- getState ;;
  perform (WindowOpen url) ;;
  when (telemetryEnabled s) (sendTelemetryEvent "citation_verify" [("url", JStr url)]).

Definition isAuto (source : Source) : bool :=
  match source with Auto => true | Manual => false end.

Definition isManual (source : Source) : bool :=
  match source with Manual => true | Auto => false end.

Definition itemRequest (item : OutboxItem) : AgentRequest :=
  {| rq_question := item_question item;
     rq_context := item_context item;
     rq_orgId := DEMO_ORG_ID env;
     rq_userId := DEMO_USER_ID env;
     rq_confidentialMode := item_confidentialMode item;
     rq_agentCode := item_agentCode item;
     rq_agentSettings := item_agentSettings item |}.

Definition outboxToastId (item : OutboxItem) : jsstring :=
  lit "outbox-" ++ ofNat (item_id item).

Definition outboxTelemetryName (source : Source) : string :=
  match source with
  | Manual => "outbox_retry"
  | Auto => "outbox_auto_flush"
  end.

(** [processOutboxItem] is a [useCallback] closure: [snap] is the state of
    the render it was created in ([open], [telemetryEnabled]). *)
Definition processOutboxItem (snap : ViewState) (item : OutboxItem)
  (source : Source) : M bool :=
  if item_confidentialMode item && isAuto source then ret false
  else
    outcome <- mutateAsync (itemRequest item) ;;
    match outcome with
    | Resolved data =>
        setLatestRun data ;;
        when (isManual source || negb (planOpen snap)) (toggle true) ;;
        let toastId := outboxToastId item in
        let successLabel :=
          match source with
          | Manual => successMessage
          | Auto =>
              match om_sent (outboxMessages env) with
              | Some sent => sent
              | None => successMessage
              end
          end in
        perform (ToastSuccess successLabel (Some toastId)) ;;
        perform (WindowEvent "avocat-run-success") ;;
        let itemTelemetryEnabled :=
          telemetryEnabled snap && negb (item_confidentialMode item) in
        when itemTelemetryEnabled
             (sendTelemetryEvent (outboxTelemetryName source)
                [("success", JBool true);
                 ("runId", JStr (runId data));
                 ("agent",
                  JStr (match run_agent data with
                        | Some a => agent_code a
                        | None => item_agentCode item
                        end))]) ;;
        ret true
    | Rejected error =>
        let message := failureMessage error in
        perform (ToastError message (Some (outboxToastId item))) ;;
        let itemTelemetryEnabled :=
          telemetryEnabled snap && negb (item_confidentialMode item) in
        when itemTelemetryEnabled
             (sendTelemetryEvent (outboxTelemetryName source)
                [("success", JBool false);
                 ("message", JStr message);
                 ("agent", JStr (item_agentCode item))]) ;;
        ret false
    end.

Definition handleOutboxRetry (item : OutboxItem) : M unit :=
  s <- getState ;;
  if negb (online s) then
    perform (ToastInfo (om_stillOffline (outboxMessages env)))
  else
    success <- processOutboxItem s item Manual ;;
    if success then remove (item_id item) else ret tt.

(** Modelled from the spec: the loop of [flush] of the outbox hook, which is
    missing from the sources ("iterates the current items in insertion
    order; for each, invokes the sender; on success, removes that item from
    the store; on failure, leaves it in place and continues to the next
    item"). *)
Fixpoint flushItems (sender : OutboxItem -> M bool) (items : list OutboxItem)
  : M unit :=
  match items with
  | [] => ret tt
  | item :: rest =>
      sent <- sender item ;;
      (if sent then remove (item_id item) else ret tt) ;;
      flushItems sender rest
  end.

(** Modelled from the spec: [flush] of the outbox hook, which is missing
    from the sources; it goes through the items that are queued when it
    starts ("iterates the current items in insertion order"). *)
Definition flush (sender : OutboxItem -> M bool) : M unit :=
  s <- getState ;;
  flushItems sender (outboxItems s).

(** The effect that runs when [online] or the outbox changes
    (lines 658-663). *)
Definition autoFlush : M unit :=
  s <- getState ;;
  if negb (online s) || Nat.eqb (length (outboxItems s)) 0 then ret tt
  else flush (fun item => processOutboxItem s item Auto).

End Handlers.


(** *** Classifying effects *)

Definition isTelemetry (e : Effect) : bool :=
  match e with TelemetryEvent _ _ => true | _ => false end.

Definition isAgentCall (e : Effect) : bool :=
  match e with AgentCall _ => true | _ => false end.

Definition isToastError (e : Effect) : bool :=
  match e with ToastError _ _ => true | _ => false end.

(** Whether the agent accepts the request of an item. *)
Definition agentAccepts (env : Env) (item : OutboxItem) : bool :=
  match submitResearchQuestion env (itemRequest env item) with
  | Resolved _ => true
  | Rejected _ => false
  end.


(** The names of the telemetry events of an effect log, in order. *)
Fixpoint telemetryNames (effects : list Effect) : list string :=
  match effects with
  | [] => []
  | TelemetryEvent name _ :: rest => name :: telemetryNames rest
  | _ :: rest => telemetryNames rest
  end.

Definition isToast (e : Effect) : bool :=
  match e with
  | ToastError _ _ | ToastInfo _ | ToastSuccess _ _ => true
  | _ => false
  end.

End Orchestrator.

(* ===================================================================== *)
(** ** Exporters (lib/exporters.ts) and the export buttons of the view *)
(* ===================================================================== *)

Module Exporters.

(** The [manifest] of a signature is never read by the exporters and is
    left out. *)
Record C2PASignature := {
  signature : jsstring;
  keyId : jsstring;
  algorithm : jsstring;
  signedAt : jsstring;
  statementId : jsstring
}.

(** The body and headers of [POST /exports/sign]. *)
Record SignRequest := {
  sr_url : jsstring;
  sr_userId : jsstring;
  sr_orgId : jsstring;
  sr_contentSha256 : jsstring;
  sr_filename : jsstring
}.

(** How [await res.json()] settles. The promise rejects when the body is not
    JSON. A body that parses is cast to [C2PASignature] unchecked; the
    exporters first test it for truthiness, so a falsy value ([null],
    [false], [0] or the empty string) is kept apart, and a truthy one is
    taken to have the fields of the cast. *)
Inductive JsonBody :=
| JsonRejected
| JsonFalsy
| JsonSignature (proof : C2PASignature).

Record Response := {
  res_ok : bool;
  (** [await res.text()]; [None] when reading the body rejects *)
  res_text : option jsstring;
  (** [await res.json()] *)
  res_json : JsonBody
}.

(** How the promise of [fetch] settles: it rejects on a network failure and
    resolves with a response (of any status) otherwise. *)
Inductive FetchOutcome :=
| FetchRejected
| FetchResponse (res : Response).

Inductive Paragraph :=
| Plain (text : jsstring)
| Heading1 (text : jsstring)
| Heading2Bold (text : jsstring)
| Bullet (text : jsstring)
| Indented (text : jsstring) (left : nat).

Inductive ExportEffect :=
| Fetch (request : SignRequest)
| ConsoleWarn (tag : string) (detail : jsstring)
| ConsoleError (tag : string)
| NewPdf
| SetFont (family style : string)
| SetFontSize (size : Z)
| DrawText (lines : list jsstring) (x y : Z)
| SavePdf (filename : jsstring)
| SaveAs (document : list Paragraph) (filename : jsstring)
| ToastLoading (message : jsstring) (id : string)
| ToastSuccess (message : jsstring) (id : string)
| ToastError (message : jsstring) (id : string).

(** Browser and library services the exporters call. *)
Record Platform := {
  API_BASE : jsstring;
  DEMO_ORG_ID : jsstring;
  DEMO_USER_ID : jsstring;
  (** [await crypto.subtle.digest('SHA-256', data)] on the UTF-8 encoding,
      as lower-case hexadecimal; [None] when the digest is not available and
      the call throws or its promise rejects *)
  sha256Hex : jsstring -> option jsstring;
  toLowerCase : jsstring -> jsstring;
  (** [new Date(s).toLocaleString()] *)
  dateToLocaleString : jsstring -> jsstring;
  (** [doc.splitTextToSize(content, width)] of jsPDF *)
  splitTextToSize : jsstring -> Z -> list jsstring;
  jsonStringify : IracPayload -> jsstring;
  fetch : SignRequest -> FetchOutcome
}.

(** An async function either fulfils with a value or rejects; the effects
    performed up to that point are kept. *)
Inductive Settled (A : Type) :=
| Fulfilled (a : A)
| RejectedPromise.
Arguments Fulfilled {A} a.
Arguments RejectedPromise {A}.

Definition X (A : Type) : Type := Settled A * list ExportEffect.

Definition xret {A} (a : A) : X A := (Fulfilled a, []).

Definition xbind {A B} (m : X A) (f : A -> X B) : X B :=
  match m with
  | (Fulfilled a, e1) => let '(r, e2) := f a in (r, e1 ++ e2)
  | (RejectedPromise, e1) => (RejectedPromise, e1)
  end.

Definition xdo (e : ExportEffect) : X unit := (Fulfilled tt, [e]).

Definition xreject {A} : X A := (RejectedPromise, []).

(** [await] of a platform promise: its value, or the rejection passed on. *)
Definition xawait {A} (settled : option A) : X A :=
  match settled with
  | Some a => xret a
  | None => xreject
  end.

(** [try { body } catch { handler }] *)
Definition xcatch {A} (body : X A) (handler : X A) : X A :=
  match body with
  | (Fulfilled a, e1) => (Fulfilled a, e1)
  | (RejectedPromise, e1) => let '(r, e2) := handler in (r, e1 ++ e2)
  end.

Declare Scope export_scope.
Delimit Scope export_scope with export.
Notation "x <- m ;; k" := (xbind m (fun x => k))
  (at level 61, m at next level, right associativity) : export_scope.
Notation "m ;; k" := (xbind m (fun _ => k))
  (at level 61, right associativity) : export_scope.
Local Open Scope export_scope.

Section Documents.

Variable pf : Platform.

Definition formatRule (index : nat) (rule : IracRule) : jsstring :=
  ofNat (index + 1) ++ lit ". " ++ rule_citation rule ++ [10%N]
  ++ rule_source_url rule ++ [10%N] ++ rule_effective_date rule.

Fixpoint mapi {A B} (f : nat -> A -> B) (index : nat) (xs : list A) : list B :=
  match xs with
  | [] => []
  | x :: rest => f index x :: mapi f (S index) rest
  end.

Definition formatRules (payload : IracPayload) : jsstring :=
  join [10%N; 10%N] (mapi formatRule 0 (rules payload)).

Definition formatProofMetadata (proof : C2PASignature) : jsstring * jsstring :=
  let signedAt := dateToLocaleString pf (signedAt proof) in
  let firstLine :=
    lit "Signature " ++ algorithm proof ++ lit "/" ++ keyId proof
    ++ [32%N; EM_DASH; 32%N] ++ firstn 32 (signature proof) ++ [ELLIPSIS] in
  let secondLine :=
    lit "Statement " ++ statementId proof ++ [32%N; EM_DASH; 32%N] ++ signedAt in
  (firstLine, secondLine).

(** The request [signExport] posts for a content hash and a file name. *)
Definition signRequest (hash filename : jsstring) : SignRequest :=
  {| sr_url := API_BASE pf ++ lit "/exports/sign";
     sr_userId := DEMO_USER_ID pf;
     sr_orgId := DEMO_ORG_ID pf;
     sr_contentSha256 := hash;
     sr_filename := filename |}.

(** The result is [None] for the source's [null] and for a falsy JSON body:
    the callers only test [proof] for truthiness. *)
Definition signExport (text filename : jsstring) : X (option C2PASignature) :=
  hash <- xawait (sha256Hex pf text) ;;
  let request := signRequest hash filename in
  xdo (Fetch request) ;;
  match fetch pf request with
  | FetchRejected => xreject
  | FetchResponse res =>
      if negb (res_ok res) then
        detail <- xawait (res_text res) ;;
        xdo (ConsoleWarn "export_sign_failed" detail) ;;
        xret None
      else
        body <- xawait (match res_json res with
                        | JsonRejected => None
                        | JsonFalsy => Some None
                        | JsonSignature proof => Some (Some proof)
                        end) ;;
        xret body
  end.

Definition riskLevelName (l : RiskLevel) : jsstring :=
  match l with
  | LOW => lit "LOW"
  | MEDIUM => lit "MEDIUM"
  | HIGH => lit "HIGH"
  end.

Definition margin : Z := 48.
Definition lineHeight : Z := 16.

(** [addSection] of [exportIracToPdf]; the cursor is threaded explicitly. *)
Definition addSection (cursor : Z) (title content : jsstring) : X Z :=
  xdo (SetFont "Helvetica" "bold") ;;
  xdo (SetFontSize 13) ;;
  xdo (DrawText [title] margin cursor) ;;
  let cursor := (cursor + lineHeight)%Z in
  xdo (SetFont "Helvetica" "normal") ;;
  xdo (SetFontSize 11) ;;
  let textLines := splitTextToSize pf content 515 in
  xdo (DrawText textLines margin cursor) ;;
  xret (cursor + lineHeight * Z.of_nat (length textLines) + lineHeight / 2)%Z.

Record Headers := {
  h_issue : jsstring;
  h_rules : jsstring;
  h_application : jsstring;
  h_conclusion : jsstring;
  h_risk : jsstring
}.

Definition headers (locale : Orchestrator.Locale) : Headers :=
  match locale with
  | Orchestrator.Fr =>
      {| h_issue := lit "Question";
         h_rules := lit "R" ++ [232%N] ++ lit "gles";
         h_application := lit "Application";
         h_conclusion := lit "Conclusion";
         h_risk := lit "Risque" |}
  | Orchestrator.En =>
      {| h_issue := lit "Issue";
         h_rules := lit "Rules";
         h_application := lit "Application";
         h_conclusion := lit "Conclusion";
         h_risk := lit "Risk" |}
  end.

Definition documentTitle (payload : IracPayload) : jsstring :=
  lit "Analyse IRAC " ++ [EM_DASH; 32%N] ++ jur_country (jurisdiction payload).

Definition exportFilename (payload : IracPayload) (extension : string) : jsstring :=
  lit "analyse-irac-" ++ toLowerCase pf (jur_country (jurisdiction payload))
  ++ lit extension.

Definition exportIracToPdf (payload : IracPayload) (locale : Orchestrator.Locale)
  : X unit :=
  xdo NewPdf ;;
  let cursor := margin in
  let headers := headers locale in
  xdo (SetFont "Helvetica" "bold") ;;
  xdo (SetFontSize 16) ;;
  xdo (DrawText [documentTitle payload] margin cursor) ;;
  (* cursor += lineHeight * 1.5 *)
  let cursor := (cursor + lineHeight * 3 / 2)%Z in
  cursor <- addSection cursor (h_issue headers) (issue payload) ;;
  cursor <- addSection cursor (h_rules headers) (formatRules payload) ;;
  cursor <- addSection cursor (h_application headers) (application payload) ;;
  cursor <- addSection cursor (h_conclusion headers) (conclusion payload) ;;
  let riskText :=
    riskLevelName (risk_level (risk payload)) ++ [32%N; EM_DASH; 32%N]
    ++ risk_why (risk payload)
    ++ (if risk_hitl_required (risk payload)
        then [10%N] ++ lit "HITL requis" else []) in
  cursor <- addSection cursor (h_risk headers) riskText ;;
  proof <- signExport
             (join [10%N]
                   [issue payload; formatRules payload; application payload;
                    conclusion payload; riskText])
             (exportFilename payload ".pdf") ;;
  match proof with
   | Some proof =>
       xdo (SetFont "Helvetica" "normal") ;;
       xdo (SetFontSize 9) ;;
       let '(line1, line2) := formatProofMetadata proof in
       xdo (DrawText [line1] margin 800) ;;
       xdo (DrawText [line2] margin 814)
   | None => xret tt
   end ;;
  xdo (SavePdf (exportFilename payload ".pdf")).

(** The text whose hash the PDF export has signed: the five sections joined
    by line feeds (the first argument of [signExport] in [exportIracToPdf]). *)
Definition pdfSignedText (payload : IracPayload) : jsstring :=
  let riskText :=
    riskLevelName (risk_level (risk payload)) ++ [32%N; EM_DASH; 32%N]
    ++ risk_why (risk payload)
    ++ (if risk_hitl_required (risk payload)
        then [10%N] ++ lit "HITL requis" else []) in
  join [10%N]
       [issue payload; formatRules payload; application payload;
        conclusion payload; riskText].

Definition ruleParagraphs (index : nat) (rule : IracRule) : list Paragraph :=
  [ Bullet (ofNat (index + 1) ++ lit ". " ++ rule_citation rule);
    Indented (rule_source_url rule) 720;
    Indented (rule_effective_date rule) 720 ].

Definition proofParagraphs (proof : option C2PASignature) : list Paragraph :=
  match proof with
  | Some proof =>
      let proofLines := formatProofMetadata proof in
      [ Plain (fst proofLines); Plain (snd proofLines) ]
  | None => []
  end.

Definition exportIracToDocx (payload : IracPayload) (locale : Orchestrator.Locale)
  : X unit :=
  let labels := headers locale in
  proof <- signExport (jsonStringify pf payload) (exportFilename payload ".docx") ;;
  let document :=
    [ Heading1 (documentTitle payload);
      Plain [];
      Heading2Bold (h_issue labels);
      Plain (issue payload);
      Heading2Bold (h_rules labels) ]
    ++ concat (mapi ruleParagraphs 0 (rules payload))
    ++ [ Heading2Bold (h_application labels);
         Plain (application payload);
         Heading2Bold (h_conclusion labels);
         Plain (conclusion payload);
         Heading2Bold (h_risk labels);
         Plain (riskLevelName (risk_level (risk payload))
                ++ [32%N; EM_DASH; 32%N] ++ risk_why (risk payload));
         (if risk_hitl_required (risk payload)
          then Plain (match locale with
                      | Orchestrator.Fr => lit "Revue humaine requise."
                      | Orchestrator.En => lit "Human review required."
                      end)
          else Plain []) ]
    ++ proofParagraphs proof in
  xdo (SaveAs document (exportFilename payload ".docx")).

(** *** The export buttons (research-view.tsx, 809-830) *)

Record ExportMessages := {
  exportPdfMessage : jsstring;
  exportDocxMessage : jsstring;
  exportPdfSuccessMessage : jsstring;
  exportDocxSuccessMessage : jsstring;
  exportErrorMessage : jsstring
}.

Variable em : ExportMessages.

Definition onExportPdf (payload : IracPayload) (locale : Orchestrator.Locale)
  : X unit :=
  let toastId := "export-pdf" in
  xdo (ToastLoading (exportPdfMessage em) toastId) ;;
  xcatch (exportIracToPdf payload locale ;;
          xdo (ToastSuccess (exportPdfSuccessMessage em) toastId))
         (xdo (ConsoleError "export_pdf_failed") ;;
          xdo (ToastError (exportErrorMessage em) toastId)).

Definition onExportDocx (payload : IracPayload) (locale : Orchestrator.Locale)
  : X unit :=
  let toastId := "export-docx" in
  xdo (ToastLoading (exportDocxMessage em) toastId) ;;
  xcatch (exportIracToDocx payload locale ;;
          xdo (ToastSuccess (exportDocxSuccessMessage em) toastId))
         (xdo (ConsoleError "export_docx_failed") ;;
          xdo (ToastError (exportErrorMessage em) toastId)).

End Documents.


(** The platform with another behaviour of [fetch]. *)
Definition withFetch (pf : Platform) (f : SignRequest -> FetchOutcome) : Platform :=
  {| API_BASE := API_BASE pf;
     DEMO_ORG_ID := DEMO_ORG_ID pf;
     DEMO_USER_ID := DEMO_USER_ID pf;
     sha256Hex := sha256Hex pf;
     toLowerCase := toLowerCase pf;
     dateToLocaleString := dateToLocaleString pf;
     splitTextToSize := splitTextToSize pf;
     jsonStringify := jsonStringify pf;
     fetch := f |}.

(** The platform on which the digest is available and computed by [digest]. *)
Definition withDigest (pf : Platform) (digest : jsstring -> jsstring) : Platform :=
  {| API_BASE := API_BASE pf;
     DEMO_ORG_ID := DEMO_ORG_ID pf;
     DEMO_USER_ID := DEMO_USER_ID pf;
     sha256Hex := fun text => Some (digest text);
     toLowerCase := toLowerCase pf;
     dateToLocaleString := dateToLocaleString pf;
     splitTextToSize := splitTextToSize pf;
     jsonStringify := jsonStringify pf;
     fetch := fetch pf |}.

(** Whether the body of a response can be read the way [signExport] reads
    it: as text when the status is not ok, as JSON when it is. *)
Definition responseReadable (res : Response) : bool :=
  if res_ok res
  then match res_json res with JsonRejected => false | _ => true end
  else match res_text res with Some _ => true | None => false end.

(** Whether [signExport] completes for a text and a file name: the digest is
    available, the request is answered and the answer can be read. *)
Definition signingSettles (pf : Platform) (text filename : jsstring) : bool :=
  match sha256Hex pf text with
  | None => false
  | Some hash =>
      match fetch pf (signRequest pf hash filename) with
      | FetchRejected => false
      | FetchResponse res => responseReadable res
      end
  end.

(** The effects that hand a document to the user. *)
Definition isSave (e : ExportEffect) : bool :=
  match e with
  | SavePdf _ | SaveAs _ _ => true
  | _ => false
  end.

Definition isWarning (e : ExportEffect) : bool :=
  match e with ConsoleWarn _ _ => true | _ => false end.

Definition isErrorReport (e : ExportEffect) : bool :=
  match e with ConsoleError _ | ToastError _ _ => true | _ => false end.

Definition outcomeOf {A} (r : X A) : Settled A := fst r.
Definition logOf {A} (r : X A) : list ExportEffect := snd r.


Definition isFetch (e : ExportEffect) : bool :=
  match e with Fetch _ => true | _ => false end.

(** The jsPDF calls that draw. *)
Definition isDrawing (e : ExportEffect) : bool :=
  match e with
  | NewPdf | SetFont _ _ | SetFontSize _ | DrawText _ _ _ => true
  | _ => false
  end.

Definition isExportToast (e : ExportEffect) : bool :=
  match e with
  | ToastLoading _ _ | ToastSuccess _ _ | ToastError _ _ => true
  | _ => false
  end.

End Exporters.

(* ===================================================================== *)
(** ** Staleness (lib/staleness, and its use in the view at 591-594) *)
(* ===================================================================== *)

Module Staleness.

Record StaleOptions := {
  thresholdDays : Z;
  offline : bool
}.

Definition MS_PER_DAY : Z := 86400000.

Section Stale.

(** [Date.parse] on a non-empty string: milliseconds since the epoch, [None]
    for [NaN]. *)
Variable dateParse : jsstring -> option Z.

(** Modelled from the spec: the date parsing step of the staleness
    evaluator, which is missing from the sources ("an ISO-ish date string
    (may be empty/unparseable)"; the empty string is unparseable). *)
Definition parseDateString (dateString : jsstring) : option Z :=
  match dateString with
  | [] => None
  | _ :: _ => dateParse dateString
  end.

(** Modelled from the spec: [isDateStale] of lib/staleness (the spec's
    [isStale]), which is missing from the sources ("if the date cannot be
    parsed, treat as NOT stale"; "a date is stale when
    now - parsedDate > thresholdDays"; offline, the same determination runs
    against the wall clock). [now] is the wall-clock time in milliseconds. *)
Definition isDateStale (now : Z) (dateString : jsstring) (options : StaleOptions)
  : bool :=
  match parseDateString dateString with
  | None => false
  | Some parsedDate => (thresholdDays options * MS_PER_DAY <? now - parsedDate)%Z
  end.

Definition staleThresholdDays : Z := 90.

(** [isCitationStale] of the view. *)
Definition isCitationStale (now : Z) (online : bool) (date : jsstring) : bool :=
  isDateStale now date
    {| thresholdDays := staleThresholdDays; offline := negb online |}.

End Stale.

End Staleness.

(* ===================================================================== *)
(** ** More of the view-model (research-view.tsx, 205-264, 317-354) *)
(* ===================================================================== *)

Module TrustView.

(** [s.includes(pat)] *)
Definition includes (s pat : jsstring) : bool :=
  match splitFirst pat s with
  | Some _ => true
  | None => false
  end.

Record VersionPoint := {
  vp_label : jsstring;
  vp_date : jsstring;
  vp_isCurrent : bool
}.

Record HostCount := {
  host : jsstring;
  count : nat
}.

(** [counts.set(key, (counts.get(key) ?? 0) + 1)] on a [Map], whose entries
    keep the order in which their keys were first set. *)
Fixpoint bump (key : jsstring) (counts : list (jsstring * nat))
  : list (jsstring * nat) :=
  match counts with
  | [] => [(key, 1)]
  | (k, n) :: rest =>
      if Js.eqb k key then (k, n + 1) :: rest
      else (k, n) :: bump key rest
  end.

(** [Array.prototype.sort] with the comparator [(a, b) => b.count - a.count]:
    the sort is stable, so the result is the stable arrangement by
    decreasing count. *)
Fixpoint insertByCount (x : HostCount) (sorted : list HostCount) : list HostCount :=
  match sorted with
  | [] => [x]
  | y :: rest =>
      if Nat.ltb (count x) (count y) then y :: insertByCount x rest
      else x :: sorted
  end.

Definition sortByCountDesc (entries : list HostCount) : list HostCount :=
  fold_right insertByCount [] entries.

(** The citations counted by a list of entries. *)
Fixpoint totalCount (entries : list HostCount) : nat :=
  match entries with
  | [] => 0
  | e :: rest => count e + totalCount rest
  end.

(** [counts.get(key) ?? 0] *)
Fixpoint getCount (key : jsstring) (counts : list (jsstring * nat)) : nat :=
  match counts with
  | [] => 0
  | (k, n) :: rest => if Js.eqb k key then n else getCount key rest
  end.

(** The order the comparator asks for. *)
Definition byCountDesc (a b : HostCount) : Prop := count b <= count a.

Definition OFFICIEL : jsstring := lit "Officiel".
Definition CONSOLIDE : jsstring := lit "Consolid" ++ [233%N].
Definition TRADUCTION : jsstring := lit "Traduction".
Definition JURISPRUDENCE : jsstring := lit "Jurisprudence".

Section View.

(** [new URL(url).hostname]; [None] when the constructor throws. *)
Variable url_hostname : jsstring -> option jsstring.
(** [String.prototype.toLowerCase] *)
Variable toLowerCase : jsstring -> jsstring.
(** [new Date(s)] formatted by [Intl.DateTimeFormat(locale, { dateStyle:
    'medium' })]; [None] when the date is invalid. *)
Variable formatDate : Orchestrator.Locale -> jsstring -> option jsstring.
Variable locale : Orchestrator.Locale.
Variable latestRun : option AgentRunResponse.

Definition payload : option IracPayload :=
  Trust.opt_bind latestRun run_data.

Definition runNotices : list Notice :=
  match latestRun with
  | Some run => run_notices run
  | None => []
  end.

Definition noticeMessages : list jsstring :=
  arrayFromSet (map notice_message runNotices).

Definition citationBadges (note : option jsstring) : list jsstring :=
  match note with
  | None => []
  | Some note =>
      if negb (truthy note) then []
      else
        let badges := [] in
        let badges :=
          if includes (toLowerCase note) (lit "officiel")
          then badges ++ [OFFICIEL] else badges in
        let badges :=
          if includes (toLowerCase note) (lit "consolid")
          then badges ++ [CONSOLIDE] else badges in
        let badges :=
          if includes (toLowerCase note) (lit "traduction")
          then badges ++ [TRADUCTION] else badges in
        let badges :=
          if includes (toLowerCase note) (lit "jurisprudence")
          then badges ++ [JURISPRUDENCE] else badges in
        if Nat.ltb 0 (length badges) then badges else [OFFICIEL]
  end.

Definition versionPoints : list VersionPoint :=
  match payload with
  | None => []
  | Some p =>
      if Nat.eqb (length (rules p)) 0 then []
      else
        Exporters.mapi
          (fun index rule =>
             let formattedDate :=
               if truthy (rule_effective_date rule) then
                 match formatDate locale (rule_effective_date rule) with
                 | Some formatted => formatted
                 | None => rule_effective_date rule
                 end
               else rule_effective_date rule in
             {| vp_label := rule_citation rule;
                vp_date := formattedDate;
                vp_isCurrent := Nat.eqb index 0 |})
          0 (firstn 3 (rules p))
  end.

Definition mentionsTranslation (citation : Citation) : bool :=
  let note :=
    match cit_note citation with
    | Some n => toLowerCase n
    | None => []
    end in
  includes note (lit "traduction") || includes note (lit "translation")
  || includes note (lit "langue").

Definition fallbackTranslationWarnings : list Citation :=
  match payload with
  | None => []
  | Some p =>
      if Nat.eqb (length (citations p)) 0 then []
      else filter mentionsTranslation (citations p)
  end.

Definition translationWarnings : list jsstring :=
  let fallback :=
    map (fun citation =>
           trim (cit_title citation ++ [32%N; EM_DASH; 32%N]
                 ++ match cit_note citation with Some n => n | None => [] end))
        fallbackTranslationWarnings in
  match Trust.trustCitationSummary latestRun with
  | Some cs =>
      match cs_translationWarnings cs with
      | Some warnings =>
          if Nat.ltb 0 (length warnings) then warnings else fallback
      | None => fallback
      end
  | None => fallback
  end.

Definition nonBindingRules : list IracRule :=
  match payload with
  | None => []
  | Some p =>
      if Nat.eqb (length (rules p)) 0 then []
      else filter (fun rule => negb (rule_binding rule)) (rules p)
  end.

(** The key a citation is counted under: [new URL(url).hostname || url], or
    the url when the constructor throws. *)
Definition hostKey (url : jsstring) : jsstring :=
  match url_hostname url with
  | Some h => if truthy h then h else url
  | None => url
  end.

(** The body of the loop over the citations. *)
Definition countStep (counts : list (jsstring * nat)) (citation : Citation)
  : list (jsstring * nat) :=
  bump (hostKey (cit_url citation)) counts.

Definition hostCounts (cs : list Citation) : list (jsstring * nat) :=
  fold_left countStep cs [].

Definition citationHosts : list HostCount :=
  match payload with
  | None => []
  | Some p =>
      if Nat.eqb (length (citations p)) 0 then []
      else
        sortByCountDesc
          (map (fun entry => {| host := fst entry; count := snd entry |})
               (hostCounts (citations p)))
  end.

End View.

End TrustView.

(* ===================================================================== *)
(** ** Toast store (use-toast: reducer, removal queue, listeners) *)
(* ===================================================================== *)

Module ToastStore.

(** The [onOpenChange] closure [toast()] installs: closing the toast
    dismisses the toast with this id. *)
Inductive OpenChange := DismissSelf (id : jsstring).

(** The properties of a toast the store reads or writes; [action] and the
    styling properties of [ToastProps] are carried along untouched and are
    left out. *)
Record ToasterToast := {
  t_id : jsstring;
  t_title : option jsstring;
  t_description : option jsstring;
  t_open : option bool;
  t_onOpenChange : option OpenChange
}.

(** [Partial<ToasterToast>]: [None] is a property that is not set; for the
    optional properties [Some v] is an own property with value [v]. *)
Record PartialToast := {
  p_id : option jsstring;
  p_title : option (option jsstring);
  p_description : option (option jsstring);
  p_open : option (option bool);
  p_onOpenChange : option (option OpenChange)
}.

(** [Toast = Omit<ToasterToast, "id">] *)
Record ToastProps := {
  props_title : option jsstring;
  props_description : option jsstring;
  props_open : option bool;
  props_onOpenChange : option OpenChange
}.

Record ToastState := {
  toasts : list ToasterToast
}.

Definition TOAST_LIMIT : nat := 3.

Inductive ActionType :=
| ADD_TOAST (toast : ToasterToast)
| UPDATE_TOAST (toast : PartialToast)
| DISMISS_TOAST (toastId : option jsstring)
| REMOVE_TOAST (toastId : option jsstring).

(** The keys of [toastTimeouts], in insertion order. A timer is never
    cleared, and its key is deleted when it fires: the keys are the pending
    removal timers. *)
Definition Timeouts := list jsstring.

Definition addToRemoveQueue (toastId : jsstring) (toastTimeouts : Timeouts)
  : Timeouts :=
  if existsb (Js.eqb toastId) toastTimeouts then toastTimeouts
  else toastTimeouts ++ [toastId].

(** [{ ...toast, ...partial }] *)
Definition spread (toast : ToasterToast) (partial : PartialToast) : ToasterToast :=
  {| t_id := match p_id partial with Some id => id | None => t_id toast end;
     t_title := match p_title partial with Some v => v | None => t_title toast end;
     t_description :=
       match p_description partial with Some v => v | None => t_description toast end;
     t_open := match p_open partial with Some v => v | None => t_open toast end;
     t_onOpenChange :=
       match p_onOpenChange partial with Some v => v | None => t_onOpenChange toast end |}.

(** [toast.id === toastId] for a possibly undefined [toastId] *)
Definition idIs (toast : ToasterToast) (toastId : option jsstring) : bool :=
  match toastId with
  | Some id => Js.eqb (t_id toast) id
  | None => false
  end.

Definition isUndefined (toastId : option jsstring) : bool :=
  match toastId with Some _ => false | None => true end.

Definition closeToast (toast : ToasterToast) : ToasterToast :=
  {| t_id := t_id toast;
     t_title := t_title toast;
     t_description := t_description toast;
     t_open := Some false;
     t_onOpenChange := t_onOpenChange toast |}.

(** [toastReducer]; the [DISMISS_TOAST] case also writes [toastTimeouts],
    which is threaded through. *)
Definition toastReducer (state : ToastState) (action : ActionType)
  (toastTimeouts : Timeouts) : ToastState * Timeouts :=
  match action with
  | ADD_TOAST toast =>
      ({| toasts := firstn TOAST_LIMIT (toast :: toasts state) |}, toastTimeouts)
  | UPDATE_TOAST partial =>
      ({| toasts := map (fun toast =>
                           if idIs toast (p_id partial) then spread toast partial
                           else toast)
                        (toasts state) |},
       toastTimeouts)
  | DISMISS_TOAST toastId =>
      let toastTimeouts :=
        match toastId with
        | Some id =>
            if truthy id then addToRemoveQueue id toastTimeouts
            else fold_left (fun queue toast => addToRemoveQueue (t_id toast) queue)
                           (toasts state) toastTimeouts
        | None =>
            fold_left (fun queue toast => addToRemoveQueue (t_id toast) queue)
                      (toasts state) toastTimeouts
        end in
      ({| toasts := map (fun toast =>
                           if idIs toast toastId || isUndefined toastId
                           then closeToast toast else toast)
                        (toasts state) |},
       toastTimeouts)
  | REMOVE_TOAST toastId =>
      ({| toasts := filter (fun toast => negb (idIs toast toastId)) (toasts state) |},
       toastTimeouts)
  end.

(** The module state: [memoryState], [listeners] (each listener is named by
    a number) and [toastTimeouts]. *)
Record Store := {
  memoryState : ToastState;
  listeners : list nat;
  toastTimeouts : Timeouts
}.

(** A call [listener(memoryState)]. *)
Record Notification := {
  n_listener : nat;
  n_state : ToastState
}.

Definition dispatch (action : ActionType) (store : Store)
  : Store * list Notification :=
  let '(state, timeouts) :=
    toastReducer (memoryState store) action (toastTimeouts store) in
  ({| memoryState := state; listeners := listeners store;
      toastTimeouts := timeouts |},
   map (fun listener => {| n_listener := listener; n_state := state |})
       (listeners store)).

(** The callback of the timer [addToRemoveQueue] sets, when it fires. *)
Definition timeoutFired (toastId : jsstring) (store : Store)
  : Store * list Notification :=
  dispatch (REMOVE_TOAST (Some toastId))
    {| memoryState := memoryState store;
       listeners := listeners store;
       toastTimeouts :=
         filter (fun key => negb (Js.eqb key toastId)) (toastTimeouts store) |}.

(** [toast(props)]; [id] is the identifier drawn from [crypto.randomUUID()]
    or [Math.random()]. *)
Definition toast (id : jsstring) (props : ToastProps) (store : Store)
  : Store * list Notification :=
  dispatch
    (ADD_TOAST {| t_id := id;
                  t_title := props_title props;
                  t_description := props_description props;
                  t_open := Some true;
                  t_onOpenChange := Some (DismissSelf id) |})
    store.

(** [dismiss] of the handle [toast()] returns. *)
Definition handleDismiss (id : jsstring) (store : Store)
  : Store * list Notification :=
  dispatch (DISMISS_TOAST (Some id)) store.

(** [update] of the handle [toast()] returns: [{ ...props, id }]. The
    argument is given by its own properties: one that [props] does not have
    is not in the spread either, and the reducer then keeps the toast's.
    The [id] of [props] is overwritten by the handle's. *)
Definition handleUpdate (id : jsstring) (props : PartialToast) (store : Store)
  : Store * list Notification :=
  dispatch
    (UPDATE_TOAST {| p_id := Some id;
                     p_title := p_title props;
                     p_description := p_description props;
                     p_open := p_open props;
                     p_onOpenChange := p_onOpenChange props |})
    store.

(** [{ ...toast, ...{ ...props, id } }], property by property. *)
Definition updated (id : jsstring) (props : PartialToast) (toast : ToasterToast)
  : ToasterToast :=
  {| t_id := id;
     t_title := match p_title props with
                | Some title => title
                | None => t_title toast
                end;
     t_description := match p_description props with
                      | Some description => description
                      | None => t_description toast
                      end;
     t_open := match p_open props with
               | Some open => open
               | None => t_open toast
               end;
     t_onOpenChange := match p_onOpenChange props with
                       | Some onOpenChange => onOpenChange
                       | None => t_onOpenChange toast
                       end |}.

(** A toast component reporting [onOpenChange(open)]. *)
Definition openChanged (toast : ToasterToast) (open : bool) (store : Store)
  : Store * list Notification :=
  match t_onOpenChange toast with
  | Some (DismissSelf id) =>
      if negb open then handleDismiss id store else (store, [])
  | None => (store, [])
  end.

(** The effect of [useToast]: [listeners.push(setState)]. *)
Definition subscribe (listener : nat) (store : Store) : Store :=
  {| memoryState := memoryState store;
     listeners := listeners store ++ [listener];
     toastTimeouts := toastTimeouts store |}.

(** [listeners.splice(listeners.indexOf(l), 1)] when the index is found. *)
Fixpoint removeFirst (listener : nat) (ls : list nat) : list nat :=
  match ls with
  | [] => []
  | l :: rest => if Nat.eqb l listener then rest else l :: removeFirst listener rest
  end.

(** The cleanup of the effect of [useToast]. *)
Definition unsubscribe (listener : nat) (store : Store) : Store :=
  {| memoryState := memoryState store;
     listeners := removeFirst listener (listeners store);
     toastTimeouts := toastTimeouts store |}.

Definition initialStore : Store :=
  {| memoryState := {| toasts := [] |}; listeners := []; toastTimeouts := [] |}.

End ToastStore.

(* ===================================================================== *)
(** ** Fixtures: concrete runs and services used by the examples *)
(* ===================================================================== *)

Module Fixtures.

Fixpoint takeUntil (stop : N -> bool) (s : jsstring) : jsstring :=
  match s with
  | [] => []
  | c :: s' => if stop c then [] else c :: takeUntil stop s'
  end.

(** A small URL parser for the examples. It accepts [http://host...] and
    [https://host...] (the host runs up to the first [/], [:], [?] or [#]
    and must not be empty), gives the empty host name to [mailto:] and
    [urn:] addresses, and rejects everything else, the empty string
    included, as [new URL] does on these inputs. *)
Definition exampleHostname (url : jsstring) : option jsstring :=
  let authority rest :=
    takeUntil (fun c => N.eqb c 47 || N.eqb c 58 || N.eqb c 63 || N.eqb c 35) rest in
  if prefixb (lit "https://") url then
    match authority (skipn 8 url) with [] => None | h => Some h end
  else if prefixb (lit "http://") url then
    match authority (skipn 7 url) with [] => None | h => Some h end
  else if prefixb (lit "mailto:") url || prefixb (lit "urn:") url then Some []
  else None.

Definition runWithViolations (violations : list jsstring) : AgentRunResponse :=
  {| runId := lit "run-1";
     run_agent := None;
     run_data := None;
     run_notices := [];
     run_reused := false;
     run_verification :=
       Some {| ver_status := None; ver_notes := [];
               ver_allowlistViolations := violations |};
     run_trustPanel := None |}.

Definition runWithSummary (items : list NonAllowlisted) : AgentRunResponse :=
  {| runId := lit "run-2";
     run_agent := None;
     run_data := None;
     run_notices := [];
     run_reused := false;
     run_verification := None;
     run_trustPanel :=
       Some {| tp_citationSummary :=
                 Some {| cs_total := length items; cs_allowlisted := 0;
                         cs_nonAllowlisted := items;
                         cs_translationWarnings := None;
                         cs_rules := {| rc_total := 0; rc_binding := 0;
                                        rc_nonBinding := 0 |} |};
               tp_provenance := None;
               tp_risk := None;
               tp_compliance := None |} |}.

Definition runWithCompliance (tc : option Compliance) : AgentRunResponse :=
  {| runId := lit "run-3";
     run_agent := None;
     run_data := None;
     run_notices := [];
     run_reused := false;
     run_verification := None;
     run_trustPanel :=
       Some {| tp_citationSummary := None;
               tp_provenance := None;
               tp_risk := None;
               tp_compliance := tc |} |}.

Definition englishTrustMessages : TrustMessages :=
  {| msg_allowlistClean := lit "All sources are allowlisted.";
     msg_allowlistIssues := lit "Some sources are outside the allowlist.";
     msg_complianceFria := lit "FRIA required: {reason}";
     msg_complianceFriaFallback := lit "assessment missing";
     msg_complianceCepej := lit "CEPEJ: {detail}";
     msg_complianceCepejFallback := lit "charter violation";
     msg_complianceConsentPending := lit "Consent {version} pending";
     msg_complianceConsentAcknowledged := lit "Consent {version} accepted";
     msg_complianceCoePending := lit "CoE {version} pending";
     msg_complianceCoeAcknowledged := lit "CoE {version} acknowledged";
     msg_complianceFriaValidated := lit "FRIA validated";
     msg_complianceFriaPending := lit "FRIA pending";
     msg_complianceFriaNotRequired := lit "FRIA not required";
     msg_complianceResolved := lit "No compliance issue.";
     msg_complianceResolvedDetail := lit "All checks passed.";
     msg_complianceUnavailable := lit "Compliance data unavailable.";
     msg_complianceFriaEvidence := lit "FRIA evidence";
     msg_complianceFriaEvidenceValidated := lit "validated";
     msg_complianceFriaEvidencePending := lit "pending";
     msg_cepejViolations := fun code =>
       if Js.eqb code (lit "transparency") then Some (lit "Transparency")
       else if Js.eqb code (lit "user_control") then Some (lit "User control")
       else None |}.

Definition pendingCompliance : Compliance :=
  {| friaRequired := true;
     friaValidated := false;
     friaReasons := [lit "high risk"; lit "second reason"];
     friaArtifacts := [];
     cepejPassed := false;
     cepejViolations := [lit "transparency"; lit "unknown_code"];
     consent := {| consent_requirement := Some {| req_version := lit "v2" |};
                   consent_accepted := false;
                   consent_latestVersion := None |};
     councilOfEurope := {| coe_requirement := Some {| req_version := lit "2024" |};
                           coe_acknowledged := false;
                           coe_acknowledgedVersion := None |} |}.

Definition cleanCompliance : Compliance :=
  {| friaRequired := false;
     friaValidated := false;
     friaReasons := [];
     friaArtifacts := [];
     cepejPassed := true;
     cepejViolations := [];
     consent := {| consent_requirement := None;
                   consent_accepted := false;
                   consent_latestVersion := None |};
     councilOfEurope := {| coe_requirement := None;
                           coe_acknowledged := false;
                           coe_acknowledgedVersion := None |} |}.


(** *** Orchestrator fixtures *)

Definition exampleRun : AgentRunResponse := runWithViolations [].

Definition exampleOutboxMessages : Orchestrator.OutboxMessages :=
  {| Orchestrator.om_queued := lit "Request queued.";
     Orchestrator.om_sent := Some (lit "Queued request sent.");
     Orchestrator.om_stillOffline := lit "Still offline." |}.

(** An agent service that accepts every request. *)
Definition acceptingEnv : Orchestrator.Env :=
  {| Orchestrator.locale := Orchestrator.Fr;
     Orchestrator.outboxMessages := exampleOutboxMessages;
     Orchestrator.AGENT_OPTIONS := [];
     Orchestrator.DEMO_ORG_ID := lit "org-demo";
     Orchestrator.DEMO_USER_ID := lit "user-demo";
     Orchestrator.submitResearchQuestion :=
       fun _ => Orchestrator.Resolved exampleRun |}.

(** An agent service that rejects every request with [error]. *)
Definition rejectingEnv (error : Orchestrator.Thrown) : Orchestrator.Env :=
  {| Orchestrator.locale := Orchestrator.Fr;
     Orchestrator.outboxMessages := exampleOutboxMessages;
     Orchestrator.AGENT_OPTIONS := [];
     Orchestrator.DEMO_ORG_ID := lit "org-demo";
     Orchestrator.DEMO_USER_ID := lit "user-demo";
     Orchestrator.submitResearchQuestion :=
       fun _ => Orchestrator.Rejected error |}.

Definition exampleItem (id : nat) (confidential : bool) : OutboxItem :=
  {| item_id := id;
     item_question := lit "Quel est le delai d'appel ?";
     item_context := lit "OHADA";
     item_confidentialMode := confidential;
     item_agentCode := lit "conseil_recherche";
     item_agentLabel := lit "Conseil";
     item_agentSettings := None |}.

Definition exampleState (isOnline confidential : bool)
  (items : list OutboxItem) : Orchestrator.ViewState :=
  {| Orchestrator.question := lit "Quelle est la prescription applicable ?";
     Orchestrator.context := lit "Contrat de bail";
     Orchestrator.ohadaMode := true;
     Orchestrator.euOverlay := true;
     Orchestrator.confidentialMode := confidential;
     Orchestrator.agentCode := lit "conseil_recherche";
     Orchestrator.latestRun := None;
     Orchestrator.planOpen := false;
     Orchestrator.online := isOnline;
     Orchestrator.outboxItems := items |}.

(** The same view with the plan drawer open. *)
Definition openedState (isOnline confidential : bool)
  (items : list OutboxItem) : Orchestrator.ViewState :=
  {| Orchestrator.question := lit "Quelle est la prescription applicable ?";
     Orchestrator.context := lit "Contrat de bail";
     Orchestrator.ohadaMode := true;
     Orchestrator.euOverlay := true;
     Orchestrator.confidentialMode := confidential;
     Orchestrator.agentCode := lit "conseil_recherche";
     Orchestrator.latestRun := None;
     Orchestrator.planOpen := true;
     Orchestrator.online := isOnline;
     Orchestrator.outboxItems := items |}.


(** *** Export fixtures *)

Definition examplePayload : IracPayload :=
  {| jurisdiction := {| jur_country := lit "FR"; jur_eu := true; jur_ohada := false |};
     issue := lit "Prescription";
     rules := [ {| rule_citation := lit "Code civil, art. 2224";
                   rule_source_url := lit "https://www.legifrance.gouv.fr/";
                   rule_binding := true;
                   rule_effective_date := lit "2008-06-19" |} ];
     application := lit "Cinq ans";
     conclusion := lit "Action prescrite";
     citations := [];
     risk := {| risk_level := HIGH; risk_why := lit "Delai expire";
                risk_hitl_required := true |} |}.

Definition exampleSignature : Exporters.C2PASignature :=
  {| Exporters.signature := lit "c2lnbmF0dXJl";
     Exporters.keyId := lit "key-1";
     Exporters.algorithm := lit "ed25519";
     Exporters.signedAt := lit "2024-05-01T10:00:00Z";
     Exporters.statementId := lit "stmt-1" |}.

(** A platform whose helpers do as little as possible: text is never
    wrapped, ASCII letters are lowered, dates are shown as they are. *)
Definition examplePlatform (fetch : Exporters.SignRequest -> Exporters.FetchOutcome)
  : Exporters.Platform :=
  {| Exporters.API_BASE := lit "/api";
     Exporters.DEMO_ORG_ID := lit "org-demo";
     Exporters.DEMO_USER_ID := lit "user-demo";
     Exporters.sha256Hex := fun _ => Some (lit "00");
     Exporters.toLowerCase :=
       map (fun c => if N.leb 65 c && N.leb c 90 then (c + 32)%N else c);
     Exporters.dateToLocaleString := fun s => s;
     Exporters.splitTextToSize := fun s _ => [s];
     Exporters.jsonStringify := fun _ => lit "{}";
     Exporters.fetch := fetch |}.

Definition refusedResponse : Exporters.FetchOutcome :=
  Exporters.FetchResponse
    {| Exporters.res_ok := false;
       Exporters.res_text := Some (lit "signing_unavailable");
       Exporters.res_json := Exporters.JsonRejected |}.

Definition exampleExportMessages : Exporters.ExportMessages :=
  {| Exporters.exportPdfMessage := lit "Preparing PDF export";
     Exporters.exportDocxMessage := lit "Preparing DOCX export";
     Exporters.exportPdfSuccessMessage := lit "PDF ready to download.";
     Exporters.exportDocxSuccessMessage := lit "DOCX ready to download.";
     Exporters.exportErrorMessage := lit "Export failed. Please try again." |}.

(** A date parser for the examples: it knows two dates, given with their
    time stamps. *)
Definition exampleDateParse (s : jsstring) : option Z :=
  if Js.eqb s (lit "1970-01-02") then Some 86400000%Z
  else if Js.eqb s (lit "1970-03-23") then Some 6998400000%Z
  else None.


(** *** Toast fixtures *)

Definition sampleToast (id : string) (open : bool) : ToastStore.ToasterToast :=
  {| ToastStore.t_id := lit id;
     ToastStore.t_title := Some (lit "Saved");
     ToastStore.t_description := None;
     ToastStore.t_open := Some open;
     ToastStore.t_onOpenChange := Some (ToastStore.DismissSelf (lit id)) |}.


(** *** View-model fixtures *)

(** Lower-casing of the ASCII letters and of the accented Latin-1 capitals,
    for the examples. *)
Definition exampleToLowerCase (s : jsstring) : jsstring :=
  map (fun c => if (N.leb 65 c && N.leb c 90) || (N.leb 192 c && N.leb c 222)
                then (c + 32)%N else c) s.

Definition exampleFormatDate (locale : Orchestrator.Locale) (s : jsstring)
  : option jsstring :=
  if Js.eqb s (lit "2008-06-19") then
    Some (match locale with
          | Orchestrator.Fr => lit "19 juin 2008"
          | Orchestrator.En => lit "Jun 19, 2008"
          end)
  else None.

Definition exampleCitation (url : string) (note : option string) : Citation :=
  {| cit_title := lit "Code civil";
     cit_court_or_publisher := lit "Legifrance";
     cit_date := lit "2008-06-19";
     cit_url := lit url;
     cit_note := option_map lit note |}.

Definition runWithPayload (rs : list IracRule) (cs : list Citation)
  (notices : list Notice) : AgentRunResponse :=
  {| runId := lit "run-4";
     run_agent := None;
     run_data :=
       Some {| jurisdiction := {| jur_country := lit "FR"; jur_eu := true;
                                  jur_ohada := false |};
               issue := lit "Prescription";
               rules := rs;
               application := lit "Cinq ans";
               conclusion := lit "Action prescrite";
               citations := cs;
               risk := {| risk_level := LOW; risk_why := lit "Clair";
                          risk_hitl_required := false |} |};
     run_notices := notices;
     run_reused := false;
     run_verification := None;
     run_trustPanel := None |}.

Definition exampleRule (citation date : string) (binding : bool) : IracRule :=
  {| rule_citation := lit citation;
     rule_source_url := lit "https://www.legifrance.gouv.fr/";
     rule_binding := binding;
     rule_effective_date := lit date |}.

End Fixtures.

(* ===================================================================== *)
(** ** The compliance issues as the specification lists them *)
(* ===================================================================== *)

Module TrustSpec.

Section Entries.

Variable trustMessages : TrustMessages.
Variable tc : Compliance.

(** (a) FRIA required but not validated: the first listed reason, or the
    fallback text when no reason is listed. *)
Definition friaEntry : list jsstring :=
  if friaRequired tc && negb (friaValidated tc) then
    [ replace (msg_complianceFria trustMessages) (lit "{reason}")
              (hd (msg_complianceFriaFallback trustMessages) (friaReasons tc)) ]
  else [].

(** A violation code as display text. *)
Definition translateCode (code : jsstring) : jsstring :=
  match msg_cepejViolations trustMessages code with
  | Some text => text
  | None => msg_complianceCepejFallback trustMessages
  end.

(** (b) CEPEJ not passed: the translated violation codes joined, or the
    fallback text when there is no code. *)
Definition cepejEntry : list jsstring :=
  if cepejPassed tc then []
  else
    [ replace (msg_complianceCepej trustMessages) (lit "{detail}")
              (match cepejViolations tc with
               | [] => msg_complianceCepejFallback trustMessages
               | codes => join [32%N; BULLET; 32%N] (map translateCode codes)
               end) ].

(** (c) consent required but not accepted, with the requirement's version. *)
Definition consentEntry : list jsstring :=
  match consent_requirement (consent tc) with
  | Some requirement =>
      if consent_accepted (consent tc) then []
      else [ replace (msg_complianceConsentPending trustMessages)
                     (lit "{version}") (req_version requirement) ]
  | None => []
  end.

(** (d) Council of Europe acknowledgment pending: a requirement with a
    version that is not acknowledged. *)
Definition coeEntry : list jsstring :=
  match coe_requirement (councilOfEurope tc) with
  | Some requirement =>
      match req_version requirement with
      | [] => []
      | version =>
          if coe_acknowledged (councilOfEurope tc) then []
          else [ replace (msg_complianceCoePending trustMessages)
                         (lit "{version}") version ]
      end
  | None => []
  end.

Definition issuesInOrder : list jsstring :=
  friaEntry ++ cepejEntry ++ consentEntry ++ coeEntry.

End Entries.

(** The fallback detail list as the specification words it: each violation
    mapped to its host name, or passed through raw when malformed, with
    duplicates removed. *)
Definition unfilteredDetails (url_hostname : jsstring -> option jsstring)
  (run : option AgentRunResponse) : list jsstring :=
  arrayFromSet (map (Trust.hostOrRaw url_hostname) (Trust.allowlistViolations run)).

End TrustSpec.

(** ** The failure notification, as specified *)

Module OrchestratorSpec.

Import Orchestrator.

(** The message of the error notification as the specification words it:
    the failure's message when the error is an [Error] with a message, the
    generic fallback when the error carries no message. *)
Definition notifiedMessage (error : Thrown) : jsstring :=
  match error with
  | ErrorInstance message =>
      if truthy message then message else lit "Agent indisponible"
  | NotAnError => lit "Agent indisponible"
  end.

End OrchestratorSpec.

(* ===================================================================== *)
(** * Properties *)
(* ===================================================================== *)

(** ** JavaScript strings *)

Module JsFacts.

Lemma eqb_eq (a b : jsstring) : Js.eqb a b = true <-> a = b.
Proof.
  revert b; induction a as [|x a IH]; intros [|y b]; simpl;
    try (split; [discriminate | discriminate]); try tauto.
  rewrite andb_true_iff, N.eqb_eq, IH.
  split; [intros [-> ->]; reflexivity | intros E; inversion E; auto].
Qed.

Lemma eqb_refl (a : jsstring) : Js.eqb a a = true.
Proof. apply eqb_eq; reflexivity. Qed.

Lemma existsb_eqb_In (x : jsstring) (l : list jsstring) :
  existsb (Js.eqb x) l = true <-> In x l.
Proof.
  rewrite existsb_exists; split.
  - intros [y [Hy E]]. apply eqb_eq in E. subst. exact Hy.
  - intros H. exists x. split; [exact H | apply eqb_refl].
Qed.

Lemma setAdd_In (seen : list jsstring) (x y : jsstring) :
  In y (setAdd seen x) <-> In y seen \/ y = x.
Proof.
  unfold setAdd. destruct (existsb (Js.eqb x) seen) eqn:E.
  - apply existsb_eqb_In in E. split; [auto | intros [H | ->]; assumption].
  - rewrite in_app_iff. simpl. intuition.
Qed.

Lemma setAdd_NoDup (seen : list jsstring) (x : jsstring) :
  NoDup seen -> NoDup (setAdd seen x).
Proof.
  intros H. unfold setAdd. destruct (existsb (Js.eqb x) seen) eqn:E; [exact H|].
  assert (~ In x seen) as Hx.
  { intros Hin. apply existsb_eqb_In in Hin. congruence. }
  clear E. induction H as [|a l Ha Hl IH]; simpl.
  - constructor; [intros [] | constructor].
  - constructor.
    + rewrite in_app_iff. simpl. intros [H1 | [H1 | []]]; [auto|].
      subst. apply Hx. left. reflexivity.
    + apply IH. intros H1. apply Hx. right. exact H1.
Qed.

Lemma fold_setAdd_In (xs seen : list jsstring) (y : jsstring) :
  In y (fold_left setAdd xs seen) <-> In y seen \/ In y xs.
Proof.
  revert seen; induction xs as [|x xs IH]; intros seen; simpl.
  - tauto.
  - rewrite IH, setAdd_In. intuition.
Qed.

Lemma fold_setAdd_NoDup (xs seen : list jsstring) :
  NoDup seen -> NoDup (fold_left setAdd xs seen).
Proof.
  revert seen; induction xs as [|x xs IH]; intros seen H; simpl.
  - exact H.
  - apply IH, setAdd_NoDup, H.
Qed.

Lemma arrayFromSet_In (xs : list jsstring) (y : jsstring) :
  In y (arrayFromSet xs) <-> In y xs.
Proof. unfold arrayFromSet. rewrite fold_setAdd_In. simpl. tauto. Qed.

Lemma arrayFromSet_NoDup (xs : list jsstring) : NoDup (arrayFromSet xs).
Proof. apply fold_setAdd_NoDup. constructor. Qed.

Lemma truthy_true (s : jsstring) : truthy s = true <-> s <> [].
Proof. destruct s; simpl; split; congruence. Qed.

Lemma trimStart_nil (s : jsstring) :
  trimStart s = [] <-> forallb isWhiteSpace s = true.
Proof.
  induction s as [|c s IH]; simpl; [tauto|].
  destruct (isWhiteSpace c); simpl; [exact IH | split; discriminate].
Qed.

Lemma trimStart_forallb (s : jsstring) :
  forallb isWhiteSpace (trimStart s) = forallb isWhiteSpace s.
Proof.
  induction s as [|c s IH]; simpl; [reflexivity|].
  destruct (isWhiteSpace c) eqn:E; simpl; [exact IH | rewrite E; reflexivity].
Qed.

Lemma forallb_rev (f : N -> bool) (s : jsstring) :
  forallb f (rev s) = forallb f s.
Proof.
  induction s as [|c s IH]; simpl; [reflexivity|].
  rewrite forallb_app, IH. simpl. rewrite andb_true_r. apply andb_comm.
Qed.

(** [s.trim()] is empty exactly when every code unit of [s] is white
    space. *)
Lemma trim_nil (s : jsstring) :
  trim s = [] <-> forallb isWhiteSpace s = true.
Proof.
  unfold trim, trimEnd.
  rewrite <- (trimStart_forallb s), <- (forallb_rev _ (trimStart s)),
    <- trimStart_nil.
  split; intros H.
  - apply (f_equal (@rev N)) in H. rewrite rev_involutive in H. exact H.
  - rewrite H. reflexivity.
Qed.

Lemma blank_iff (s : jsstring) :
  truthy (trim s) = false <-> forallb isWhiteSpace s = true.
Proof.
  rewrite <- trim_nil. destruct (trim s); simpl; split; congruence.
Qed.

End JsFacts.

(** ** Trust and compliance view-model *)

Module TrustFacts.

Import Trust.

Example allowlist_example_hosts :
  allowlistDetails Fixtures.exampleHostname
    (Some (Fixtures.runWithViolations
             [lit "https://blog.example.com/post/1"; lit "not a url";
              lit "https://blog.example.com/post/2"]))
  = [lit "blog.example.com"; lit "not a url"].
Proof. reflexivity. Qed.

Example allowlist_example_clean :
  allowlistClean (Some (Fixtures.runWithViolations [])) = true
  /\ allowlistClean (Some (Fixtures.runWithViolations [lit "https://x.example/a"])) = false
  /\ allowlistClean (Some (Fixtures.runWithSummary [])) = true.
Proof. repeat split; reflexivity. Qed.

(** An address without a host name ([mailto:], [urn:]) is a violation that
    never shows in the detail list. *)
Example allowlist_example_hostless :
  let run := Some (Fixtures.runWithViolations [lit "urn:lex:fr:etat:loi:2016"]) in
  allowlistClean run = false
  /\ allowlistDetails Fixtures.exampleHostname run = [].
Proof. split; reflexivity. Qed.

(** C4, as stated, fails: the empty string is a malformed URL, and it is not
    passed through to the detail list. *)
Lemma allowlist_details_drop_empty_counterexample :
  let run := Some (Fixtures.runWithViolations [[]]) in
  trustCitationSummary run = None
  /\ allowlistDetails Fixtures.exampleHostname run = []
  /\ TrustSpec.unfilteredDetails Fixtures.exampleHostname run = [[]]
  /\ allowlistDetails Fixtures.exampleHostname run
     <> TrustSpec.unfilteredDetails Fixtures.exampleHostname run.
Proof. repeat split; discriminate. Qed.

Lemma length_zero_nil {A} (l : list A) : Nat.eqb (length l) 0 = true <-> l = [].
Proof. destruct l; simpl; split; congruence. Qed.

(** C4 (amended): the allowlist is clean exactly when the list of
    non-allowlisted citations of the citation summary is empty or, without a
    summary, when the verification's list of violations is empty. Without a
    summary the detail list holds, once each, the non-empty values among the
    host names of the well-formed violations and the raw strings of the
    malformed ones. *)
Theorem allowlist_clean_iff_and_fallback_details
  (url_hostname : jsstring -> option jsstring) (run : option AgentRunResponse) :
  (forall cs, trustCitationSummary run = Some cs ->
     (allowlistClean run = true <-> cs_nonAllowlisted cs = []))
  /\ (trustCitationSummary run = None ->
      (allowlistClean run = true <-> allowlistViolations run = [])
      /\ NoDup (allowlistDetails url_hostname run)
      /\ (forall h, In h (allowlistDetails url_hostname run) <->
            h <> []
            /\ exists url, In url (allowlistViolations run)
                 /\ h = match url_hostname url with
                        | Some host => host
                        | None => url
                        end)).
Proof.
  split.
  - intros cs H. unfold allowlistClean. rewrite H. apply length_zero_nil.
  - intros H. unfold allowlistClean, allowlistDetails, fallbackViolationHosts.
    rewrite H. split; [apply length_zero_nil|].
    destruct (allowlistViolations run) as [|v vs] eqn:E; simpl Nat.eqb; cbv iota.
    + split; [constructor|]. intros h. split; [intros [] | intros [_ [u [[] _]]]].
    + split; [apply JsFacts.arrayFromSet_NoDup|].
      intros h. rewrite JsFacts.arrayFromSet_In, filter_In, in_map_iff,
        JsFacts.truthy_true.
      unfold hostOrRaw. split.
      * intros [[u [Hu Hin]] Hne]. split; [exact Hne|]. exists u. auto.
      * intros [Hne [u [Hin Hu]]]. split; [|exact Hne]. exists u. auto.
Qed.

Lemma allowlist_clean_iff_and_fallback_details_witness :
  let run := Some (Fixtures.runWithViolations
                     [lit "https://blog.example.com/post/1"; []]) in
  allowlistClean run = false
  /\ In (lit "blog.example.com") (allowlistDetails Fixtures.exampleHostname run)
  /\ ~ In [] (allowlistDetails Fixtures.exampleHostname run).
Proof.
  intros run.
  destruct (allowlist_clean_iff_and_fallback_details Fixtures.exampleHostname run)
    as [_ H].
  destruct (H eq_refl) as [Hclean [_ Hin]].
  split; [|split].
  - apply not_true_is_false. intros E. apply Hclean in E. discriminate E.
  - apply Hin. split; [discriminate|].
    exists (lit "https://blog.example.com/post/1"). split; [left|]; reflexivity.
  - intros Hbad. apply Hin in Hbad. destruct Hbad as [Hne _]. apply Hne. reflexivity.
Defined.

Example compliance_example_order :
  complianceIssues Fixtures.englishTrustMessages
    (Some (Fixtures.runWithCompliance (Some Fixtures.pendingCompliance)))
  = [ lit "FRIA required: high risk";
      lit "CEPEJ: Transparency" ++ [32%N; BULLET; 32%N] ++ lit "charter violation";
      lit "Consent v2 pending";
      lit "CoE 2024 pending" ].
Proof. reflexivity. Qed.

Example compliance_example_resolved :
  complianceSection Fixtures.englishTrustMessages
    (Some (Fixtures.runWithCompliance (Some Fixtures.cleanCompliance)))
  = [ El "p" "mt-1 text-slate-200" [Text (lit "No compliance issue.")];
      El "p" "mt-1 text-slate-300" [Text (lit "All checks passed.")];
      El "ul" "mt-3 space-y-1 list-inside list-disc text-slate-300"
         [El "li" noClass [Text (lit "FRIA not required")]] ].
Proof. reflexivity. Qed.

Example compliance_example_unavailable :
  complianceSection Fixtures.englishTrustMessages
    (Some (Fixtures.runWithCompliance None))
  = [ El "p" "mt-1 text-slate-400" [Text (lit "Compliance data unavailable.")] ].
Proof. reflexivity. Qed.

Lemma complianceIssues_refines (msgs : TrustMessages)
  (run : option AgentRunResponse) (tc : Compliance) :
  trustCompliance run = Some tc ->
  complianceIssues msgs run = TrustSpec.issuesInOrder msgs tc.
Proof.
  intros H. unfold complianceIssues. rewrite H.
  unfold TrustSpec.issuesInOrder, TrustSpec.friaEntry, TrustSpec.cepejEntry,
    TrustSpec.consentEntry, TrustSpec.coeEntry, TrustSpec.translateCode,
    cepejDetail, push.
  destruct tc as [fr fv reasons arts cp cv [creq cacc clv] [oreq oack oav]]; simpl.
  destruct fr, fv, reasons, cp, cv, creq as [[cver]|], cacc,
    oreq as [[[|c over]]|], oack; reflexivity.
Qed.

(** C5: with compliance data the issues are, in this order, the FRIA entry,
    the CEPEJ entry, the consent entry and the Council of Europe entry, each
    present only under its condition; without compliance data the list is
    empty and the section shows the single "unavailable" paragraph, which no
    section rendered from compliance data equals (the resolved status
    included). *)
Theorem compliance_issues_fixed_order (msgs : TrustMessages)
  (run : option AgentRunResponse) :
  (forall tc, trustCompliance run = Some tc ->
     complianceIssues msgs run
     = TrustSpec.friaEntry msgs tc ++ TrustSpec.cepejEntry msgs tc
       ++ TrustSpec.consentEntry msgs tc ++ TrustSpec.coeEntry msgs tc)
  /\ (forall tc, trustCompliance run = Some tc ->
      complianceIssues msgs run = [] ->
      exists rest,
        complianceSection msgs run
        = El "p" "mt-1 text-slate-200" [Text (msg_complianceResolved msgs)]
          :: El "p" "mt-1 text-slate-300" [Text (msg_complianceResolvedDetail msgs)]
          :: rest)
  /\ (trustCompliance run = None ->
      complianceIssues msgs run = []
      /\ complianceSection msgs run
         = [ El "p" "mt-1 text-slate-400" [Text (msg_complianceUnavailable msgs)] ]
      /\ forall run', trustCompliance run' <> None ->
           complianceSection msgs run' <> complianceSection msgs run).
Proof.
  split; [|split].
  - intros tc H. apply (complianceIssues_refines msgs run H).
  - intros tc H Hnil. unfold complianceSection. rewrite H, Hnil. simpl.
    eexists. reflexivity.
  - intros H. unfold complianceIssues, complianceSection. rewrite H.
    split; [reflexivity|]. split; [reflexivity|].
    intros run' Hsome. unfold complianceSection.
    destruct (trustCompliance run') as [tc'|]; [|congruence].
    destruct (Nat.eqb (length (complianceIssues msgs run')) 0);
      simpl; intros Heq; discriminate Heq.
Qed.

Lemma compliance_issues_fixed_order_witness :
  complianceIssues Fixtures.englishTrustMessages
    (Some (Fixtures.runWithCompliance (Some Fixtures.pendingCompliance)))
  = TrustSpec.friaEntry Fixtures.englishTrustMessages Fixtures.pendingCompliance
    ++ TrustSpec.cepejEntry Fixtures.englishTrustMessages Fixtures.pendingCompliance
    ++ TrustSpec.consentEntry Fixtures.englishTrustMessages Fixtures.pendingCompliance
    ++ TrustSpec.coeEntry Fixtures.englishTrustMessages Fixtures.pendingCompliance
  /\ complianceIssues Fixtures.englishTrustMessages
       (Some (Fixtures.runWithCompliance None)) = [].
Proof.
  split.
  - apply (proj1 (compliance_issues_fixed_order Fixtures.englishTrustMessages
                    (Some (Fixtures.runWithCompliance (Some Fixtures.pendingCompliance))))).
    reflexivity.
  - apply (proj2 (proj2 (compliance_issues_fixed_order Fixtures.englishTrustMessages
                           (Some (Fixtures.runWithCompliance None))))).
    reflexivity.
Defined.

End TrustFacts.

(** ** Outbox store *)

Module OutboxFacts.

Lemma enqueue_length (input : OutboxInput) (items : list OutboxItem) :
  length (Outbox.enqueue input items) = S (length items).
Proof. unfold Outbox.enqueue. rewrite length_app. simpl. lia. Qed.

Lemma freshId_above (items : list OutboxItem) (it : OutboxItem) :
  In it items -> item_id it < freshId items.
Proof.
  intros H. unfold freshId.
  assert (Forall (fun k => k <= list_max (map item_id items)) (map item_id items))
    as Hall by (apply list_max_le; lia).
  rewrite Forall_forall in Hall.
  specialize (Hall (item_id it) (in_map item_id items it H)). lia.
Qed.

(** Enqueueing keeps the ids of the queue pairwise distinct. *)
Lemma enqueue_keeps_ids_unique (input : OutboxInput) (items : list OutboxItem) :
  NoDup (map item_id items) ->
  NoDup (map item_id (Outbox.enqueue input items)).
Proof.
  intros H. unfold Outbox.enqueue. rewrite map_app. simpl.
  apply NoDup_app; [exact H | repeat constructor; intros [] |].
  intros a Ha [<- | []].
  apply in_map_iff in Ha. destruct Ha as [it [Hid Hit]].
  apply freshId_above in Hit. simpl in Hid. lia.
Qed.

Lemma remove_idempotent (id : nat) (items : list OutboxItem) :
  Outbox.remove id (Outbox.remove id items) = Outbox.remove id items.
Proof.
  unfold Outbox.remove. induction items as [|it rest IH]; simpl; [reflexivity|].
  destruct (negb (Nat.eqb (item_id it) id)) eqn:E; simpl; [rewrite E|];
    rewrite ?IH; reflexivity.
Qed.

Lemma remove_absent (id : nat) (items : list OutboxItem) :
  ~ In id (map item_id items) -> Outbox.remove id items = items.
Proof.
  unfold Outbox.remove. induction items as [|it rest IH]; simpl; intros H;
    [reflexivity|].
  destruct (Nat.eqb_spec (item_id it) id) as [E | E]; simpl.
  - exfalso. apply H. left. exact E.
  - rewrite IH; [reflexivity | intros Hin; apply H; right; exact Hin].
Qed.

End OutboxFacts.

(** ** Submission orchestrator *)

Module OrchestratorFacts.

Import Orchestrator.

Lemma bind_result {A B} (m : M A) (f : A -> M B) (s : ViewState) :
  resultOf (bind m f s) = resultOf (f (resultOf (m s)) (stateOf (m s))).
Proof.
  unfold bind, resultOf, stateOf.
  destruct (m s) as [[a s1] e1]; simpl. destruct (f a s1) as [[b s2] e2].
  reflexivity.
Qed.

Lemma bind_state {A B} (m : M A) (f : A -> M B) (s : ViewState) :
  stateOf (bind m f s) = stateOf (f (resultOf (m s)) (stateOf (m s))).
Proof.
  unfold bind, resultOf, stateOf.
  destruct (m s) as [[a s1] e1]; simpl. destruct (f a s1) as [[b s2] e2].
  reflexivity.
Qed.

Lemma bind_effects {A B} (m : M A) (f : A -> M B) (s : ViewState) :
  effectsOf (bind m f s)
  = effectsOf (m s) ++ effectsOf (f (resultOf (m s)) (stateOf (m s))).
Proof.
  unfold bind, resultOf, stateOf, effectsOf.
  destruct (m s) as [[a s1] e1]; simpl. destruct (f a s1) as [[b s2] e2].
  reflexivity.
Qed.

(** Unfolds the handler combinators so that a handler applied to a state
    computes. *)
Ltac run_handler :=
  cbv [bind getState perform when enqueue remove setOutboxItems setQuestion
       setContext setLatestRun toggle mutateAsync sendTelemetryEvent ret
       telemetryEnabled].

Lemma nonblank_truthy (q : jsstring) :
  forallb isWhiteSpace q = false -> truthy (trim q) = true.
Proof.
  intros H. destruct (truthy (trim q)) eqn:E; [reflexivity|].
  apply JsFacts.blank_iff in E. congruence.
Qed.

Example onSubmit_offline_example :
  onSubmit Fixtures.acceptingEnv (Fixtures.exampleState false false [])
  = (tt,
     {| question := []; context := []; ohadaMode := true; euOverlay := true;
        confidentialMode := false; agentCode := lit "conseil_recherche";
        latestRun := None; planOpen := false; online := false;
        outboxItems :=
          [ {| item_id := 1;
               item_question := lit "Quelle est la prescription applicable ?";
               item_context := lit "Contrat de bail";
               item_confidentialMode := false;
               item_agentCode := lit "conseil_recherche";
               item_agentLabel := lit "conseil_recherche";
               item_agentSettings := None |} ] |},
     [ PreventDefault;
       ToastInfo (lit "Request queued.");
       TelemetryEvent "outbox_enqueued"
         [("offline", JBool true); ("agent", JStr (lit "conseil_recherche"))] ]).
Proof. reflexivity. Qed.

Example onSubmit_blank_example :
  let s := {| question := [32%N; 9%N; 160%N]; context := lit "c";
              ohadaMode := true; euOverlay := true; confidentialMode := false;
              agentCode := lit "a"; latestRun := None; planOpen := false;
              online := true; outboxItems := [] |} in
  onSubmit Fixtures.acceptingEnv s
  = (tt, s,
     [PreventDefault;
      ToastError (lit "Veuillez saisir une question juridique.") None]).
Proof. reflexivity. Qed.

(** C1: a submission with a question that is not only white space, made
    offline, appends to the outbox one item that carries the submitted
    question, context, agent code (and confidential flag); the outbox is one
    item longer; both input fields are emptied; the remote agent is not
    called and no error notification is raised. *)
Theorem offline_submission_enqueued_verbatim (env : Env) (s : ViewState) :
  forallb isWhiteSpace (question s) = false ->
  online s = false ->
  let r := onSubmit env s in
  (exists item,
      outboxItems (stateOf r) = outboxItems s ++ [item]
      /\ item_question item = question s
      /\ item_context item = context s
      /\ item_agentCode item = agentCode s
      /\ item_confidentialMode item = confidentialMode s)
  /\ length (outboxItems (stateOf r)) = S (length (outboxItems s))
  /\ question (stateOf r) = []
  /\ context (stateOf r) = []
  /\ existsb isAgentCall (effectsOf r) = false
  /\ existsb isToastError (effectsOf r) = false.
Proof.
  intros Hq Ho. apply nonblank_truthy in Hq.
  unfold onSubmit. run_handler. rewrite Hq, Ho. simpl.
  destruct (confidentialMode s) eqn:Hc; simpl;
    (split; [eexists; repeat split; simpl; first [reflexivity | assumption]|]);
    unfold Outbox.enqueue; rewrite length_app; simpl;
    repeat split; try reflexivity; lia.
Qed.

Lemma offline_submission_enqueued_verbatim_witness :
  let s := Fixtures.exampleState false false [Fixtures.exampleItem 4 true] in
  length (outboxItems (stateOf (onSubmit Fixtures.acceptingEnv s))) = 2
  /\ question (stateOf (onSubmit Fixtures.acceptingEnv s)) = [].
Proof.
  intros s.
  destruct (offline_submission_enqueued_verbatim Fixtures.acceptingEnv s
              eq_refl eq_refl) as [_ [Hlen [Hquestion _]]].
  split; [exact Hlen | exact Hquestion].
Defined.

Lemma onSubmit_rejected_outbox (env : Env) (s : ViewState) (error : Thrown) :
  forallb isWhiteSpace (question s) = false ->
  online s = true ->
  submitResearchQuestion env (submittedRequest env s) = Rejected error ->
  outboxItems (stateOf (onSubmit env s))
  = Outbox.enqueue (submittedInput env s) (outboxItems s).
Proof.
  intros Hq Ho Hfail. apply nonblank_truthy in Hq.
  unfold onSubmit. run_handler. rewrite Hq, Ho. simpl. rewrite Hfail.
  destruct (confidentialMode s); reflexivity.
Qed.

(** C2, as stated, fails: an [Error] whose message is the empty string
    carries no message, and the notification shown is that empty message,
    not the generic fallback. *)
Lemma empty_error_message_counterexample :
  let s := Fixtures.exampleState true false [] in
  let env := Fixtures.rejectingEnv (ErrorInstance []) in
  forallb isWhiteSpace (question s) = false
  /\ online s = true
  /\ submitResearchQuestion env (submittedRequest env s)
     = Rejected (ErrorInstance [])
  /\ filter isToastError (effectsOf (onSubmit env s)) = [ToastError [] None]
  /\ OrchestratorSpec.notifiedMessage (ErrorInstance [])
     = lit "Agent indisponible"
  /\ filter isToastError (effectsOf (onSubmit env s))
     <> [ToastError (OrchestratorSpec.notifiedMessage (ErrorInstance [])) None].
Proof. repeat split; discriminate. Qed.

(** The specified message and the one shown agree on every thrown value but
    an [Error] with an empty message. *)
Lemma notifiedMessage_agrees (error : Thrown) :
  error <> ErrorInstance [] ->
  OrchestratorSpec.notifiedMessage error = failureMessage error.
Proof.
  destruct error as [[|c message]|]; [congruence | reflexivity | reflexivity].
Qed.

(** C2 (amended): when the remote call of an online submission fails, the
    submitted request (question, context, confidential flag, agent code) is
    appended to the outbox, and the one error notification carries the
    [message] of the thrown [Error], also when that message is empty, or the
    text "Agent indisponible" when the thrown value is not an [Error]; the
    enqueued fields are those of the request that was sent. *)
Theorem failed_submission_enqueued_and_notified (env : Env) (s : ViewState)
  (error : Thrown) :
  forallb isWhiteSpace (question s) = false ->
  online s = true ->
  submitResearchQuestion env (submittedRequest env s) = Rejected error ->
  let r := onSubmit env s in
  (exists item,
      outboxItems (stateOf r) = outboxItems s ++ [item]
      /\ item_question item = question s
      /\ item_context item = context s
      /\ item_confidentialMode item = confidentialMode s
      /\ item_agentCode item = agentCode s)
  /\ filter isAgentCall (effectsOf r) = [AgentCall (submittedRequest env s)]
  /\ (rq_question (submittedRequest env s) = question s
      /\ rq_context (submittedRequest env s) = context s
      /\ rq_confidentialMode (submittedRequest env s) = confidentialMode s
      /\ rq_agentCode (submittedRequest env s) = agentCode s)
  /\ filter isToastError (effectsOf r)
     = [ ToastError (match error with
                     | ErrorInstance message => message
                     | NotAnError => lit "Agent indisponible"
                     end) None ].
Proof.
  intros Hq Ho Hfail. apply nonblank_truthy in Hq.
  unfold onSubmit. run_handler. rewrite Hq, Ho. simpl. rewrite Hfail.
  destruct (confidentialMode s) eqn:Hc; simpl;
    (split; [eexists; repeat split; simpl; first [reflexivity | assumption]|]);
    repeat split; destruct error; reflexivity.
Qed.

Lemma failed_submission_enqueued_and_notified_witness :
  let s := Fixtures.exampleState true false [] in
  let env := Fixtures.rejectingEnv (ErrorInstance (lit "HTTP 503")) in
  filter isToastError (effectsOf (onSubmit env s))
  = [ToastError (lit "HTTP 503") None].
Proof.
  intros s env.
  destruct (failed_submission_enqueued_and_notified env s
              (error := ErrorInstance (lit "HTTP 503")) eq_refl eq_refl eq_refl)
    as [_ [_ [_ Htoast]]].
  exact Htoast.
Defined.

(** *** Processing outbox items *)

Lemma processOutboxItem_skip (env : Env) (snap s : ViewState) (item : OutboxItem) :
  item_confidentialMode item = true ->
  processOutboxItem env snap item Auto s = (false, s, []).
Proof. intros H. unfold processOutboxItem. rewrite H. reflexivity. Qed.

Lemma processOutboxItem_result (env : Env) (snap s : ViewState)
  (item : OutboxItem) (source : Source) :
  resultOf (processOutboxItem env snap item source s)
  = negb (item_confidentialMode item && isAuto source) && agentAccepts env item.
Proof.
  unfold processOutboxItem, agentAccepts. run_handler.
  destruct (item_confidentialMode item && isAuto source); simpl; [reflexivity|].
  destruct (submitResearchQuestion env (itemRequest env item)); simpl;
    destruct (isManual source || negb (planOpen snap));
    destruct (negb (confidentialMode snap) && negb (item_confidentialMode item));
    reflexivity.
Qed.

Lemma processOutboxItem_outbox (env : Env) (snap s : ViewState)
  (item : OutboxItem) (source : Source) :
  outboxItems (stateOf (processOutboxItem env snap item source s)) = outboxItems s.
Proof.
  unfold processOutboxItem. run_handler.
  destruct (item_confidentialMode item && isAuto source); simpl; [reflexivity|].
  destruct (submitResearchQuestion env (itemRequest env item)); simpl;
    destruct (isManual source || negb (planOpen snap));
    destruct (negb (confidentialMode snap) && negb (item_confidentialMode item));
    reflexivity.
Qed.

Lemma processOutboxItem_calls_agent (env : Env) (snap s : ViewState)
  (item : OutboxItem) (source : Source) :
  item_confidentialMode item && isAuto source = false ->
  filter isAgentCall (effectsOf (processOutboxItem env snap item source s))
  = [AgentCall (itemRequest env item)].
Proof.
  intros H. unfold processOutboxItem. run_handler. rewrite H.
  destruct (submitResearchQuestion env (itemRequest env item)); simpl;
    destruct (isManual source || negb (planOpen snap));
    destruct (negb (confidentialMode snap) && negb (item_confidentialMode item));
    reflexivity.
Qed.

Lemma getState_result (s : ViewState) : resultOf (getState s) = s.
Proof. reflexivity. Qed.

Lemma getState_state (s : ViewState) : stateOf (getState s) = s.
Proof. reflexivity. Qed.

Lemma getState_effects (s : ViewState) : effectsOf (getState s) = [].
Proof. reflexivity. Qed.

Lemma remove_state (id : nat) (s : ViewState) :
  outboxItems (stateOf (remove id s)) = Outbox.remove id (outboxItems s).
Proof. reflexivity. Qed.

Lemma ret_state {A} (a : A) (s : ViewState) : stateOf (ret a s) = s.
Proof. reflexivity. Qed.

Lemma remove_In (id : nat) (items : list OutboxItem) (it : OutboxItem) :
  In it (Outbox.remove id items) <-> In it items /\ item_id it <> id.
Proof.
  unfold Outbox.remove. rewrite filter_In, negb_true_iff, Nat.eqb_neq. tauto.
Qed.

Lemma flushItems_keeps_unsent (env : Env) (snap : ViewState) (it : OutboxItem) :
  item_confidentialMode it = true ->
  forall (items : list OutboxItem) (s : ViewState),
    In it (outboxItems s) ->
    (forall x, In x items -> item_id x = item_id it ->
               item_confidentialMode x = true) ->
    In it (outboxItems
             (stateOf (flushItems (fun item => processOutboxItem env snap item Auto)
                                  items s))).
Proof.
  intros Hconf items. induction items as [|x rest IH]; intros s Hin Hids.
  - exact Hin.
  - simpl flushItems. rewrite bind_state, bind_state.
    apply IH; [|intros y Hy; apply Hids; right; exact Hy].
    rewrite processOutboxItem_result.
    destruct (negb (item_confidentialMode x && isAuto Auto) && agentAccepts env x)
      eqn:Hsent.
    + rewrite remove_state. apply remove_In. split.
      * rewrite processOutboxItem_outbox. exact Hin.
      * intros Heq. symmetry in Heq.
        rewrite (Hids x (or_introl eq_refl) Heq) in Hsent. discriminate Hsent.
    + rewrite ret_state, processOutboxItem_outbox. exact Hin.
Qed.

Lemma NoDup_ids_unique (items : list OutboxItem) (x y : OutboxItem) :
  NoDup (map item_id items) -> In x items -> In y items ->
  item_id x = item_id y -> x = y.
Proof.
  induction items as [|a l IH]; simpl; intros Hnd Hx Hy Heq; [contradiction|].
  inversion Hnd as [|? ? Hnotin Hnd']; subst.
  destruct Hx as [-> | Hx], Hy as [-> | Hy].
  - reflexivity.
  - exfalso. apply Hnotin. rewrite Heq. apply in_map. exact Hy.
  - exfalso. apply Hnotin. rewrite <- Heq. apply in_map. exact Hx.
  - apply IH; assumption.
Qed.

Example autoFlush_example :
  let s := Fixtures.exampleState true false
             [Fixtures.exampleItem 1 false; Fixtures.exampleItem 2 true;
              Fixtures.exampleItem 3 false] in
  outboxItems (stateOf (autoFlush Fixtures.acceptingEnv s))
  = [Fixtures.exampleItem 2 true]
  /\ length (filter isAgentCall (effectsOf (autoFlush Fixtures.acceptingEnv s))) = 2.
Proof. split; reflexivity. Qed.

(** C3: for a confidential outbox item, processing with source [Auto]
    returns false, calls nothing and changes nothing, so the automatic flush
    leaves the item in the queue (ids being unique); processing it with
    source [Manual] calls the remote agent with the item's request, and so
    does the retry button when online. *)
Theorem confidential_item_auto_skipped_manual_sent (env : Env)
  (snap s : ViewState) (item : OutboxItem) :
  item_confidentialMode item = true ->
  processOutboxItem env snap item Auto s = (false, s, [])
  /\ (In item (outboxItems s) -> NoDup (map item_id (outboxItems s)) ->
      In item (outboxItems (stateOf (autoFlush env s))))
  /\ filter isAgentCall (effectsOf (processOutboxItem env snap item Manual s))
     = [AgentCall (itemRequest env item)]
  /\ (online s = true ->
      filter isAgentCall (effectsOf (handleOutboxRetry env item s))
      = [AgentCall (itemRequest env item)]).
Proof.
  intros Hconf. split; [apply processOutboxItem_skip, Hconf|].
  split; [|split].
  - intros Hin Hnd. unfold autoFlush.
    rewrite bind_state, getState_result, getState_state.
    destruct (negb (online s) || Nat.eqb (length (outboxItems s)) 0);
      [exact Hin|].
    unfold flush. rewrite bind_state, getState_result, getState_state.
    apply flushItems_keeps_unsent; [exact Hconf | exact Hin |].
    intros x Hx Hid.
    rewrite (NoDup_ids_unique (outboxItems s) x item Hnd Hx Hin Hid).
    exact Hconf.
  - apply processOutboxItem_calls_agent. rewrite Hconf. reflexivity.
  - intros Ho. unfold handleOutboxRetry.
    rewrite bind_effects, getState_result, getState_state, getState_effects.
    rewrite Ho. simpl.
    rewrite bind_effects, filter_app, processOutboxItem_calls_agent
      by (rewrite Hconf; reflexivity).
    destruct (resultOf (processOutboxItem env s item Manual s)); reflexivity.
Qed.

Lemma confidential_item_auto_skipped_manual_sent_witness :
  let item := Fixtures.exampleItem 2 true in
  let s := Fixtures.exampleState true false
             [Fixtures.exampleItem 1 false; item] in
  processOutboxItem Fixtures.acceptingEnv s item Auto s = (false, s, [])
  /\ In item (outboxItems (stateOf (autoFlush Fixtures.acceptingEnv s))).
Proof.
  intros item s.
  destruct (confidential_item_auto_skipped_manual_sent Fixtures.acceptingEnv
              s s item eq_refl) as [Hskip [Hkeep _]].
  split; [exact Hskip|].
  apply Hkeep.
  - right. left. reflexivity.
  - simpl. repeat constructor; simpl; intuition discriminate.
Defined.

(** *** The latest run, telemetry and the input fields *)

Lemma processOutboxItem_failed_state (env : Env) (snap s : ViewState)
  (item : OutboxItem) (source : Source) :
  resultOf (processOutboxItem env snap item source s) = false ->
  stateOf (processOutboxItem env snap item source s) = s.
Proof.
  unfold processOutboxItem. run_handler.
  destruct (item_confidentialMode item && isAuto source); simpl; [reflexivity|].
  destruct (submitResearchQuestion env (itemRequest env item)); simpl;
    destruct (isManual source || negb (planOpen snap));
    destruct (negb (confidentialMode snap) && negb (item_confidentialMode item));
    simpl; intros H; first [discriminate H | reflexivity].
Qed.

Lemma processOutboxItem_sent_state (env : Env) (snap s : ViewState)
  (item : OutboxItem) (source : Source) :
  resultOf (processOutboxItem env snap item source s) = true ->
  exists data,
    submitResearchQuestion env (itemRequest env item) = Resolved data
    /\ latestRun (stateOf (processOutboxItem env snap item source s))
       = latestRun (stateOf (setLatestRun data s)).
Proof.
  unfold processOutboxItem. run_handler.
  destruct (item_confidentialMode item && isAuto source); simpl;
    [discriminate|].
  destruct (submitResearchQuestion env (itemRequest env item)) as [data|error];
    simpl;
    destruct (isManual source || negb (planOpen snap));
    destruct (negb (confidentialMode snap) && negb (item_confidentialMode item));
    simpl; intros H; first [discriminate H | exists data; split; reflexivity].
Qed.

Lemma flushItems_nothing_sent (env : Env) (snap : ViewState)
  (items : list OutboxItem) (s : ViewState) :
  (forall x, In x items ->
     item_confidentialMode x = true \/ agentAccepts env x = false) ->
  stateOf (flushItems (fun item => processOutboxItem env snap item Auto) items s)
  = s.
Proof.
  induction items as [|x rest IH]; intros H; [reflexivity|].
  assert (resultOf (processOutboxItem env snap x Auto s) = false) as Hres.
  { rewrite processOutboxItem_result.
    destruct (H x (or_introl eq_refl)) as [-> | ->]; simpl;
      [reflexivity | apply andb_false_r]. }
  simpl flushItems. rewrite bind_state, bind_state, Hres, ret_state.
  rewrite (processOutboxItem_failed_state env snap s x Auto Hres).
  apply IH. intros y Hy. apply H. right. exact Hy.
Qed.

(** C6: the latest run is left as it was by a submission that fails
    validation, is queued offline or whose remote call is rejected, by an
    outbox item that is not sent, by a retry made offline or rejected, by an
    automatic flush in which no item is sent and by the other handlers of the
    view; a successful submission and a successfully sent outbox item both
    leave what [setLatestRun] writes for the response received. *)
Theorem latestRun_written_only_on_success (env : Env) (snap s : ViewState)
  (item : OutboxItem) (source : Source) :
  ((forallb isWhiteSpace (question s) = true
    \/ online s = false
    \/ (exists error,
          submitResearchQuestion env (submittedRequest env s) = Rejected error)) ->
   latestRun (stateOf (onSubmit env s)) = latestRun s)
  /\ (resultOf (processOutboxItem env snap item source s) = false ->
      latestRun (stateOf (processOutboxItem env snap item source s)) = latestRun s)
  /\ ((online s = false \/ agentAccepts env item = false) ->
      latestRun (stateOf (handleOutboxRetry env item s)) = latestRun s)
  /\ ((forall x, In x (outboxItems s) ->
         item_confidentialMode x = true \/ agentAccepts env x = false) ->
      latestRun (stateOf (autoFlush env s)) = latestRun s)
  /\ (forall data,
        forallb isWhiteSpace (question s) = false ->
        online s = true ->
        submitResearchQuestion env (submittedRequest env s) = Resolved data ->
        latestRun (stateOf (onSubmit env s))
        = latestRun (stateOf (setLatestRun data s)))
  /\ (resultOf (processOutboxItem env snap item source s) = true ->
      exists data,
        submitResearchQuestion env (itemRequest env item) = Resolved data
        /\ latestRun (stateOf (processOutboxItem env snap item source s))
           = latestRun (stateOf (setLatestRun data s)))
  /\ (forall text url language,
        latestRun (stateOf (handleVoiceTranscript text s)) = latestRun s
        /\ latestRun (stateOf (handleOcrText text s)) = latestRun s
        /\ latestRun (stateOf (handleBilingualSelect language s)) = latestRun s
        /\ latestRun (stateOf (handleCitationVisit url s)) = latestRun s
        /\ latestRun (stateOf (verifyCitation url s)) = latestRun s).
Proof.
  split; [|split; [|split; [|split; [|split; [|split]]]]].
  - intros H. unfold onSubmit. run_handler.
    destruct (truthy (trim (question s))) eqn:Hq; simpl.
    + destruct (online s) eqn:Ho; simpl.
      * destruct H as [H | [H | [error H]]].
        -- apply JsFacts.blank_iff in H. congruence.
        -- discriminate H.
        -- rewrite H. destruct (confidentialMode s); reflexivity.
      * destruct (confidentialMode s); reflexivity.
    + reflexivity.
  - intros H. rewrite processOutboxItem_failed_state by exact H. reflexivity.
  - intros H. unfold handleOutboxRetry.
    rewrite bind_state, getState_result, getState_state.
    destruct (online s) eqn:Ho; simpl; [|reflexivity].
    destruct H as [H | H]; [discriminate H|].
    assert (resultOf (processOutboxItem env s item Manual s) = false) as Hres.
    { rewrite processOutboxItem_result, H. apply andb_false_r. }
    rewrite bind_state, Hres, ret_state.
    rewrite processOutboxItem_failed_state by exact Hres. reflexivity.
  - intros H. unfold autoFlush.
    rewrite bind_state, getState_result, getState_state.
    destruct (negb (online s) || Nat.eqb (length (outboxItems s)) 0);
      [reflexivity|].
    unfold flush. rewrite bind_state, getState_result, getState_state.
    rewrite flushItems_nothing_sent by exact H. reflexivity.
  - intros data Hq Ho Hok. apply nonblank_truthy in Hq.
    unfold onSubmit. run_handler. rewrite Hq, Ho. simpl. rewrite Hok.
    destruct (confidentialMode s); reflexivity.
  - apply processOutboxItem_sent_state.
  - intros text url language.
    unfold handleVoiceTranscript, handleOcrText, handleBilingualSelect,
      handleCitationVisit, verifyCitation.
    run_handler. destruct (confidentialMode s); repeat split; reflexivity.
Qed.

Lemma latestRun_written_only_on_success_witness :
  let s := Fixtures.exampleState false false [] in
  latestRun (stateOf (onSubmit Fixtures.acceptingEnv s)) = None
  /\ latestRun (stateOf (onSubmit Fixtures.acceptingEnv
                           (Fixtures.exampleState true false [])))
     = Some Fixtures.exampleRun.
Proof.
  intros s. split.
  - apply (proj1 (latestRun_written_only_on_success Fixtures.acceptingEnv s s
                    (Fixtures.exampleItem 1 false) Auto)).
    right. left. reflexivity.
  - apply (proj1 (proj2 (proj2 (proj2 (proj2
             (latestRun_written_only_on_success Fixtures.acceptingEnv s
                (Fixtures.exampleState true false [])
                (Fixtures.exampleItem 1 false) Auto)))))
             Fixtures.exampleRun); reflexivity.
Defined.

Lemma processOutboxItem_confidential_no_telemetry (env : Env)
  (snap s : ViewState) (item : OutboxItem) (source : Source) :
  item_confidentialMode item = true ->
  filter isTelemetry (effectsOf (processOutboxItem env snap item source s)) = [].
Proof.
  intros H. unfold processOutboxItem. run_handler. rewrite H. simpl.
  destruct (isAuto source); simpl; [reflexivity|].
  rewrite andb_false_r.
  destruct (submitResearchQuestion env (itemRequest env item)); simpl;
    destruct (isManual source || negb (planOpen snap)); reflexivity.
Qed.

(** C7: a submission made in confidential mode emits no telemetry event,
    whether it is rejected by validation, queued offline, answered or failed,
    and what it puts in the outbox is marked confidential; processing a
    confidential outbox item, from the automatic flush or from the retry
    button, emits no telemetry event either, whatever the confidential
    toggle is at that time; nor do the dictation, OCR, language and citation
    handlers while the confidential mode is on. *)
Theorem confidential_request_emits_no_telemetry (env : Env)
  (snap s : ViewState) (item : OutboxItem) (source : Source) :
  (confidentialMode s = true ->
   filter isTelemetry (effectsOf (onSubmit env s)) = []
   /\ forall it, In it (outboxItems (stateOf (onSubmit env s))) ->
        In it (outboxItems s) \/ item_confidentialMode it = true)
  /\ (item_confidentialMode item = true ->
      filter isTelemetry (effectsOf (processOutboxItem env snap item source s)) = []
      /\ filter isTelemetry (effectsOf (handleOutboxRetry env item s)) = [])
  /\ (confidentialMode s = true ->
      forall text url language,
        filter isTelemetry (effectsOf (handleVoiceTranscript text s)) = []
        /\ filter isTelemetry (effectsOf (handleOcrText text s)) = []
        /\ filter isTelemetry (effectsOf (handleBilingualSelect language s)) = []
        /\ filter isTelemetry (effectsOf (handleCitationVisit url s)) = []
        /\ filter isTelemetry (effectsOf (verifyCitation url s)) = []).
Proof.
  split; [|split].
  - intros Hc. unfold onSubmit. run_handler. rewrite Hc. simpl.
    destruct (truthy (trim (question s))); simpl; [|split; [reflexivity|auto]].
    destruct (online s); simpl.
    + destruct (submitResearchQuestion env (submittedRequest env s)); simpl.
      * split; [reflexivity|auto].
      * split; [reflexivity|]. intros it Hin.
        unfold Outbox.enqueue in Hin. apply in_app_or in Hin.
        destruct Hin as [Hin | [<- | []]]; [left; exact Hin | right; exact Hc].
    + split; [reflexivity|]. intros it Hin.
      unfold Outbox.enqueue in Hin. apply in_app_or in Hin.
      destruct Hin as [Hin | [<- | []]]; [left; exact Hin | right; exact Hc].
  - intros Hi. split.
    + apply processOutboxItem_confidential_no_telemetry, Hi.
    + unfold handleOutboxRetry.
      rewrite bind_effects, getState_result, getState_state, getState_effects.
      destruct (online s); simpl; [|reflexivity].
      rewrite bind_effects, filter_app,
        processOutboxItem_confidential_no_telemetry by exact Hi.
      destruct (resultOf (processOutboxItem env s item Manual s)); reflexivity.
  - intros Hc text url language.
    unfold handleVoiceTranscript, handleOcrText, handleBilingualSelect,
      handleCitationVisit, verifyCitation.
    run_handler. rewrite Hc. repeat split; reflexivity.
Qed.

Lemma confidential_request_emits_no_telemetry_witness :
  let s := Fixtures.exampleState true true [] in
  let item := Fixtures.exampleItem 7 true in
  filter isTelemetry
    (effectsOf (onSubmit (Fixtures.rejectingEnv NotAnError) s)) = []
  /\ filter isTelemetry
       (effectsOf (processOutboxItem Fixtures.acceptingEnv
                     (Fixtures.exampleState true false []) item Manual s)) = [].
Proof.
  intros s item. split.
  - apply (proj1 (confidential_request_emits_no_telemetry
                    (Fixtures.rejectingEnv NotAnError) s s item Manual)).
    reflexivity.
  - apply (proj1 (proj2 (confidential_request_emits_no_telemetry
                           Fixtures.acceptingEnv
                           (Fixtures.exampleState true false []) s item Manual))).
    reflexivity.
Defined.

Example onSubmit_success_keeps_inputs :
  let s := Fixtures.exampleState true true [] in
  stateOf (onSubmit Fixtures.acceptingEnv s)
  = {| question := lit "Quelle est la prescription applicable ?";
       context := lit "Contrat de bail";
       ohadaMode := true; euOverlay := true; confidentialMode := true;
       agentCode := lit "conseil_recherche";
       latestRun := Some Fixtures.exampleRun;
       planOpen := true; online := true; outboxItems := [] |}.
Proof. reflexivity. Qed.

(** C10: an online submission leaves the question and context fields as
    submitted, when the remote call succeeds and when it fails (the failed
    request being appended to the outbox); a submission that changes either
    field was made offline with a question that is not only white space. *)
Theorem inputs_cleared_only_when_queued_offline (env : Env) (s : ViewState) :
  (online s = true ->
   question (stateOf (onSubmit env s)) = question s
   /\ context (stateOf (onSubmit env s)) = context s)
  /\ (forall error,
        forallb isWhiteSpace (question s) = false ->
        online s = true ->
        submitResearchQuestion env (submittedRequest env s) = Rejected error ->
        length (outboxItems (stateOf (onSubmit env s)))
        = S (length (outboxItems s)))
  /\ ((question (stateOf (onSubmit env s)) <> question s
       \/ context (stateOf (onSubmit env s)) <> context s) ->
      online s = false /\ forallb isWhiteSpace (question s) = false).
Proof.
  assert (online s = true \/ truthy (trim (question s)) = false ->
          question (stateOf (onSubmit env s)) = question s
          /\ context (stateOf (onSubmit env s)) = context s) as Hkeep.
  { intros H. unfold onSubmit. run_handler.
    destruct (truthy (trim (question s))) eqn:Hq; simpl; [|split; reflexivity].
    destruct H as [Ho | H]; [|discriminate H]. rewrite Ho. simpl.
    destruct (submitResearchQuestion env (submittedRequest env s));
      destruct (confidentialMode s); split; reflexivity. }
  split; [|split].
  - intros Ho. apply Hkeep. left. exact Ho.
  - intros error Hq Ho Hfail.
    rewrite (onSubmit_rejected_outbox env s Hq Ho Hfail).
    unfold Outbox.enqueue. rewrite length_app. simpl. lia.
  - intros Hchanged.
    destruct (online s) eqn:Ho.
    + destruct (Hkeep (or_introl eq_refl)) as [H1 H2]. destruct Hchanged; contradiction.
    + split; [reflexivity|].
      destruct (forallb isWhiteSpace (question s)) eqn:Hb; [|reflexivity].
      apply JsFacts.blank_iff in Hb.
      destruct (Hkeep (or_intror Hb)) as [H1 H2]. destruct Hchanged; contradiction.
Qed.

Lemma inputs_cleared_only_when_queued_offline_witness :
  let s := Fixtures.exampleState true false [] in
  question (stateOf (onSubmit (Fixtures.rejectingEnv NotAnError) s)) = question s
  /\ context (stateOf (onSubmit (Fixtures.rejectingEnv NotAnError) s)) = context s.
Proof.
  intros s.
  apply (proj1 (inputs_cleared_only_when_queued_offline
                  (Fixtures.rejectingEnv NotAnError) s)).
  reflexivity.
Defined.

End OrchestratorFacts.

(** ** Exporters *)

Module ExportersFacts.

Import Exporters.

(** A response that is not ok: the PDF is saved without the two signature
    lines, after one warning. *)
Example exportIracToPdf_refused_example :
  let r := exportIracToPdf (Fixtures.examplePlatform (fun _ => Fixtures.refusedResponse))
             Fixtures.examplePayload Orchestrator.Fr in
  outcomeOf r = Fulfilled tt
  /\ filter isWarning (logOf r)
     = [ConsoleWarn "export_sign_failed" (lit "signing_unavailable")]
  /\ filter isSave (logOf r) = [SavePdf (lit "analyse-irac-fr.pdf")]
  /\ last (logOf r) NewPdf = SavePdf (lit "analyse-irac-fr.pdf").
Proof. repeat split; reflexivity. Qed.

Example exportIracToPdf_signed_example :
  let r := exportIracToPdf
             (Fixtures.examplePlatform
                (fun _ => FetchResponse
                            {| res_ok := true; res_text := None;
                               res_json := JsonSignature Fixtures.exampleSignature |}))
             Fixtures.examplePayload Orchestrator.Fr in
  outcomeOf r = Fulfilled tt
  /\ In (DrawText [lit "Statement stmt-1 " ++ [EM_DASH; 32%N]
                   ++ lit "2024-05-01T10:00:00Z"] 48 814) (logOf r).
Proof. split; [reflexivity|]. vm_compute. intuition. Qed.

(** The same export when [fetch] rejects: the promise is rejected and the
    last thing done is the request to the signing service. *)
Example exportIracToPdf_rejected_example :
  let r := exportIracToPdf (Fixtures.examplePlatform (fun _ => FetchRejected))
             Fixtures.examplePayload Orchestrator.Fr in
  outcomeOf r = RejectedPromise
  /\ last (logOf r) NewPdf
     = Fetch {| sr_url := lit "/api/exports/sign";
                sr_userId := lit "user-demo";
                sr_orgId := lit "org-demo";
                sr_contentSha256 := lit "00";
                sr_filename := lit "analyse-irac-fr.pdf" |}
  /\ filter isSave (logOf r) = [].
Proof. repeat split; reflexivity. Qed.

(** A response that is ok but whose body is not JSON: [res.json()] rejects,
    and so does the export, after the request and before any save. *)
Example exportIracToPdf_unreadable_example :
  let r := exportIracToPdf
             (Fixtures.examplePlatform
                (fun _ => FetchResponse
                            {| res_ok := true;
                               res_text := Some (lit "<html>");
                               res_json := JsonRejected |}))
             Fixtures.examplePayload Orchestrator.Fr in
  outcomeOf r = RejectedPromise
  /\ filter isFetch (logOf r)
     = [Fetch {| sr_url := lit "/api/exports/sign";
                 sr_userId := lit "user-demo";
                 sr_orgId := lit "org-demo";
                 sr_contentSha256 := lit "00";
                 sr_filename := lit "analyse-irac-fr.pdf" |}]
  /\ filter isSave (logOf r) = []
  /\ filter isWarning (logOf r) = [].
Proof. repeat split; reflexivity. Qed.

Ltac run_export :=
  cbv [exportIracToPdf exportIracToDocx onExportPdf onExportDocx addSection
       signExport signRequest xbind xdo xret xreject xawait xcatch
       withFetch withDigest sha256Hex fetch outcomeOf logOf fst snd].

(** The sibling path: when the digest is available and the signing service
    answers with a status that is not ok and a body that can be read, both
    exports complete, save the document and log one warning. *)
Lemma refused_signature_export_completes (pf : Platform)
  (digest : jsstring -> jsstring) (res : Response) (detail : jsstring)
  (payload : IracPayload) (locale : Orchestrator.Locale) :
  res_ok res = false ->
  res_text res = Some detail ->
  let pf' := withFetch (withDigest pf digest) (fun _ => FetchResponse res) in
  outcomeOf (exportIracToPdf pf' payload locale) = Fulfilled tt
  /\ filter isSave (logOf (exportIracToPdf pf' payload locale))
     = [SavePdf (exportFilename pf' payload ".pdf")]
  /\ filter isWarning (logOf (exportIracToPdf pf' payload locale))
     = [ConsoleWarn "export_sign_failed" detail]
  /\ outcomeOf (exportIracToDocx pf' payload locale) = Fulfilled tt
  /\ (exists document,
        filter isSave (logOf (exportIracToDocx pf' payload locale))
        = [SaveAs document (exportFilename pf' payload ".docx")])
  /\ filter isWarning (logOf (exportIracToDocx pf' payload locale))
     = [ConsoleWarn "export_sign_failed" detail].
Proof.
  intros Hok Htext pf'. subst pf'. run_export. rewrite Hok, Htext. simpl.
  repeat split; try reflexivity. eexists. reflexivity.
Qed.

(** C8, at the failing input: when the request to the signing service is
    rejected (a network failure), neither export completes: the promise of
    [exportIracToPdf] and of [exportIracToDocx] is rejected, no document is
    saved and no warning is logged; the export buttons report the failure as
    an error. *)
Theorem rejected_signing_request_aborts_export (pf : Platform)
  (em : ExportMessages) (payload : IracPayload) (locale : Orchestrator.Locale) :
  let pf' := withFetch pf (fun _ => FetchRejected) in
  outcomeOf (exportIracToPdf pf' payload locale) = RejectedPromise
  /\ filter isSave (logOf (exportIracToPdf pf' payload locale)) = []
  /\ filter isWarning (logOf (exportIracToPdf pf' payload locale)) = []
  /\ outcomeOf (exportIracToDocx pf' payload locale) = RejectedPromise
  /\ filter isSave (logOf (exportIracToDocx pf' payload locale)) = []
  /\ filter isWarning (logOf (exportIracToDocx pf' payload locale)) = []
  /\ filter isSave (logOf (onExportPdf pf' em payload locale)) = []
  /\ filter isErrorReport (logOf (onExportPdf pf' em payload locale))
     = [ConsoleError "export_pdf_failed";
        ToastError (exportErrorMessage em) "export-pdf"]
  /\ filter isSave (logOf (onExportDocx pf' em payload locale)) = []
  /\ filter isErrorReport (logOf (onExportDocx pf' em payload locale))
     = [ConsoleError "export_docx_failed";
        ToastError (exportErrorMessage em) "export-docx"].
Proof.
  intros pf'. subst pf'. run_export.
  repeat match goal with
         | |- context [match ?d with Some _ => _ | None => _ end] =>
             destruct d; cbn [app filter isSave isWarning isErrorReport]
         end;
    simpl; repeat split; reflexivity.
Qed.

End ExportersFacts.

(** ** Staleness *)

Module StalenessFacts.

Import Staleness.

Example isDateStale_examples :
  let day := MS_PER_DAY in
  let options := {| thresholdDays := 90; offline := false |} in
  isDateStale Fixtures.exampleDateParse (200 * day) [] options = false
  /\ isDateStale Fixtures.exampleDateParse (200 * day) (lit "yesterday") options = false
  /\ isDateStale Fixtures.exampleDateParse (92 * day) (lit "1970-01-02") options = true
  /\ isDateStale Fixtures.exampleDateParse (91 * day) (lit "1970-01-02") options = false
  /\ isDateStale Fixtures.exampleDateParse (91 * day) (lit "1970-03-23") options = false.
Proof. repeat split; reflexivity. Qed.

(** C9: the staleness evaluator answers false for the empty string and for
    every string that does not parse; for a string that parses it answers
    true exactly when the time elapsed since the parsed date is more than
    [thresholdDays] days, so with a threshold of 90 a date 91 days back is
    stale and one 10 days back is not; the answer is a function of the
    date, the threshold and the clock alone (the [offline] flag does not
    change it). *)
Theorem isDateStale_fail_open_and_threshold (dateParse : jsstring -> option Z)
  (now : Z) (dateString : jsstring) (options : StaleOptions) :
  isDateStale dateParse now [] options = false
  /\ (parseDateString dateParse dateString = None ->
      isDateStale dateParse now dateString options = false)
  /\ (forall parsedDate,
        parseDateString dateParse dateString = Some parsedDate ->
        (isDateStale dateParse now dateString options = true
         <-> (now - parsedDate > thresholdDays options * MS_PER_DAY)%Z)
        /\ (thresholdDays options = 90%Z ->
            (parsedDate = now - 91 * MS_PER_DAY ->
             isDateStale dateParse now dateString options = true)
            /\ (parsedDate = now - 10 * MS_PER_DAY ->
                isDateStale dateParse now dateString options = false))%Z)
  /\ isDateStale dateParse now dateString
       {| thresholdDays := thresholdDays options; offline := true |}
     = isDateStale dateParse now dateString
         {| thresholdDays := thresholdDays options; offline := false |}.
Proof.
  split; [reflexivity|]. split; [|split].
  - intros H. unfold isDateStale. rewrite H. reflexivity.
  - intros parsedDate H. unfold isDateStale. rewrite H. split.
    + rewrite Z.ltb_lt. lia.
    + intros Ht. rewrite Ht. unfold MS_PER_DAY. split; intros ->.
      * apply Z.ltb_lt. lia.
      * apply Z.ltb_ge. lia.
  - reflexivity.
Qed.

Lemma isDateStale_fail_open_and_threshold_witness :
  isDateStale Fixtures.exampleDateParse (92 * MS_PER_DAY) (lit "1970-01-02")
    {| thresholdDays := 90; offline := true |} = true
  /\ isDateStale Fixtures.exampleDateParse (92 * MS_PER_DAY) (lit "n/a")
       {| thresholdDays := 90; offline := true |} = false.
Proof.
  destruct (isDateStale_fail_open_and_threshold Fixtures.exampleDateParse
              (92 * MS_PER_DAY) (lit "1970-01-02")
              {| thresholdDays := 90; offline := true |})
    as [_ [_ [Hparsed _]]].
  destruct (Hparsed 86400000%Z eq_refl) as [_ Hdays].
  destruct (Hdays eq_refl) as [Hstale _].
  split.
  - apply Hstale. reflexivity.
  - apply (proj1 (proj2 (isDateStale_fail_open_and_threshold
                           Fixtures.exampleDateParse (92 * MS_PER_DAY)
                           (lit "n/a")
                           {| thresholdDays := 90; offline := true |}))).
    reflexivity.
Defined.

(** The view asks with a threshold of 90 days, online or not. *)
Lemma isCitationStale_threshold (dateParse : jsstring -> option Z) (now : Z)
  (online : bool) (date : jsstring) :
  isCitationStale dateParse now online date
  = isDateStale dateParse now date {| thresholdDays := 90; offline := false |}.
Proof. reflexivity. Qed.

End StalenessFacts.

(** ** Toast store *)

Module ToastFacts.

Import ToastStore.

Example toastReducer_limit_example :
  toasts (fst (toastReducer
                 {| toasts := [Fixtures.sampleToast "c" true; Fixtures.sampleToast "b" true;
                               Fixtures.sampleToast "a" false] |}
                 (ADD_TOAST (Fixtures.sampleToast "d" true)) [lit "a"]))
  = [Fixtures.sampleToast "d" true; Fixtures.sampleToast "c" true; Fixtures.sampleToast "b" true].
Proof. reflexivity. Qed.

Lemma addToRemoveQueue_setAdd (id : jsstring) (queue : Timeouts) :
  addToRemoveQueue id queue = setAdd queue id.
Proof. reflexivity. Qed.

Lemma queueAll_fold (ts : list ToasterToast) (queue : Timeouts) :
  fold_left (fun q toast => addToRemoveQueue (t_id toast) q) ts queue
  = fold_left setAdd (map t_id ts) queue.
Proof.
  revert queue; induction ts as [|t ts IH]; intros queue; simpl;
    [reflexivity | apply IH].
Qed.

Lemma addToRemoveQueue_present (id : jsstring) (queue : Timeouts) :
  In id queue -> addToRemoveQueue id queue = queue.
Proof.
  intros H. unfold addToRemoveQueue.
  apply JsFacts.existsb_eqb_In in H. rewrite H. reflexivity.
Qed.

Lemma queueAll_present (ids : list jsstring) (queue : Timeouts) :
  (forall id, In id ids -> In id queue) -> fold_left setAdd ids queue = queue.
Proof.
  revert queue; induction ids as [|i ids IH]; intros queue H; simpl;
    [reflexivity|].
  rewrite <- addToRemoveQueue_setAdd,
    (addToRemoveQueue_present i queue (H i (or_introl eq_refl))).
  apply IH. intros j Hj. apply H. right. exact Hj.
Qed.

Lemma idIs_true (t : ToasterToast) (toastId : option jsstring) :
  idIs t toastId = true <-> toastId = Some (t_id t).
Proof.
  destruct toastId as [id|]; simpl.
  - rewrite JsFacts.eqb_eq. split; [intros ->; reflexivity | intros E; inversion E; reflexivity].
  - split; discriminate.
Qed.

(** X1: [ADD_TOAST] puts the new toast first, keeps the two most recent
    earlier toasts in their order and drops the others, so the list never
    holds more than [TOAST_LIMIT] toasts; the removal queue is untouched. *)
Theorem add_toast_newest_first_within_limit (state : ToastState)
  (toast : ToasterToast) (queue : Timeouts) :
  toasts (fst (toastReducer state (ADD_TOAST toast) queue))
  = toast :: firstn 2 (toasts state)
  /\ length (toasts (fst (toastReducer state (ADD_TOAST toast) queue)))
     = Nat.min TOAST_LIMIT (S (length (toasts state)))
  /\ length (toasts (fst (toastReducer state (ADD_TOAST toast) queue)))
     <= TOAST_LIMIT
  /\ snd (toastReducer state (ADD_TOAST toast) queue) = queue.
Proof.
  unfold toastReducer, TOAST_LIMIT. cbn [fst snd toasts].
  rewrite firstn_cons. cbn [length]. rewrite length_firstn.
  repeat split; lia.
Qed.

Lemma update_ids (partial : PartialToast) (ts : list ToasterToast) :
  map t_id (map (fun toast => if idIs toast (p_id partial)
                              then spread toast partial else toast) ts)
  = map t_id ts.
Proof.
  induction ts as [|t ts IH]; simpl; [reflexivity|]. rewrite IH. f_equal.
  destruct (idIs t (p_id partial)) eqn:E; [|reflexivity].
  apply idIs_true in E. unfold spread. simpl. rewrite E. reflexivity.
Qed.

Lemma dismiss_ids (toastId : option jsstring) (ts : list ToasterToast) :
  map t_id (map (fun toast => if idIs toast toastId || isUndefined toastId
                              then closeToast toast else toast) ts)
  = map t_id ts.
Proof.
  induction ts as [|t ts IH]; simpl; [reflexivity|]. rewrite IH. f_equal.
  destruct (idIs t toastId || isUndefined toastId); reflexivity.
Qed.

(** X2: only [ADD_TOAST] can introduce a toast or an id: [UPDATE_TOAST] and
    [DISMISS_TOAST] leave the ids of the toasts and their order as they are
    (an update cannot rename a toast), and [REMOVE_TOAST] only takes toasts
    away; so a list within [TOAST_LIMIT] stays within it under every
    action. *)
Theorem reducer_keeps_ids_and_limit (state : ToastState) (action : ActionType)
  (queue : Timeouts) :
  (forall partial, action = UPDATE_TOAST partial ->
     map t_id (toasts (fst (toastReducer state action queue)))
     = map t_id (toasts state))
  /\ (forall toastId, action = DISMISS_TOAST toastId ->
        map t_id (toasts (fst (toastReducer state action queue)))
        = map t_id (toasts state))
  /\ (forall toastId, action = REMOVE_TOAST toastId ->
        incl (toasts (fst (toastReducer state action queue))) (toasts state)
        /\ length (toasts (fst (toastReducer state action queue)))
           <= length (toasts state))
  /\ (length (toasts state) <= TOAST_LIMIT ->
      length (toasts (fst (toastReducer state action queue))) <= TOAST_LIMIT).
Proof.
  split; [|split; [|split]].
  - intros partial ->. simpl. apply update_ids.
  - intros toastId ->. simpl. apply dismiss_ids.
  - intros toastId ->. simpl. split.
    + intros t Ht. apply filter_In in Ht. apply Ht.
    + apply filter_length_le.
  - intros H. destruct action as [toast | partial | toastId | toastId];
      cbn [toastReducer fst toasts].
    + unfold TOAST_LIMIT. rewrite firstn_cons. cbn [length].
      rewrite length_firstn. lia.
    + rewrite length_map. exact H.
    + rewrite length_map. exact H.
    + pose proof (filter_length_le (fun toast => negb (idIs toast toastId))
                    (toasts state)). lia.
Qed.

Lemma reducer_keeps_ids_and_limit_witness :
  let state := {| toasts := [Fixtures.sampleToast "b" true; Fixtures.sampleToast "a" true] |} in
  map t_id (toasts (fst (toastReducer state (DISMISS_TOAST (Some (lit "a"))) [])))
  = [lit "b"; lit "a"]
  /\ length (toasts (fst (toastReducer state (ADD_TOAST (Fixtures.sampleToast "c" true)) [])))
     <= TOAST_LIMIT.
Proof.
  intros state. split.
  - apply (proj1 (proj2 (reducer_keeps_ids_and_limit state
                           (DISMISS_TOAST (Some (lit "a"))) []))
             (Some (lit "a")) eq_refl).
  - apply (proj2 (proj2 (proj2 (reducer_keeps_ids_and_limit state
                                  (ADD_TOAST (Fixtures.sampleToast "c" true)) [])))).
    unfold TOAST_LIMIT. simpl. lia.
Defined.

Lemma closeToast_again (t : ToasterToast) : closeToast (closeToast t) = closeToast t.
Proof. reflexivity. Qed.

Lemma dismissed_In (toastId : option jsstring) (ts : list ToasterToast)
  (t : ToasterToast) :
  In t ts ->
  In (if idIs t toastId || isUndefined toastId then closeToast t else t)
     (map (fun toast => if idIs toast toastId || isUndefined toastId
                        then closeToast toast else toast) ts).
Proof.
  intros H.
  exact (in_map (fun toast => if idIs toast toastId || isUndefined toastId
                              then closeToast toast else toast) ts t H).
Qed.

Lemma dismiss_queue_incl (state : ToastState) (toastId : option jsstring)
  (queue : Timeouts) (id : jsstring) :
  In id queue -> In id (snd (toastReducer state (DISMISS_TOAST toastId) queue)).
Proof.
  intros H. cbn [toastReducer snd].
  destruct toastId as [i|]; [destruct (truthy i)|];
    rewrite ?queueAll_fold, ?addToRemoveQueue_setAdd;
    first [apply JsFacts.setAdd_In | apply JsFacts.fold_setAdd_In]; left; exact H.
Qed.

(** X3: every toast a [DISMISS_TOAST] closes ([open] set to false, the other
    properties kept) has a removal timer pending afterwards, the toasts it
    does not target are left as they are, a dismissed non-empty id is queued
    even when no toast carries it, and the queue keeps what it held and
    stays free of duplicates: a second timer is never set for an id whose
    timer is pending. *)
Theorem dismiss_closes_and_schedules (state : ToastState)
  (toastId : option jsstring) (queue : Timeouts) :
  let r := toastReducer state (DISMISS_TOAST toastId) queue in
  (forall t, In t (toasts state) ->
     idIs t toastId || isUndefined toastId = true ->
     In (closeToast t) (toasts (fst r)) /\ In (t_id t) (snd r))
  /\ (forall t, In t (toasts state) ->
        idIs t toastId || isUndefined toastId = false ->
        In t (toasts (fst r)))
  /\ (forall id, toastId = Some id -> truthy id = true -> In id (snd r))
  /\ incl queue (snd r)
  /\ (NoDup queue -> NoDup (snd r)).
Proof.
  intros r. subst r. split; [|split; [|split; [|split]]].
  - intros t Hin Hcond. split.
    + pose proof (dismissed_In toastId (toasts state) t Hin) as H.
      rewrite Hcond in H. exact H.
    + cbn [toastReducer snd].
      destruct toastId as [i|]; [destruct (truthy i) eqn:Ht|].
      * rewrite addToRemoveQueue_setAdd. apply JsFacts.setAdd_In. right.
        simpl in Hcond. rewrite orb_false_r in Hcond.
        apply JsFacts.eqb_eq in Hcond. exact Hcond.
      * rewrite queueAll_fold. apply JsFacts.fold_setAdd_In. right.
        apply in_map. exact Hin.
      * rewrite queueAll_fold. apply JsFacts.fold_setAdd_In. right.
        apply in_map. exact Hin.
  - intros t Hin Hcond.
    pose proof (dismissed_In toastId (toasts state) t Hin) as H.
    rewrite Hcond in H. exact H.
  - intros id -> Ht. cbn [toastReducer snd]. rewrite Ht.
    rewrite addToRemoveQueue_setAdd. apply JsFacts.setAdd_In. right. reflexivity.
  - intros id H. apply dismiss_queue_incl. exact H.
  - intros H. cbn [toastReducer snd].
    destruct toastId as [i|]; [destruct (truthy i)|];
      rewrite ?queueAll_fold, ?addToRemoveQueue_setAdd;
      first [apply JsFacts.setAdd_NoDup | apply JsFacts.fold_setAdd_NoDup];
      exact H.
Qed.

Lemma dismiss_closes_and_schedules_witness :
  let state := {| toasts := [Fixtures.sampleToast "b" true;
                             Fixtures.sampleToast "a" true] |} in
  let r := toastReducer state (DISMISS_TOAST (Some (lit "a"))) [lit "a"] in
  In (Fixtures.sampleToast "a" false) (toasts (fst r))
  /\ In (Fixtures.sampleToast "b" true) (toasts (fst r))
  /\ NoDup (snd r).
Proof.
  intros state r.
  destruct (dismiss_closes_and_schedules state (Some (lit "a")) [lit "a"])
    as [Hclosed [Hkept [_ [_ Hnodup]]]].
  split; [|split].
  - apply (Hclosed (Fixtures.sampleToast "a" true)); [right; left|]; reflexivity.
  - apply (Hkept (Fixtures.sampleToast "b" true)); [left|]; reflexivity.
  - apply Hnodup. repeat constructor. intros [].
Defined.

(** X4: dismissing twice is dismissing once: a second [DISMISS_TOAST] with
    the same id (or again without an id) changes neither the toasts nor the
    removal queue. *)
Theorem dismiss_is_idempotent (state : ToastState) (toastId : option jsstring)
  (queue : Timeouts) :
  let r := toastReducer state (DISMISS_TOAST toastId) queue in
  toastReducer (fst r) (DISMISS_TOAST toastId) (snd r) = r.
Proof.
  intros r. subst r. cbn [toastReducer fst snd toasts]. f_equal.
  - f_equal. rewrite map_map. apply map_ext. intros t.
    destruct (idIs t toastId || isUndefined toastId) eqn:E.
    + assert (idIs (closeToast t) toastId = idIs t toastId) as -> by reflexivity.
      rewrite E. reflexivity.
    + rewrite E. reflexivity.
  - destruct toastId as [i|]; [destruct (truthy i)|].
    + apply addToRemoveQueue_present. rewrite addToRemoveQueue_setAdd.
      apply JsFacts.setAdd_In. right. reflexivity.
    + rewrite !queueAll_fold, dismiss_ids. apply queueAll_present.
      intros id Hid. apply JsFacts.fold_setAdd_In. right. exact Hid.
    + rewrite !queueAll_fold, dismiss_ids. apply queueAll_present.
      intros id Hid. apply JsFacts.fold_setAdd_In. right. exact Hid.
Qed.

Lemma filter_all {A} (f : A -> bool) (l : list A) :
  (forall x, In x l -> f x = true) -> filter f l = l.
Proof.
  induction l as [|a l IH]; intros H; simpl; [reflexivity|].
  rewrite (H a (or_introl eq_refl)), IH; [reflexivity|].
  intros x Hx. apply H. right. exact Hx.
Qed.

(** X5: [REMOVE_TOAST] takes away the toasts that carry the given id and no
    other, in one step (removing again changes nothing); without an id it
    removes nothing at all; the removal queue is not touched. *)
Theorem remove_toast_exact (state : ToastState) (toastId : option jsstring)
  (queue : Timeouts) :
  let r := toastReducer state (REMOVE_TOAST toastId) queue in
  (forall t, In t (toasts (fst r)) <->
             In t (toasts state) /\ toastId <> Some (t_id t))
  /\ (toastId = None -> toasts (fst r) = toasts state)
  /\ snd r = queue
  /\ toastReducer (fst r) (REMOVE_TOAST toastId) (snd r) = r.
Proof.
  intros r. subst r. cbn [toastReducer fst snd toasts].
  split; [|split; [|split]].
  - intros t. rewrite filter_In, negb_true_iff.
    rewrite <- (not_true_iff_false (idIs t toastId)), idIs_true. tauto.
  - intros ->. apply filter_all. reflexivity.
  - reflexivity.
  - f_equal. f_equal. apply filter_all. intros t Ht.
    apply filter_In in Ht. apply Ht.
Qed.

Lemma remove_toast_exact_witness :
  toasts (fst (toastReducer
                 {| toasts := [Fixtures.sampleToast "b" true;
                               Fixtures.sampleToast "a" true] |}
                 (REMOVE_TOAST None) []))
  = [Fixtures.sampleToast "b" true; Fixtures.sampleToast "a" true].
Proof.
  apply (proj1 (proj2 (remove_toast_exact
                         {| toasts := [Fixtures.sampleToast "b" true;
                                       Fixtures.sampleToast "a" true] |}
                         None []))).
  reflexivity.
Defined.

(** X6: an empty-string id is falsy but defined: [DISMISS_TOAST] with it
    closes no toast (none having the empty id), yet queues every toast for
    removal. *)
Theorem dismiss_empty_id_queues_all (state : ToastState) (queue : Timeouts) :
  (forall t, In t (toasts state) -> t_id t <> []) ->
  let r := toastReducer state (DISMISS_TOAST (Some [])) queue in
  toasts (fst r) = toasts state
  /\ forall t, In t (toasts state) -> In (t_id t) (snd r).
Proof.
  intros Hids r. subst r. cbn [toastReducer fst snd toasts truthy]. split.
  - rewrite <- (map_id (toasts state)) at 2. apply map_ext_in. intros t Ht.
    assert (idIs t (Some []) = false) as ->; [|reflexivity].
    apply not_true_iff_false. intros E. apply idIs_true in E.
    inversion E as [E']. apply (Hids t Ht). symmetry. exact E'.
  - intros t Ht. rewrite queueAll_fold. apply JsFacts.fold_setAdd_In. right.
    apply in_map. exact Ht.
Qed.

Lemma dismiss_empty_id_queues_all_witness :
  let r := toastReducer {| toasts := [Fixtures.sampleToast "a" true] |}
             (DISMISS_TOAST (Some [])) [] in
  toasts (fst r) = [Fixtures.sampleToast "a" true] /\ In (lit "a") (snd r).
Proof.
  intros r.
  destruct (dismiss_empty_id_queues_all
              {| toasts := [Fixtures.sampleToast "a" true] |} []) as [Hsame Hq].
  - intros t [<- | []]. discriminate.
  - split; [exact Hsame|]. apply (Hq (Fixtures.sampleToast "a" true)).
    left. reflexivity.
Defined.

(** X7: the life of a toast. With room left in the list and a fresh,
    non-empty id, [toast()] shows the toast open at the head of the list;
    when its component reports that it closed, the toast is marked closed
    and one removal timer is queued for it; when the timer fires the toast
    is gone and the whole store (toasts, queue, listeners) is as it was
    before [toast()]. *)
Theorem toast_close_timeout_round_trip (id : jsstring) (props : ToastProps)
  (store : Store) :
  truthy id = true ->
  (forall t, In t (toasts (memoryState store)) -> t_id t <> id) ->
  ~ In id (toastTimeouts store) ->
  length (toasts (memoryState store)) < TOAST_LIMIT ->
  let created :=
    {| t_id := id; t_title := props_title props;
       t_description := props_description props;
       t_open := Some true; t_onOpenChange := Some (DismissSelf id) |} in
  let s1 := fst (toast id props store) in
  let s2 := fst (openChanged created false s1) in
  let s3 := fst (timeoutFired id s2) in
  toasts (memoryState s1) = created :: toasts (memoryState store)
  /\ toasts (memoryState s2) = closeToast created :: toasts (memoryState store)
  /\ toastTimeouts s2 = toastTimeouts store ++ [id]
  /\ s3 = store.
Proof.
  intros Hid Hfresh Hqueue Hroom created s1 s2 s3.
  destruct store as [[ts] ls queue]. cbn [memoryState toasts toastTimeouts] in *.
  assert (forall t, In t ts -> idIs t (Some id) = false) as Hno.
  { intros t Ht. apply not_true_iff_false. intros E. apply idIs_true in E.
    inversion E as [E']. apply (Hfresh t Ht). symmetry. exact E'. }
  assert (toasts (memoryState s1) = created :: ts) as H1.
  { subst s1. unfold toast, dispatch. cbn [toastReducer fst snd memoryState toasts].
    fold created. apply firstn_all2. unfold TOAST_LIMIT in *. cbn [length]. lia. }
  assert (s1 = {| memoryState := {| toasts := created :: ts |};
                  listeners := ls; toastTimeouts := queue |}) as E1.
  { subst s1. unfold toast, dispatch. cbn [toastReducer fst snd memoryState toasts
      listeners toastTimeouts]. fold created. f_equal. f_equal.
    apply firstn_all2. unfold TOAST_LIMIT in *. cbn [length]. lia. }
  assert (s2 = {| memoryState := {| toasts := closeToast created :: ts |};
                  listeners := ls; toastTimeouts := queue ++ [id] |}) as E2.
  { subst s2. rewrite E1. unfold openChanged, handleDismiss, dispatch.
    cbn [t_onOpenChange created negb toastReducer fst snd memoryState toasts
         listeners toastTimeouts]. rewrite Hid.
    f_equal.
    - f_equal. cbn [map]. f_equal.
      + unfold idIs. cbn [created t_id]. rewrite JsFacts.eqb_refl. reflexivity.
      + rewrite <- (map_id ts) at 2. apply map_ext_in. intros t Ht.
        rewrite (Hno t Ht). reflexivity.
    - unfold addToRemoveQueue.
      destruct (existsb (Js.eqb id) queue) eqn:E; [|reflexivity].
      apply JsFacts.existsb_eqb_In in E. contradiction. }
  split; [exact H1|]. split; [rewrite E2; reflexivity|].
  split; [rewrite E2; reflexivity|].
  subst s3. rewrite E2. unfold timeoutFired, dispatch.
  cbn [toastReducer fst snd memoryState toasts listeners toastTimeouts].
  f_equal.
  - f_equal. cbn [filter]. unfold idIs at 1. cbn [closeToast created t_id].
    rewrite JsFacts.eqb_refl. cbn [negb]. apply filter_all. intros t Ht.
    rewrite (Hno t Ht). reflexivity.
  - rewrite filter_app. cbn [filter]. rewrite JsFacts.eqb_refl. cbn [negb].
    rewrite app_nil_r. apply filter_all. intros key Hkey.
    apply negb_true_iff, not_true_iff_false. intros E.
    apply JsFacts.eqb_eq in E. subst key. contradiction.
Qed.

Lemma toast_close_timeout_round_trip_witness :
  let store := {| memoryState := {| toasts := [Fixtures.sampleToast "a" true] |};
                  listeners := [1; 2]; toastTimeouts := [] |} in
  let props := {| props_title := Some (lit "Queued"); props_description := None;
                  props_open := None; props_onOpenChange := None |} in
  fst (timeoutFired (lit "b")
         (fst (handleDismiss (lit "b") (fst (toast (lit "b") props store)))))
  = store.
Proof.
  intros store props.
  refine (proj2 (proj2 (proj2
            (@toast_close_timeout_round_trip (lit "b") props store
               eq_refl _ _ _)))).
  - intros t [<- | []]. discriminate.
  - intros [].
  - unfold TOAST_LIMIT. simpl. lia.
Defined.

(** X8: [dispatch] calls every registered listener once, in registration
    order, each with the state the reducer has just produced, which is also
    the new [memoryState]; it does not change who is registered. *)
Theorem dispatch_notifies_every_listener (action : ActionType) (store : Store) :
  let r := dispatch action store in
  map n_listener (snd r) = listeners store
  /\ (forall n, In n (snd r) -> n_state n = memoryState (fst r))
  /\ listeners (fst r) = listeners store
  /\ memoryState (fst r)
     = fst (toastReducer (memoryState store) action (toastTimeouts store))
  /\ toastTimeouts (fst r)
     = snd (toastReducer (memoryState store) action (toastTimeouts store)).
Proof.
  intros r. subst r. unfold dispatch.
  destruct (toastReducer (memoryState store) action (toastTimeouts store))
    as [state timeouts].
  cbn [fst snd memoryState listeners toastTimeouts].
  split; [|split; [|repeat split]].
  - rewrite map_map. apply map_id.
  - intros n Hn. apply in_map_iff in Hn. destruct Hn as [l [<- _]]. reflexivity.
Qed.

Lemma removeFirst_fresh (l : nat) (ls : list nat) :
  ~ In l ls -> removeFirst l ls = ls /\ removeFirst l (ls ++ [l]) = ls.
Proof.
  induction ls as [|a ls IH]; intros H; simpl.
  - rewrite Nat.eqb_refl. split; reflexivity.
  - destruct (Nat.eqb_spec a l) as [E | E].
    + exfalso. apply H. left. exact E.
    + destruct IH as [IH1 IH2]; [intros Hin; apply H; right; exact Hin|].
      rewrite IH1, IH2. split; reflexivity.
Qed.

(** X9: mounting [useToast] and unmounting it leaves the listeners as they
    were; while mounted the component's listener receives each dispatched
    state exactly once, after unmounting none; unmounting a listener that is
    not registered changes nothing. *)
Theorem subscribe_unsubscribe_restores (listener : nat) (action : ActionType)
  (store : Store) :
  ~ In listener (listeners store) ->
  unsubscribe listener (subscribe listener store) = store
  /\ unsubscribe listener store = store
  /\ length (filter (fun n => Nat.eqb (n_listener n) listener)
                    (snd (dispatch action (subscribe listener store)))) = 1
  /\ filter (fun n => Nat.eqb (n_listener n) listener)
            (snd (dispatch action (unsubscribe listener (subscribe listener store))))
     = [].
Proof.
  intros H. destruct (removeFirst_fresh listener (listeners store) H) as [R1 R2].
  assert (unsubscribe listener (subscribe listener store) = store) as Hback.
  { destruct store as [state ls queue]. unfold unsubscribe, subscribe.
    cbn [memoryState listeners toastTimeouts] in *. rewrite R2. reflexivity. }
  split; [exact Hback|]. split.
  { destruct store as [state ls queue]. unfold unsubscribe.
    cbn [memoryState listeners toastTimeouts] in *. rewrite R1. reflexivity. }
  assert (forall state (ls : list nat), ~ In listener ls ->
            filter (fun n => Nat.eqb (n_listener n) listener)
                   (map (fun l => {| n_listener := l; n_state := state |}) ls)
            = []) as Hnone.
  { intros state ls Hls. induction ls as [|a ls IH]; [reflexivity|].
    cbn [map filter n_listener].
    destruct (Nat.eqb_spec a listener) as [E | E].
    - exfalso. apply Hls. left. exact E.
    - apply IH. intros Hin. apply Hls. right. exact Hin. }
  split.
  - unfold dispatch, subscribe. cbn [memoryState listeners toastTimeouts].
    destruct (toastReducer (memoryState store) action (toastTimeouts store))
      as [state timeouts]. cbn [snd].
    rewrite map_app, filter_app, (Hnone state _ H). cbn [map filter n_listener].
    rewrite Nat.eqb_refl. reflexivity.
  - rewrite Hback. unfold dispatch.
    destruct (toastReducer (memoryState store) action (toastTimeouts store))
      as [state timeouts]. cbn [snd]. apply Hnone. exact H.
Qed.

Lemma subscribe_unsubscribe_restores_witness :
  let store := {| memoryState := {| toasts := [] |}; listeners := [1; 2];
                  toastTimeouts := [] |} in
  unsubscribe 3 (subscribe 3 store) = store.
Proof.
  intros store.
  refine (proj1 (@subscribe_unsubscribe_restores 3 (REMOVE_TOAST None) store _)).
  simpl. intros [H | [H | []]]; discriminate H.
Defined.

(** X10: [update] of a toast's handle rewrites the toasts that carry the
    handle's id, under that same id whatever id the given properties name:
    each property the argument has replaces the toast's, and each property
    it does not have (title, description, open, onOpenChange) is kept from
    the toast. Every other toast, the order of the list and the removal
    queue are left as they are. *)
Theorem handle_update_targets_own_toast (id : jsstring) (props : PartialToast)
  (store : Store) :
  let s := fst (handleUpdate id props store) in
  map t_id (toasts (memoryState s)) = map t_id (toasts (memoryState store))
  /\ (forall t, In t (toasts (memoryState store)) -> t_id t <> id ->
        In t (toasts (memoryState s)))
  /\ (forall t, In t (toasts (memoryState store)) -> t_id t = id ->
        In (updated id props t) (toasts (memoryState s)))
  /\ (forall t, In t (toasts (memoryState s)) -> t_id t = id ->
        exists t0, In t0 (toasts (memoryState store)) /\ t_id t0 = id
                   /\ t = {| t_id := id;
                             t_title := match p_title props with
                                        | Some title => title
                                        | None => t_title t0
                                        end;
                             t_description := match p_description props with
                                              | Some description => description
                                              | None => t_description t0
                                              end;
                             t_open := match p_open props with
                                       | Some open => open
                                       | None => t_open t0
                                       end;
                             t_onOpenChange := match p_onOpenChange props with
                                               | Some onOpenChange => onOpenChange
                                               | None => t_onOpenChange t0
                                               end |})
  /\ toastTimeouts s = toastTimeouts store.
Proof.
  intros s. subst s. unfold handleUpdate, dispatch.
  cbn [toastReducer fst snd memoryState toasts toastTimeouts p_id].
  split; [|split; [|split; [|split]]].
  - apply (update_ids
             {| p_id := Some id; p_title := p_title props;
                p_description := p_description props;
                p_open := p_open props;
                p_onOpenChange := p_onOpenChange props |}).
  - intros t Ht Hne. apply in_map_iff. exists t. split; [|exact Ht].
    assert (idIs t (Some id) = false) as ->; [|reflexivity].
    apply not_true_iff_false. intros E. apply idIs_true in E.
    inversion E as [E']. apply Hne. symmetry. exact E'.
  - intros t Ht Hid. apply in_map_iff. exists t. split; [|exact Ht].
    assert (idIs t (Some id) = true) as ->.
    { apply idIs_true. rewrite Hid. reflexivity. }
    reflexivity.
  - intros t Ht Hid. apply in_map_iff in Ht. destruct Ht as [t0 [Ht0 Hin]].
    destruct (idIs t0 (Some id)) eqn:E.
    + exists t0. split; [exact Hin|]. split.
      * apply idIs_true in E. inversion E. reflexivity.
      * subst t. reflexivity.
    + subst t. exfalso. apply not_true_iff_false in E. apply E.
      apply idIs_true. rewrite Hid. reflexivity.
  - reflexivity.
Qed.

Lemma handle_update_targets_own_toast_witness :
  let store := {| memoryState := {| toasts := [Fixtures.sampleToast "b" true;
                                               Fixtures.sampleToast "a" true] |};
                  listeners := []; toastTimeouts := [] |} in
  let props := {| p_id := Some (lit "z"); p_title := None;
                  p_description := Some (Some (lit "done"));
                  p_open := None; p_onOpenChange := None |} in
  In (Fixtures.sampleToast "b" true)
     (toasts (memoryState (fst (handleUpdate (lit "a") props store))))
  /\ In {| t_id := lit "a";
           t_title := t_title (Fixtures.sampleToast "a" true);
           t_description := Some (lit "done");
           t_open := t_open (Fixtures.sampleToast "a" true);
           t_onOpenChange := t_onOpenChange (Fixtures.sampleToast "a" true) |}
        (toasts (memoryState (fst (handleUpdate (lit "a") props store)))).
Proof.
  intros store props. split.
  - apply (proj1 (proj2 (handle_update_targets_own_toast (lit "a") props store))).
    + left. reflexivity.
    + discriminate.
  - apply (proj1 (proj2 (proj2 (handle_update_targets_own_toast
                                  (lit "a") props store)))
             (Fixtures.sampleToast "a" true)).
    + right. left. reflexivity.
    + reflexivity.
Defined.

End ToastFacts.

(** ** Handlers of the research view *)

Module HandlerFacts.

Import Orchestrator.
Import OrchestratorFacts.

(** X11: a question that is empty or made of white space only (tabs, line
    breaks and no-break spaces included) is rejected before anything else
    happens: the state is exactly as before, and the only effects are
    [preventDefault] and one error toast with the validation message; this
    holds online and offline, confidential or not. *)
Theorem blank_question_only_shows_validation_toast (env : Env) (s : ViewState) :
  forallb isWhiteSpace (question s) = true ->
  onSubmit env s
  = (tt, s, [PreventDefault; ToastError (validationMessage env) None]).
Proof.
  intros H. apply JsFacts.blank_iff in H.
  unfold onSubmit. run_handler. rewrite H. reflexivity.
Qed.

Lemma blank_question_only_shows_validation_toast_witness :
  let s := {| question := [32%N; 160%N; 10%N]; context := lit "c";
              ohadaMode := true; euOverlay := false; confidentialMode := false;
              agentCode := lit "a"; latestRun := None; planOpen := false;
              online := false; outboxItems := [] |} in
  onSubmit Fixtures.acceptingEnv s
  = (tt, s, [PreventDefault;
             ToastError (validationMessage Fixtures.acceptingEnv) None]).
Proof.
  intros s.
  apply (@blank_question_only_shows_validation_toast Fixtures.acceptingEnv s).
  reflexivity.
Defined.

(** X12: an online submission the agent answers calls the agent exactly
    once, with the question, context, confidential flag and agent code of
    the form and the demo organisation and user; it stores the answer as the
    latest run, opens the plan drawer, leaves the outbox and the form as
    they were, and shows one success toast and raises the
    [avocat-run-success] event, with no error or information toast. *)
Theorem answered_submission_effects (env : Env) (s : ViewState)
  (data : AgentRunResponse) :
  forallb isWhiteSpace (question s) = false ->
  online s = true ->
  submitResearchQuestion env (submittedRequest env s) = Resolved data ->
  let r := onSubmit env s in
  stateOf r = stateOf (toggle true (stateOf (setLatestRun data s)))
  /\ outboxItems (stateOf r) = outboxItems s
  /\ planOpen (stateOf r) = true
  /\ filter (fun e => negb (isTelemetry e)) (effectsOf r)
     = [ PreventDefault;
         AgentCall {| rq_question := question s;
                      rq_context := context s;
                      rq_orgId := DEMO_ORG_ID env;
                      rq_userId := DEMO_USER_ID env;
                      rq_confidentialMode := confidentialMode s;
                      rq_agentCode := agentCode s;
                      rq_agentSettings := None |};
         ToastSuccess (successMessage env) None;
         WindowEvent "avocat-run-success" ].
Proof.
  intros Hq Ho Hok. apply nonblank_truthy in Hq.
  unfold onSubmit. run_handler. rewrite Hq, Ho. simpl.
  rewrite Hok.
  destruct (confidentialMode s) eqn:Hc; simpl; unfold submittedRequest;
    rewrite ?Ho, ?Hc; repeat split; reflexivity.
Qed.

Lemma answered_submission_effects_witness :
  planOpen (stateOf (onSubmit Fixtures.acceptingEnv
                       (Fixtures.exampleState true false
                          [Fixtures.exampleItem 1 false]))) = true
  /\ outboxItems (stateOf (onSubmit Fixtures.acceptingEnv
                             (Fixtures.exampleState true false
                                [Fixtures.exampleItem 1 false])))
     = [Fixtures.exampleItem 1 false].
Proof.
  destruct (@answered_submission_effects Fixtures.acceptingEnv
              (Fixtures.exampleState true false [Fixtures.exampleItem 1 false])
              Fixtures.exampleRun eq_refl eq_refl eq_refl)
    as [_ [Hout [Hopen _]]].
  split; [exact Hopen | exact Hout].
Defined.

(** X13: the telemetry of a submission that is not confidential, by path: a
    blank question emits nothing; an offline submission emits
    [outbox_enqueued]; an answered one [run_submitted] then [run_completed];
    a failed one [run_submitted], [run_failed] and [outbox_enqueued]. *)
Theorem submission_telemetry_by_path (env : Env) (s : ViewState) :
  confidentialMode s = false ->
  telemetryNames (effectsOf (onSubmit env s))
  = if forallb isWhiteSpace (question s) then []
    else if negb (online s) then ["outbox_enqueued"]
    else match submitResearchQuestion env (submittedRequest env s) with
         | Resolved _ => ["run_submitted"; "run_completed"]
         | Rejected _ => ["run_submitted"; "run_failed"; "outbox_enqueued"]
         end.
Proof.
  intros Hc. unfold onSubmit. run_handler. rewrite Hc.
  destruct (forallb isWhiteSpace (question s)) eqn:Hb.
  - apply JsFacts.blank_iff in Hb. rewrite Hb. reflexivity.
  - apply nonblank_truthy in Hb. rewrite Hb. simpl.
    destruct (online s); simpl; [|reflexivity].
    destruct (submitResearchQuestion env (submittedRequest env s)); reflexivity.
Qed.

Lemma submission_telemetry_by_path_witness :
  telemetryNames
    (effectsOf (onSubmit (Fixtures.rejectingEnv NotAnError)
                  (Fixtures.exampleState true false [])))
  = ["run_submitted"; "run_failed"; "outbox_enqueued"].
Proof.
  apply (@submission_telemetry_by_path (Fixtures.rejectingEnv NotAnError)
           (Fixtures.exampleState true false []) eq_refl).
Defined.

(** X14: an outbox item that is attempted (every item on a manual retry, a
    non-confidential one on the automatic flush) calls the agent once and
    shows exactly one toast, a success or an error toast, always under the
    toast id [outbox-<id>] of the item. The callback reads the drawer flag
    and the confidential mode of the render it was created in, which need
    not be the current state: it emits one telemetry event, [outbox_retry]
    or [outbox_auto_flush] by source, when neither the item nor that render
    is confidential, and none otherwise; after an item is sent the drawer
    is open when the retry was manual, when that render had the drawer
    closed, or when the drawer is open already, and else it stays closed;
    an item that is not sent leaves the drawer as it is. *)
Theorem outbox_attempt_reports_once (env : Env) (snap s : ViewState)
  (item : OutboxItem) (source : Source) :
  item_confidentialMode item && isAuto source = false ->
  let r := processOutboxItem env snap item source s in
  filter isAgentCall (effectsOf r) = [AgentCall (itemRequest env item)]
  /\ filter isToast (effectsOf r)
     = [ match submitResearchQuestion env (itemRequest env item) with
         | Resolved _ =>
             ToastSuccess
               (match source with
                | Manual => successMessage env
                | Auto => match om_sent (outboxMessages env) with
                          | Some sent => sent
                          | None => successMessage env
                          end
                end)
               (Some (lit "outbox-" ++ ofNat (item_id item)))
         | Rejected error =>
             ToastError (failureMessage error)
                        (Some (lit "outbox-" ++ ofNat (item_id item)))
         end ]
  /\ telemetryNames (effectsOf r)
     = (if negb (confidentialMode snap) && negb (item_confidentialMode item)
        then [outboxTelemetryName source] else [])
  /\ (resultOf r = true ->
      planOpen (stateOf r)
      = (isManual source || negb (planOpen snap) || planOpen s))
  /\ (resultOf r = false -> planOpen (stateOf r) = planOpen s).
Proof.
  intros H r. subst r. unfold processOutboxItem. run_handler. rewrite H.
  destruct (submitResearchQuestion env (itemRequest env item)); simpl;
    destruct source; simpl;
    destruct (planOpen snap) eqn:Hsnap; simpl;
    destruct (planOpen s) eqn:Hp; simpl;
    destruct (negb (confidentialMode snap) && negb (item_confidentialMode item));
    simpl; repeat split; try reflexivity; try discriminate; auto.
Qed.

(** At a callback of an earlier render, in which the drawer was open and
    the view confidential, while the drawer is closed now: the item is sent
    by the automatic flush, the drawer stays closed and no telemetry is
    emitted although the view is no longer confidential. *)
Lemma outbox_attempt_reports_once_witness :
  let item := Fixtures.exampleItem 12 false in
  let snap := Fixtures.openedState true true [item] in
  let s := Fixtures.exampleState true false [item] in
  let r := processOutboxItem Fixtures.acceptingEnv snap item Auto s in
  resultOf r = true
  /\ planOpen (stateOf r) = false
  /\ telemetryNames (effectsOf r) = []
  /\ filter isToast (effectsOf r)
     = [ToastSuccess (lit "Queued request sent.") (Some (lit "outbox-12"))].
Proof.
  intros item snap s r.
  pose proof (@outbox_attempt_reports_once Fixtures.acceptingEnv snap s item
                Auto eq_refl) as [_ [Htoast [Htelemetry [Hopen _]]]].
  split; [reflexivity|]. split; [exact (Hopen eq_refl)|].
  split; [exact Htelemetry | exact Htoast].
Defined.

(** X15: while offline nothing is sent: the retry button only shows the
    "still offline" toast and the automatic flush does nothing; neither
    changes the state, so the queue is kept whole. *)
Theorem offline_nothing_is_sent (env : Env) (s : ViewState) (item : OutboxItem) :
  online s = false ->
  handleOutboxRetry env item s
  = (tt, s, [ToastInfo (om_stillOffline (outboxMessages env))])
  /\ autoFlush env s = (tt, s, []).
Proof.
  intros Ho. unfold handleOutboxRetry, autoFlush. run_handler. rewrite Ho.
  split; reflexivity.
Qed.

Lemma offline_nothing_is_sent_witness :
  autoFlush Fixtures.acceptingEnv
    (Fixtures.exampleState false false [Fixtures.exampleItem 1 false])
  = (tt, Fixtures.exampleState false false [Fixtures.exampleItem 1 false], []).
Proof.
  apply (proj2 (@offline_nothing_is_sent Fixtures.acceptingEnv
                  (Fixtures.exampleState false false [Fixtures.exampleItem 1 false])
                  (Fixtures.exampleItem 1 false) eq_refl)).
Defined.

(** X16: a manual retry made online that the agent rejects leaves the whole
    state as it was (the item stays queued and [remove] is not called) and
    shows the failure as the item's error toast; one that the agent answers
    stores the answer as the latest run and opens the plan drawer, whether
    or not it was open. *)
Theorem manual_retry_outcomes (env : Env) (s : ViewState) (item : OutboxItem) :
  online s = true ->
  (forall error,
     submitResearchQuestion env (itemRequest env item) = Rejected error ->
     stateOf (handleOutboxRetry env item s) = s
     /\ filter isToast (effectsOf (handleOutboxRetry env item s))
        = [ToastError (failureMessage error)
                      (Some (lit "outbox-" ++ ofNat (item_id item)))])
  /\ (forall data,
        submitResearchQuestion env (itemRequest env item) = Resolved data ->
        latestRun (stateOf (handleOutboxRetry env item s)) = Some data
        /\ planOpen (stateOf (handleOutboxRetry env item s)) = true
        /\ filter isToast (effectsOf (handleOutboxRetry env item s))
           = [ToastSuccess (successMessage env)
                           (Some (lit "outbox-" ++ ofNat (item_id item)))]).
Proof.
  intros Ho. split.
  - intros error Hfail. unfold handleOutboxRetry, processOutboxItem.
    run_handler. rewrite Ho. simpl. rewrite andb_false_r, Hfail. simpl.
    destruct (negb (confidentialMode s) && negb (item_confidentialMode item));
      split; reflexivity.
  - intros data Hok. unfold handleOutboxRetry, processOutboxItem.
    run_handler. rewrite Ho. simpl. rewrite andb_false_r, Hok. simpl.
    destruct (negb (confidentialMode s) && negb (item_confidentialMode item));
      repeat split; reflexivity.
Qed.

Lemma manual_retry_outcomes_witness :
  let item := Fixtures.exampleItem 3 false in
  let s := Fixtures.exampleState true false [item] in
  stateOf (handleOutboxRetry (Fixtures.rejectingEnv (ErrorInstance (lit "503")))
             item s) = s.
Proof.
  intros item s.
  apply (proj1 (@manual_retry_outcomes
                  (Fixtures.rejectingEnv (ErrorInstance (lit "503"))) s item
                  eq_refl) (ErrorInstance (lit "503")) eq_refl).
Defined.

Lemma forallb_app_false_r (f : N -> bool) (a b : jsstring) :
  forallb f b = false -> forallb f (a ++ b) = false.
Proof. intros H. rewrite forallb_app, H. apply andb_false_r. Qed.

Lemma dictated_question_nonblank (text q : jsstring) :
  forallb isWhiteSpace text = false ->
  forallb isWhiteSpace
    (match q with
     | [] => text
     | _ :: _ => trim q ++ [32%N] ++ text
     end) = false.
Proof.
  intros H. destruct q as [|c q]; [exact H|].
  apply forallb_app_false_r.
  apply (@forallb_app_false_r isWhiteSpace [32%N] text H).
Qed.

(** X17: dictation. The dictated text becomes the question when the field
    is empty, and is otherwise added after the trimmed question and one
    space; the context, the outbox and the latest run are untouched; and
    when the dictated text is not blank the question passes the validation
    of [onSubmit]: submitting next raises an error toast only if the agent
    is called and rejects. *)
Theorem dictation_extends_question (text : jsstring) (s : ViewState) :
  let s' := stateOf (handleVoiceTranscript text s) in
  question s'
  = (match question s with
     | [] => text
     | _ :: _ => trim (question s) ++ [32%N] ++ text
     end)
  /\ context s' = context s
  /\ outboxItems s' = outboxItems s
  /\ latestRun s' = latestRun s
  /\ (forallb isWhiteSpace text = false ->
      forallb isWhiteSpace (question s') = false
      /\ forall env,
           existsb isToastError (effectsOf (onSubmit env s'))
           = match online s with
             | true => match submitResearchQuestion env (submittedRequest env s') with
                       | Resolved _ => false
                       | Rejected _ => true
                       end
             | false => false
             end).
Proof.
  intros s'.
  assert (question s'
          = match question s with
            | [] => text
            | _ :: _ => trim (question s) ++ [32%N] ++ text
            end) as Hquestion.
  { subst s'. unfold handleVoiceTranscript. run_handler.
    destruct (confidentialMode s); simpl; destruct (question s); reflexivity. }
  assert (context s' = context s /\ outboxItems s' = outboxItems s
          /\ latestRun s' = latestRun s /\ online s' = online s) as Hframe.
  { subst s'. unfold handleVoiceTranscript. run_handler.
    destruct (confidentialMode s); simpl; repeat split; reflexivity. }
  destruct Hframe as [Hcontext [Houtbox [Hlatest Honline]]].
  split; [exact Hquestion|]. split; [exact Hcontext|].
  split; [exact Houtbox|]. split; [exact Hlatest|].
  intros Htext.
  assert (forallb isWhiteSpace (question s') = false) as Hnonblank.
  { rewrite Hquestion. apply dictated_question_nonblank. exact Htext. }
  split; [exact Hnonblank|].
  intros env. apply nonblank_truthy in Hnonblank.
  rewrite <- Honline. clearbody s'.
  unfold onSubmit. run_handler. rewrite Hnonblank. simpl.
  destruct (online s'); simpl.
  - destruct (submitResearchQuestion env (submittedRequest env s'));
      destruct (confidentialMode s'); reflexivity.
  - destruct (confidentialMode s'); reflexivity.
Qed.

Lemma dictation_extends_question_witness :
  let s := {| question := [32%N]; context := []; ohadaMode := true;
              euOverlay := true; confidentialMode := false;
              agentCode := lit "a"; latestRun := None; planOpen := false;
              online := false; outboxItems := [] |} in
  forallb isWhiteSpace
    (question (stateOf (handleVoiceTranscript (lit "bail commercial") s))) = false.
Proof.
  intros s.
  apply (proj2 (proj2 (proj2 (proj2
           (dictation_extends_question (lit "bail commercial") s))))).
  reflexivity.
Defined.

(** X18: text read by the camera is appended, never substituted: it becomes
    the context when the field is empty and is otherwise added on a new line
    after the existing context, which stays as the beginning of the field;
    the question, the outbox and the latest run are untouched. *)
Theorem ocr_text_is_appended (text : jsstring) (s : ViewState) :
  let s' := stateOf (handleOcrText text s) in
  context s'
  = (match context s with
     | [] => text
     | _ :: _ => context s ++ [10%N] ++ text
     end)
  /\ (exists added, context s' = context s ++ added)
  /\ question s' = question s
  /\ outboxItems s' = outboxItems s
  /\ latestRun s' = latestRun s.
Proof.
  intros s'. subst s'. unfold handleOcrText. run_handler.
  destruct (confidentialMode s); simpl;
    (split; [destruct (context s); reflexivity|]);
    (split; [destruct (context s) as [|c q]; simpl;
               [exists text | exists ([10%N] ++ text)]; reflexivity|]);
    repeat split; reflexivity.
Qed.

End HandlerFacts.

(** ** More of the view-model *)

Module TrustViewFacts.

Import TrustView.

Example citationHosts_example :
  citationHosts Fixtures.exampleHostname
    (Some (Fixtures.runWithPayload []
             [ Fixtures.exampleCitation "https://eur-lex.europa.eu/a" None;
               Fixtures.exampleCitation "https://www.legifrance.gouv.fr/b" None;
               Fixtures.exampleCitation "not a url" None;
               Fixtures.exampleCitation "https://www.legifrance.gouv.fr/c" None;
               Fixtures.exampleCitation "urn:lex:fr:loi" None ]
             []))
  = [ {| host := lit "www.legifrance.gouv.fr"; count := 2 |};
      {| host := lit "eur-lex.europa.eu"; count := 1 |};
      {| host := lit "not a url"; count := 1 |};
      {| host := lit "urn:lex:fr:loi"; count := 1 |} ].
Proof. reflexivity. Qed.

Example citationBadges_examples :
  citationBadges Fixtures.exampleToLowerCase None = []
  /\ citationBadges Fixtures.exampleToLowerCase (Some []) = []
  /\ citationBadges Fixtures.exampleToLowerCase (Some (lit "Version en vigueur"))
     = [OFFICIEL]
  /\ citationBadges Fixtures.exampleToLowerCase
       (Some (lit "Jurisprudence - TRADUCTION non officielle"))
     = [OFFICIEL; TRADUCTION; JURISPRUDENCE].
Proof. repeat split; reflexivity. Qed.

Example versionPoints_example :
  versionPoints Fixtures.exampleFormatDate Orchestrator.Fr
    (Some (Fixtures.runWithPayload
             [ Fixtures.exampleRule "Art. 2224" "2008-06-19" true;
               Fixtures.exampleRule "Art. 2225" "bientot" true;
               Fixtures.exampleRule "Art. 2226" "2008-06-19" false;
               Fixtures.exampleRule "Art. 2227" "2008-06-19" true ]
             [] []))
  = [ {| vp_label := lit "Art. 2224"; vp_date := lit "19 juin 2008";
         vp_isCurrent := true |};
      {| vp_label := lit "Art. 2225"; vp_date := lit "bientot";
         vp_isCurrent := false |};
      {| vp_label := lit "Art. 2226"; vp_date := lit "19 juin 2008";
         vp_isCurrent := false |} ].
Proof. reflexivity. Qed.

(** *** Notices *)

(** X19: the notice messages shown are the messages of the run's notices,
    each once (so the React keys [key={message}] do not repeat); without a
    run there is none. *)
Theorem notice_messages_are_distinct (latestRun : option AgentRunResponse) :
  NoDup (noticeMessages latestRun)
  /\ (forall message,
        In message (noticeMessages latestRun) <->
        exists run notice,
          latestRun = Some run /\ In notice (run_notices run)
          /\ notice_message notice = message)
  /\ noticeMessages None = [].
Proof.
  unfold noticeMessages. split; [apply JsFacts.arrayFromSet_NoDup|].
  split; [|reflexivity].
  intros message. rewrite JsFacts.arrayFromSet_In, in_map_iff.
  unfold runNotices. destruct latestRun as [run|].
  - split.
    + intros [notice [Hm Hin]]. exists run, notice. auto.
    + intros [run' [notice [E [Hin Hm]]]]. inversion E; subst run'.
      exists notice. auto.
  - split; [intros [notice [_ []]] | intros [run [notice [E _]]]; discriminate E].
Qed.

(** *** Citation hosts *)

Lemma eqb_sym (a b : jsstring) : Js.eqb a b = Js.eqb b a.
Proof.
  destruct (Js.eqb a b) eqn:E1, (Js.eqb b a) eqn:E2; try reflexivity.
  - apply JsFacts.eqb_eq in E1. subst. rewrite JsFacts.eqb_refl in E2. discriminate.
  - apply JsFacts.eqb_eq in E2. subst. rewrite JsFacts.eqb_refl in E1. discriminate.
Qed.

Lemma getCount_bump (key k : jsstring) (counts : list (jsstring * nat)) :
  getCount k (bump key counts)
  = if Js.eqb key k then S (getCount k counts) else getCount k counts.
Proof.
  induction counts as [|[k0 n] rest IH]; simpl.
  - destruct (Js.eqb key k); reflexivity.
  - destruct (Js.eqb k0 key) eqn:E0; simpl.
    + apply JsFacts.eqb_eq in E0. subst k0.
      destruct (Js.eqb key k); [lia | reflexivity].
    + destruct (Js.eqb k0 k) eqn:E1.
      * apply JsFacts.eqb_eq in E1. subst k0. rewrite eqb_sym, E0. reflexivity.
      * exact IH.
Qed.

Lemma bump_keys (key k : jsstring) (counts : list (jsstring * nat)) :
  In k (map fst (bump key counts)) <-> k = key \/ In k (map fst counts).
Proof.
  induction counts as [|[k0 n] rest IH]; simpl.
  - intuition.
  - destruct (Js.eqb k0 key) eqn:E0; simpl.
    + apply JsFacts.eqb_eq in E0. subst k0. intuition.
    + rewrite IH. intuition.
Qed.

Lemma bump_NoDup (key : jsstring) (counts : list (jsstring * nat)) :
  NoDup (map fst counts) -> NoDup (map fst (bump key counts)).
Proof.
  induction counts as [|[k0 n] rest IH]; simpl; intros H.
  - constructor; [intros [] | constructor].
  - inversion H as [|? ? Hnot Hrest]; subst.
    destruct (Js.eqb k0 key) eqn:E0; simpl.
    + constructor; assumption.
    + constructor; [|apply IH; exact Hrest].
      rewrite bump_keys. intros [E | Hin]; [|contradiction].
      subst k0. rewrite JsFacts.eqb_refl in E0. discriminate.
Qed.

Lemma bump_total (key : jsstring) (counts : list (jsstring * nat)) :
  list_sum (map snd (bump key counts)) = S (list_sum (map snd counts)).
Proof.
  induction counts as [|[k0 n] rest IH]; simpl; [reflexivity|].
  destruct (Js.eqb k0 key); simpl; [lia | rewrite IH; lia].
Qed.

Section HostCounts.

Variable url_hostname : jsstring -> option jsstring.

Lemma fold_getCount (cs : list Citation) (counts : list (jsstring * nat))
  (k : jsstring) :
  getCount k (fold_left (countStep url_hostname) cs counts)
  = getCount k counts
    + length (filter (fun c => Js.eqb (hostKey url_hostname (cit_url c)) k) cs).
Proof.
  revert counts; induction cs as [|c cs IH]; intros counts; simpl; [lia|].
  rewrite IH. unfold countStep. rewrite getCount_bump.
  destruct (Js.eqb (hostKey url_hostname (cit_url c)) k); simpl; lia.
Qed.

Lemma fold_keys (cs : list Citation) (counts : list (jsstring * nat))
  (k : jsstring) :
  In k (map fst (fold_left (countStep url_hostname) cs counts))
  <-> In k (map fst counts)
      \/ exists c, In c cs /\ hostKey url_hostname (cit_url c) = k.
Proof.
  revert counts; induction cs as [|c cs IH]; intros counts; simpl.
  - split; [auto | intros [H | [c [[] _]]]; exact H].
  - rewrite IH. unfold countStep. rewrite bump_keys. split.
    + intros [[E | H] | [c' [Hin E]]].
      * right. exists c. split; [left; reflexivity | symmetry; exact E].
      * left. exact H.
      * right. exists c'. split; [right; exact Hin | exact E].
    + intros [H | [c' [[E | Hin] Hk]]].
      * left. right. exact H.
      * subst c'. left. left. symmetry. exact Hk.
      * right. exists c'. split; assumption.
Qed.

Lemma fold_NoDup (cs : list Citation) (counts : list (jsstring * nat)) :
  NoDup (map fst counts) -> NoDup (map fst (fold_left (countStep url_hostname) cs counts)).
Proof.
  revert counts; induction cs as [|c cs IH]; intros counts H; simpl;
    [exact H | apply IH, bump_NoDup, H].
Qed.

Lemma fold_total (cs : list Citation) (counts : list (jsstring * nat)) :
  list_sum (map snd (fold_left (countStep url_hostname) cs counts))
  = list_sum (map snd counts) + length cs.
Proof.
  revert counts; induction cs as [|c cs IH]; intros counts; simpl; [lia|].
  rewrite IH. unfold countStep. rewrite bump_total. lia.
Qed.

End HostCounts.

Lemma getCount_In (k : jsstring) (n : nat) (counts : list (jsstring * nat)) :
  NoDup (map fst counts) -> In (k, n) counts -> getCount k counts = n.
Proof.
  induction counts as [|[k0 n0] rest IH]; simpl; intros Hnd Hin; [contradiction|].
  inversion Hnd as [|? ? Hnot Hrest]; subst.
  destruct Hin as [E | Hin].
  - inversion E; subst. rewrite JsFacts.eqb_refl. reflexivity.
  - destruct (Js.eqb k0 k) eqn:E0.
    + apply JsFacts.eqb_eq in E0. subst k0. exfalso. apply Hnot.
      apply (in_map fst) in Hin. exact Hin.
    + apply IH; assumption.
Qed.

Lemma insertByCount_perm (x : HostCount) (l : list HostCount) :
  Permutation (insertByCount x l) (x :: l).
Proof.
  induction l as [|y l IH]; simpl; [apply Permutation_refl|].
  destruct (Nat.ltb (count x) (count y)).
  - apply perm_trans with (y :: x :: l); [apply perm_skip, IH | apply perm_swap].
  - apply Permutation_refl.
Qed.

Lemma sortByCountDesc_perm (l : list HostCount) :
  Permutation (sortByCountDesc l) l.
Proof.
  induction l as [|x l IH]; simpl; [apply perm_nil|].
  apply perm_trans with (x :: sortByCountDesc l);
    [apply insertByCount_perm | apply perm_skip, IH].
Qed.

Lemma insertByCount_sorted (x : HostCount) (l : list HostCount) :
  Sorted byCountDesc l -> Sorted byCountDesc (insertByCount x l).
Proof.
  induction l as [|y l IH]; simpl; intros H.
  - repeat constructor.
  - inversion H as [|? ? Hl Hhd]; subst.
    destruct (Nat.ltb_spec (count x) (count y)) as [Hlt | Hge].
    + constructor; [apply IH, Hl|].
      destruct l as [|z l]; simpl.
      * constructor. unfold byCountDesc. lia.
      * destruct (Nat.ltb (count x) (count z)).
        -- constructor. inversion Hhd; assumption.
        -- constructor. unfold byCountDesc. lia.
    + constructor; [exact H|]. constructor. unfold byCountDesc. lia.
Qed.

Lemma sortByCountDesc_sorted (l : list HostCount) :
  Sorted byCountDesc (sortByCountDesc l).
Proof.
  induction l as [|x l IH]; simpl; [constructor | apply insertByCount_sorted, IH].
Qed.

Lemma totalCount_perm (l l' : list HostCount) :
  Permutation l l' -> totalCount l = totalCount l'.
Proof. induction 1; simpl; lia. Qed.

Lemma totalCount_entries (counts : list (jsstring * nat)) :
  totalCount (map (fun entry => {| host := fst entry; count := snd entry |}) counts)
  = list_sum (map snd counts).
Proof. induction counts as [|[k n] rest IH]; simpl; [reflexivity | rewrite IH; reflexivity]. Qed.

(** X20: the sources summary. Every citation of the payload is counted
    under exactly one host: the entries' counts add up to the number of
    citations, each entry's count is the number of citations whose key (host
    name, or the raw url when the url is malformed or has no host) is that
    entry's host, so no entry counts zero; no host is listed twice; and the
    entries come by decreasing count. *)
Theorem citation_hosts_count_every_citation
  (url_hostname : jsstring -> option jsstring) (run : option AgentRunResponse)
  (p : IracPayload) :
  payload run = Some p ->
  let hosts := citationHosts url_hostname run in
  totalCount hosts = length (citations p)
  /\ NoDup (map host hosts)
  /\ Sorted (fun a b => count b <= count a) hosts
  /\ (forall e, In e hosts ->
        count e
        = length (filter (fun c => Js.eqb (hostKey url_hostname (cit_url c)) (host e))
                         (citations p))
        /\ 1 <= count e)
  /\ (forall h, In h (map host hosts) <->
        exists c, In c (citations p) /\ hostKey url_hostname (cit_url c) = h).
Proof.
  intros Hp hosts. subst hosts. unfold citationHosts. rewrite Hp.
  destruct (citations p) as [|c0 cs0] eqn:Ecs.
  { simpl. repeat split; try constructor; try contradiction.
    intros [c [[] _]]. }
  rewrite <- Ecs. replace (Nat.eqb (length (citations p)) 0) with false
    by (rewrite Ecs; reflexivity).
  set (counts := hostCounts url_hostname (citations p)).
  set (entries := map (fun entry => {| host := fst entry; count := snd entry |}) counts).
  pose proof (sortByCountDesc_perm entries) as Hperm.
  assert (NoDup (map fst counts)) as Hnd
    by (apply fold_NoDup; constructor).
  assert (map host entries = map fst counts) as Hhosts.
  { unfold entries. rewrite map_map. reflexivity. }
  split; [|split; [|split; [|split]]].
  - rewrite (totalCount_perm Hperm). unfold entries.
    rewrite totalCount_entries. unfold counts, hostCounts.
    rewrite fold_total. reflexivity.
  - apply (Permutation_NoDup (l := map host entries)).
    + apply Permutation_map, Permutation_sym, Hperm.
    + rewrite Hhosts. exact Hnd.
  - apply sortByCountDesc_sorted.
  - intros e He. apply (Permutation_in _ Hperm) in He.
    unfold entries in He. apply in_map_iff in He.
    destruct He as [[k n] [<- Hin]]. cbn [host count fst snd].
    pose proof (getCount_In k n counts Hnd Hin) as Hget.
    unfold counts, hostCounts in Hget. rewrite fold_getCount in Hget.
    simpl in Hget. split; [symmetry; exact Hget|].
    assert (In k (map fst counts)) as Hk by (apply (in_map fst) in Hin; exact Hin).
    unfold counts, hostCounts in Hk. apply fold_keys in Hk.
    destruct Hk as [[] | [c [Hc Hkey]]].
    rewrite <- Hget.
    assert (In c (filter (fun c => Js.eqb (hostKey url_hostname (cit_url c)) k)
                         (citations p))) as Hf.
    { apply filter_In. split; [exact Hc | apply JsFacts.eqb_eq; exact Hkey]. }
    destruct (filter _ (citations p)); [contradiction | simpl; lia].
  - intros h. split.
    + intros Hin.
      apply (Permutation_in _ (Permutation_map host Hperm)) in Hin.
      rewrite Hhosts in Hin. unfold counts, hostCounts in Hin.
      apply fold_keys in Hin. destruct Hin as [[] | H]. exact H.
    + intros H.
      apply (Permutation_in _ (Permutation_sym (Permutation_map host Hperm))).
      rewrite Hhosts. unfold counts, hostCounts. apply fold_keys. right. exact H.
Qed.

Lemma citation_hosts_count_every_citation_witness :
  let run := Some (Fixtures.runWithPayload []
                     [ Fixtures.exampleCitation "https://eur-lex.europa.eu/a" None;
                       Fixtures.exampleCitation "not a url" None;
                       Fixtures.exampleCitation "https://eur-lex.europa.eu/b" None ]
                     []) in
  totalCount (citationHosts Fixtures.exampleHostname run) = 3.
Proof.
  intros run.
  refine (proj1 (@citation_hosts_count_every_citation Fixtures.exampleHostname run
                   _ eq_refl)).
Defined.

(** *** Version timeline, badges and translation warnings *)

(** X21: the version timeline shows the first three rules of the payload at
    most, in their order and labelled by their citation; the first point,
    and only the first, is the current one; a point's date is the formatted
    effective date, or the effective date as written when it is empty or is
    not a valid date. *)
Theorem version_points_first_three_rules
  (formatDate : Orchestrator.Locale -> jsstring -> option jsstring)
  (locale : Orchestrator.Locale) (run : option AgentRunResponse) (p : IracPayload) :
  payload run = Some p ->
  let points := versionPoints formatDate locale run in
  length points = Nat.min 3 (length (rules p))
  /\ map vp_label points = map rule_citation (firstn 3 (rules p))
  /\ map vp_isCurrent points = firstn (length (rules p)) [true; false; false]
  /\ (forall i point rule,
        nth_error points i = Some point ->
        nth_error (rules p) i = Some rule ->
        vp_date point
        = match rule_effective_date rule with
          | [] => []
          | date => match formatDate locale date with
                    | Some formatted => formatted
                    | None => date
                    end
          end).
Proof.
  intros Hp points. subst points. unfold versionPoints. rewrite Hp.
  destruct (rules p) as [|r1 [|r2 [|r3 rest]]]; simpl;
    (split; [reflexivity|]); (split; [reflexivity|]);
    (split; [rewrite ?firstn_nil; reflexivity|]);
    intros i point rule Hpoint Hrule.
  - destruct i; discriminate.
  - destruct i as [|[|i]]; simpl in *; try discriminate;
      inversion Hpoint; inversion Hrule; subst; simpl;
      destruct (rule_effective_date rule); reflexivity.
  - destruct i as [|[|[|i]]]; simpl in *; try discriminate;
      inversion Hpoint; inversion Hrule; subst; simpl;
      destruct (rule_effective_date rule); reflexivity.
  - destruct i as [|[|[|i]]]; simpl in *; try discriminate;
      try (destruct i; discriminate);
      inversion Hpoint; inversion Hrule; subst; simpl;
      destruct (rule_effective_date rule); reflexivity.
Qed.

Lemma version_points_first_three_rules_witness :
  let run := Some (Fixtures.runWithPayload
                     [ Fixtures.exampleRule "a" "2008-06-19" true;
                       Fixtures.exampleRule "b" "n/a" true;
                       Fixtures.exampleRule "c" "x" true;
                       Fixtures.exampleRule "d" "y" true ] [] []) in
  length (versionPoints Fixtures.exampleFormatDate Orchestrator.En run) = 3.
Proof.
  intros run.
  refine (proj1 (@version_points_first_three_rules Fixtures.exampleFormatDate
                   Orchestrator.En run _ eq_refl)).
Defined.

(** X22: a citation without a note, or with an empty one, gets no badge;
    any other note gets at least one badge, each one of "Officiel",
    "Consolidé", "Traduction" and "Jurisprudence"; "Traduction" is shown
    exactly when the lower-cased note contains "traduction", and "Officiel"
    exactly when it contains "officiel" or contains none of the four
    keywords. *)
Theorem citation_badges_never_empty_for_a_note
  (toLowerCase : jsstring -> jsstring) (note : jsstring) :
  citationBadges toLowerCase None = []
  /\ citationBadges toLowerCase (Some []) = []
  /\ (note <> [] ->
      let badges := citationBadges toLowerCase (Some note) in
      badges <> []
      /\ (forall b, In b badges ->
            b = OFFICIEL \/ b = CONSOLIDE \/ b = TRADUCTION \/ b = JURISPRUDENCE)
      /\ (In TRADUCTION badges <->
          includes (toLowerCase note) (lit "traduction") = true)
      /\ (In OFFICIEL badges <->
          includes (toLowerCase note) (lit "officiel") = true
          \/ (includes (toLowerCase note) (lit "consolid") = false
              /\ includes (toLowerCase note) (lit "traduction") = false
              /\ includes (toLowerCase note) (lit "jurisprudence") = false))).
Proof.
  split; [reflexivity|]. split; [reflexivity|].
  intros Hnote badges. subst badges. unfold citationBadges.
  destruct note as [|c note]; [congruence|]. cbn [truthy negb].
  destruct (includes (toLowerCase (c :: note)) (lit "officiel")),
           (includes (toLowerCase (c :: note)) (lit "consolid")),
           (includes (toLowerCase (c :: note)) (lit "traduction")),
           (includes (toLowerCase (c :: note)) (lit "jurisprudence"));
    cbn [app length Nat.ltb Nat.leb];
    (split; [discriminate|]);
    (split; [intros b Hb; simpl in Hb; intuition|]);
    (split; [split; [intros Hin; simpl in Hin;
                     repeat (destruct Hin as [Hin | Hin]; try discriminate Hin);
                     try reflexivity; try contradiction
                    | intros Ht; try discriminate Ht; simpl; intuition]
            |]);
    (split; [intros Hin; simpl in Hin;
             repeat (destruct Hin as [Hin | Hin]; try discriminate Hin);
             try contradiction; intuition
            | intros [Ht | [H1 [H2 H3]]]; try discriminate; simpl; intuition]).
Qed.

Lemma citation_badges_never_empty_for_a_note_witness :
  citationBadges Fixtures.exampleToLowerCase (Some (lit "Texte consolide")) <> [].
Proof.
  refine (proj1 (proj2 (proj2 (citation_badges_never_empty_for_a_note
                                 Fixtures.exampleToLowerCase
                                 (lit "Texte consolide"))) _)).
  discriminate.
Defined.

Lemma includes_empty_text (pat : jsstring) :
  pat <> [] -> includes [] pat = false.
Proof. destruct pat; [congruence | reflexivity]. Qed.

(** X23: translation warnings. A non-empty list in the citation summary is
    shown as it is; otherwise (no summary, or a summary whose list is empty
    or missing) the warnings come from the payload: exactly one per citation
    whose lower-cased note contains "traduction", "translation" or "langue",
    in the order of the citations, each reading "<title> - <note>" (with an
    em dash) trimmed; every such citation gives its warning, a citation
    without a note never gives one, and there are never more warnings than
    citations. *)
Theorem translation_warnings_sources (toLowerCase : jsstring -> jsstring)
  (run : option AgentRunResponse) :
  (forall cs warnings,
     Trust.trustCitationSummary run = Some cs ->
     cs_translationWarnings cs = Some warnings -> warnings <> [] ->
     translationWarnings toLowerCase run = warnings)
  /\ ((forall cs, Trust.trustCitationSummary run = Some cs ->
         cs_translationWarnings cs = None \/ cs_translationWarnings cs = Some []) ->
      translationWarnings toLowerCase run
      = match payload run with
        | None => []
        | Some p =>
            map (fun c =>
                   trim (cit_title c ++ [32%N; EM_DASH; 32%N]
                         ++ match cit_note c with
                            | Some note => note
                            | None => []
                            end))
                (filter (fun c =>
                           match cit_note c with
                           | Some note =>
                               includes (toLowerCase note) (lit "traduction")
                               || includes (toLowerCase note) (lit "translation")
                               || includes (toLowerCase note) (lit "langue")
                           | None => false
                           end)
                        (citations p))
        end
      /\ (forall p c note,
            payload run = Some p -> In c (citations p) ->
            cit_note c = Some note ->
            (includes (toLowerCase note) (lit "traduction")
             || includes (toLowerCase note) (lit "translation")
             || includes (toLowerCase note) (lit "langue")) = true ->
            In (trim (cit_title c ++ [32%N; EM_DASH; 32%N] ++ note))
               (translationWarnings toLowerCase run))
      /\ length (translationWarnings toLowerCase run)
         = length (fallbackTranslationWarnings toLowerCase run)
      /\ (forall c, In c (fallbackTranslationWarnings toLowerCase run) ->
            exists p note,
              payload run = Some p /\ In c (citations p)
              /\ cit_note c = Some note
              /\ (includes (toLowerCase note) (lit "traduction")
                  || includes (toLowerCase note) (lit "translation")
                  || includes (toLowerCase note) (lit "langue")) = true)
      /\ (forall p, payload run = Some p ->
            length (translationWarnings toLowerCase run) <= length (citations p))).
Proof.
  split.
  - intros cs warnings Hcs Hw Hne. unfold translationWarnings.
    rewrite Hcs, Hw. destruct warnings; [congruence | reflexivity].
  - intros Hfallback.
    assert (translationWarnings toLowerCase run
            = map (fun citation =>
                     trim (cit_title citation ++ [32%N; EM_DASH; 32%N]
                           ++ match cit_note citation with
                              | Some n => n
                              | None => []
                              end))
                  (fallbackTranslationWarnings toLowerCase run)) as Heq.
    { unfold translationWarnings.
      destruct (Trust.trustCitationSummary run) as [cs|]; [|reflexivity].
      destruct (Hfallback cs eq_refl) as [-> | ->]; reflexivity. }
    assert (forall p, payload run = Some p ->
              fallbackTranslationWarnings toLowerCase run
              = filter (mentionsTranslation toLowerCase) (citations p)) as Hfilter.
    { intros p Hp. unfold fallbackTranslationWarnings. rewrite Hp.
      destruct (citations p); reflexivity. }
    split; [|split].
    + rewrite Heq. destruct (payload run) as [p|] eqn:Hp.
      * rewrite (Hfilter p eq_refl). f_equal. apply filter_ext.
        intros c. unfold mentionsTranslation.
        destruct (cit_note c); [reflexivity|].
        rewrite !includes_empty_text by discriminate. reflexivity.
      * unfold fallbackTranslationWarnings. rewrite Hp. reflexivity.
    + intros p c note Hp Hin Hnote Hm. rewrite Heq, (Hfilter p Hp).
      apply in_map_iff. exists c. split.
      * rewrite Hnote. reflexivity.
      * apply filter_In. split; [exact Hin|].
        unfold mentionsTranslation. rewrite Hnote. exact Hm.
    + rewrite Heq, length_map. split; [reflexivity|]. split.
      * intros c Hc. unfold fallbackTranslationWarnings in Hc.
        destruct (payload run) as [p|]; [|contradiction].
        destruct (Nat.eqb (length (citations p)) 0); [contradiction|].
        apply filter_In in Hc. destruct Hc as [Hin Hm].
        unfold mentionsTranslation in Hm.
        destruct (cit_note c) as [note|] eqn:En.
        -- exists p, note. auto.
        -- rewrite !includes_empty_text in Hm by discriminate. discriminate Hm.
      * intros p Hp. unfold fallbackTranslationWarnings. rewrite Hp.
        destruct (Nat.eqb (length (citations p)) 0); [simpl; lia|].
        apply filter_length_le.
Qed.

(** A run without a citation summary whose second citation carries a note
    about a translation: that citation gives its warning. *)
Lemma translation_warnings_sources_witness :
  let noted := Fixtures.exampleCitation "https://a.example/2"
                 (Some "Traduction non officielle") in
  let run := Some (Fixtures.runWithPayload []
                     [ Fixtures.exampleCitation "https://a.example/1" None;
                       noted ] []) in
  In (lit "Code civil " ++ [EM_DASH; 32%N] ++ lit "Traduction non officielle")
     (translationWarnings Fixtures.exampleToLowerCase run).
Proof.
  intros noted run.
  refine (proj1 (proj2 (proj2 (translation_warnings_sources
                                 Fixtures.exampleToLowerCase run) _))
            _ noted (lit "Traduction non officielle") eq_refl _ eq_refl eq_refl).
  - intros cs H. discriminate H.
  - right. left. reflexivity.
Defined.

Example translation_warnings_example :
  translationWarnings Fixtures.exampleToLowerCase
    (Some (Fixtures.runWithPayload []
             [ Fixtures.exampleCitation "https://a.example/1" None;
               Fixtures.exampleCitation "https://a.example/2"
                 (Some "Traduction non officielle") ]
             []))
  = [ lit "Code civil " ++ [EM_DASH; 32%N] ++ lit "Traduction non officielle" ].
Proof. reflexivity. Qed.

End TrustViewFacts.

(** ** Compliance statuses and allowlist details *)

Module ComplianceFacts.

Import Trust.

Example complianceStatusMessages_example :
  complianceStatusMessages Fixtures.englishTrustMessages
    (Some (Fixtures.runWithCompliance (Some Fixtures.pendingCompliance)))
  = [lit "FRIA pending"; lit "Consent v2 pending"; lit "CoE 2024 pending"].
Proof. reflexivity. Qed.

(** X24: with compliance data the status list always begins with the one
    FRIA status that applies (validated, pending or not required) and holds
    between one and three entries; a consent that is required and not
    accepted, and a Council of Europe requirement that is not acknowledged,
    appear with the same text among the issues and among the statuses;
    without compliance data the status list is empty. *)
Theorem compliance_statuses_shape (msgs : TrustMessages)
  (run : option AgentRunResponse) (tc : Compliance) :
  trustCompliance run = Some tc ->
  let statuses := complianceStatusMessages msgs run in
  1 <= length statuses <= 3
  /\ hd_error statuses
     = Some (if friaRequired tc
             then if friaValidated tc
                  then msg_complianceFriaValidated msgs
                  else msg_complianceFriaPending msgs
             else msg_complianceFriaNotRequired msgs)
  /\ (forall requirement,
        consent_requirement (consent tc) = Some requirement ->
        consent_accepted (consent tc) = false ->
        In (replace (msg_complianceConsentPending msgs) (lit "{version}")
                    (req_version requirement))
           (complianceIssues msgs run)
        /\ In (replace (msg_complianceConsentPending msgs) (lit "{version}")
                       (req_version requirement))
              statuses)
  /\ (forall requirement,
        coe_requirement (councilOfEurope tc) = Some requirement ->
        req_version requirement <> [] ->
        coe_acknowledged (councilOfEurope tc) = false ->
        In (replace (msg_complianceCoePending msgs) (lit "{version}")
                    (req_version requirement))
           (complianceIssues msgs run)
        /\ In (replace (msg_complianceCoePending msgs) (lit "{version}")
                       (req_version requirement))
              statuses).
Proof.
  intros H statuses. subst statuses.
  unfold complianceStatusMessages, complianceIssues. rewrite H. unfold push.
  destruct tc as [fr fv reasons arts cp cv [creq cacc clv] [oreq oack oav]].
  cbn [friaRequired friaValidated friaReasons cepejPassed cepejViolations consent
       councilOfEurope consent_requirement consent_accepted consent_latestVersion
       coe_requirement coe_acknowledged coe_acknowledgedVersion].
  split; [|split; [|split]].
  - destruct fr, fv, creq as [[cver]|], cacc, clv as [[|? ?]|],
      oreq as [[[|? ?]]|], oack, oav as [[|? ?]|]; simpl; lia.
  - destruct fr, fv, creq as [[cver]|], cacc, clv as [[|? ?]|],
      oreq as [[[|? ?]]|], oack, oav as [[|? ?]|]; reflexivity.
  - intros requirement Hreq Hacc. inversion Hreq; subst creq cacc.
    split.
    + destruct fr, fv, cp, oreq as [[[|? ?]]|], oack; simpl;
        rewrite ?in_app_iff; simpl; tauto.
    + destruct fr, fv, oreq as [[[|? ?]]|], oack, oav as [[|? ?]|]; simpl;
        rewrite ?in_app_iff; simpl; tauto.
  - intros requirement Hreq Hver Hack. inversion Hreq; subst oreq oack.
    destruct requirement as [[|c ver]]; [exfalso; apply Hver; reflexivity|].
    cbn [req_version truthy negb andb].
    split.
    + destruct fr, fv, cp, creq as [[cver]|], cacc; simpl;
        rewrite ?in_app_iff; simpl; tauto.
    + destruct fr, fv, creq as [[cver]|], cacc, clv as [[|? ?]|]; simpl;
        rewrite ?in_app_iff; simpl; tauto.
Qed.

Lemma compliance_statuses_shape_witness :
  let run := Some (Fixtures.runWithCompliance (Some Fixtures.pendingCompliance)) in
  hd_error (complianceStatusMessages Fixtures.englishTrustMessages run)
  = Some (lit "FRIA pending").
Proof.
  intros run.
  refine (proj1 (proj2 (@compliance_statuses_shape Fixtures.englishTrustMessages
                          run Fixtures.pendingCompliance eq_refl))).
Defined.

Lemma fold_setAdd_length (xs seen : list jsstring) :
  length (fold_left setAdd xs seen) <= length seen + length xs.
Proof.
  revert seen; induction xs as [|x xs IH]; intros seen; simpl; [lia|].
  specialize (IH (setAdd seen x)). unfold setAdd in *.
  destruct (existsb (Js.eqb x) seen); [lia|].
  rewrite length_app in IH. simpl in IH. lia.
Qed.

(** X25: the allowlist summary and its detail list agree in one direction:
    whenever a detail is listed the summary is not "clean". With a citation
    summary there is one detail per non-allowlisted citation, so the
    converse holds too; without one there are never more details than
    violations. *)
Theorem allowlist_details_imply_issues
  (url_hostname : jsstring -> option jsstring) (msgs : TrustMessages)
  (run : option AgentRunResponse) :
  (allowlistDetails url_hostname run <> [] ->
   allowlistClean run = false
   /\ allowlistSummary msgs run = msg_allowlistIssues msgs)
  /\ (forall cs, trustCitationSummary run = Some cs ->
        length (allowlistDetails url_hostname run) = length (cs_nonAllowlisted cs)
        /\ (allowlistClean run = false -> allowlistDetails url_hostname run <> []))
  /\ (trustCitationSummary run = None ->
      length (allowlistDetails url_hostname run)
      <= length (allowlistViolations run)).
Proof.
  assert (allowlistDetails url_hostname run <> [] -> allowlistClean run = false)
    as Hdetails.
  { unfold allowlistDetails, allowlistClean, fallbackViolationHosts.
    destruct (trustCitationSummary run) as [cs|].
    - destruct (cs_nonAllowlisted cs); [intros H; contradiction H|]; reflexivity.
    - destruct (allowlistViolations run); [intros H; contradiction H|]; reflexivity. }
  split; [|split].
  - intros H. split; [apply Hdetails, H|].
    unfold allowlistSummary. rewrite (Hdetails H). reflexivity.
  - intros cs Hcs. unfold allowlistDetails, allowlistClean. rewrite Hcs.
    rewrite length_map. split; [reflexivity|].
    destruct (cs_nonAllowlisted cs); simpl; [discriminate|].
    intros _. discriminate.
  - intros Hcs. unfold allowlistDetails, fallbackViolationHosts. rewrite Hcs.
    destruct (allowlistViolations run) as [|v vs]; [simpl; lia|].
    cbn [length Nat.eqb]. unfold arrayFromSet.
    pose proof (fold_setAdd_length
                  (filter truthy (map (hostOrRaw url_hostname) (v :: vs))) []) as H1.
    pose proof (filter_length_le truthy (map (hostOrRaw url_hostname) (v :: vs))) as H2.
    rewrite length_map in H2. simpl in *. lia.
Qed.

Lemma allowlist_details_imply_issues_witness :
  let run := Some (Fixtures.runWithViolations [lit "https://blog.example.com/p"]) in
  allowlistClean run = false.
Proof.
  intros run.
  refine (proj1 (proj1 (allowlist_details_imply_issues Fixtures.exampleHostname
                          Fixtures.englishTrustMessages run) _)).
  discriminate.
Defined.

End ComplianceFacts.

(** ** More on the exporters *)

Module ExportFacts.

Import Exporters.

Ltac run_export_all :=
  cbv [exportIracToPdf exportIracToDocx onExportPdf onExportDocx addSection
       signExport signRequest signingSettles responseReadable pdfSignedText
       exportFilename xbind xdo xret xreject xawait xcatch
       withFetch withDigest sha256Hex fetch toLowerCase API_BASE DEMO_USER_ID
       DEMO_ORG_ID splitTextToSize jsonStringify dateToLocaleString
       outcomeOf logOf fst snd].

Lemma mapi_length {A B} (f : nat -> A -> B) (i : nat) (xs : list A) :
  length (mapi f i xs) = length xs.
Proof.
  revert i; induction xs as [|x xs IH]; intros i; simpl;
    [reflexivity | rewrite IH; reflexivity].
Qed.

Lemma ruleParagraphs_length (i : nat) (rs : list IracRule) :
  length (concat (mapi ruleParagraphs i rs)) = 3 * length rs.
Proof.
  revert i; induction rs as [|r rs IH]; intros i; simpl; [reflexivity|].
  rewrite IH. lia.
Qed.

Ltac split_signing :=
  repeat match goal with
         | |- context [match ?digest with Some _ => _ | None => _ end] =>
             destruct digest; cbv beta iota delta [res_ok res_text res_json negb]
         | |- context [match ?outcome with
                       | FetchRejected => _ | FetchResponse _ => _ end] =>
             destruct outcome as [|[[|] [?|] [| |?]]];
             cbv beta iota delta [res_ok res_text res_json negb]
         end.

(** X26: each export computes the digest first and sends nothing when the
    digest is not available; otherwise it sends exactly one request to the
    signing service, carrying the digest and the name
    [analyse-irac-<country in lower case>] with the extension of the format,
    and it saves, after the request and under that very name, exactly when
    signing settles: the request is answered and the body can be read (as
    text when the status is not ok, as JSON when it is). An answer whose
    body cannot be read saves nothing. The PDF export hashes the exported
    text, the DOCX export the JSON form of the payload. *)
Theorem signing_request_names_saved_file (pf : Platform)
  (payload : IracPayload) (locale : Orchestrator.Locale) :
  let pdfName :=
    lit "analyse-irac-"
    ++ toLowerCase pf (jur_country (jurisdiction payload)) ++ lit ".pdf" in
  let docxName :=
    lit "analyse-irac-"
    ++ toLowerCase pf (jur_country (jurisdiction payload)) ++ lit ".docx" in
  (forall hash filename,
      sr_url (signRequest pf hash filename) = API_BASE pf ++ lit "/exports/sign"
      /\ sr_contentSha256 (signRequest pf hash filename) = hash
      /\ sr_filename (signRequest pf hash filename) = filename)
  /\ filter (fun e => isFetch e || isSave e)
            (logOf (exportIracToPdf pf payload locale))
     = match sha256Hex pf (pdfSignedText payload) with
       | None => []
       | Some hash =>
           Fetch (signRequest pf hash pdfName)
           :: (if signingSettles pf (pdfSignedText payload) pdfName
               then [SavePdf pdfName] else [])
       end
  /\ (exists document,
        filter (fun e => isFetch e || isSave e)
               (logOf (exportIracToDocx pf payload locale))
        = match sha256Hex pf (jsonStringify pf payload) with
          | None => []
          | Some hash =>
              Fetch (signRequest pf hash docxName)
              :: (if signingSettles pf (jsonStringify pf payload) docxName
                  then [SaveAs document docxName] else [])
          end).
Proof.
  intros pdfName docxName. subst pdfName docxName.
  split; [intros hash filename; repeat split; reflexivity|].
  destruct pf. split.
  - run_export_all. split_signing; reflexivity.
  - run_export_all. split_signing;
      first [ exists []; reflexivity | eexists; reflexivity ].
Qed.

(** X27: in the DOCX export a signature changes nothing but the end of the
    document: the signed document is the unsigned one followed by the two
    signature paragraphs; the unsigned document has twelve paragraphs plus
    three per rule. *)
Theorem docx_signature_appends_two_paragraphs (pf : Platform)
  (digest : jsstring -> jsstring) (text : jsstring) (proof : C2PASignature)
  (payload : IracPayload) (locale : Orchestrator.Locale) :
  let refused := withFetch (withDigest pf digest) (fun _ => FetchResponse
                   {| res_ok := false; res_text := Some text;
                      res_json := JsonSignature proof |}) in
  let signed := withFetch (withDigest pf digest) (fun _ => FetchResponse
                  {| res_ok := true; res_text := Some text;
                     res_json := JsonSignature proof |}) in
  exists document,
    filter isSave (logOf (exportIracToDocx refused payload locale))
    = [SaveAs document (exportFilename pf payload ".docx")]
    /\ filter isSave (logOf (exportIracToDocx signed payload locale))
       = [SaveAs (document
                  ++ [Plain (fst (formatProofMetadata pf proof));
                      Plain (snd (formatProofMetadata pf proof))])
                 (exportFilename pf payload ".docx")]
    /\ length document = 12 + 3 * length (rules payload).
Proof.
  intros refused signed. subst refused signed. run_export_all. simpl.
  eexists. split; [reflexivity|]. split.
  - unfold proofParagraphs, formatProofMetadata, exportFilename. simpl.
    rewrite <- !app_assoc. reflexivity.
  - cbn [length app]. rewrite length_app, ruleParagraphs_length.
    cbn [length]. lia.
Qed.

(** X28: in the PDF export a signature only adds to the drawing: the signed
    export draws what the unsigned one draws and then the two signature
    lines, in 9 point type at the fixed positions (48, 800) and (48, 814);
    both save under the same name. *)
Theorem pdf_signature_adds_two_lines (pf : Platform)
  (digest : jsstring -> jsstring) (text : jsstring)
  (proof : C2PASignature) (payload : IracPayload) (locale : Orchestrator.Locale) :
  let refused := withFetch (withDigest pf digest) (fun _ => FetchResponse
                   {| res_ok := false; res_text := Some text;
                      res_json := JsonSignature proof |}) in
  let signed := withFetch (withDigest pf digest) (fun _ => FetchResponse
                  {| res_ok := true; res_text := Some text;
                     res_json := JsonSignature proof |}) in
  filter isDrawing (logOf (exportIracToPdf signed payload locale))
  = filter isDrawing (logOf (exportIracToPdf refused payload locale))
    ++ [ SetFont "Helvetica" "normal"; SetFontSize 9;
         DrawText [fst (formatProofMetadata pf proof)] 48 800;
         DrawText [snd (formatProofMetadata pf proof)] 48 814 ]
  /\ filter isSave (logOf (exportIracToPdf signed payload locale))
     = filter isSave (logOf (exportIracToPdf refused payload locale)).
Proof.
  intros refused signed. subst refused signed. run_export_all. simpl.
  split; reflexivity.
Qed.

(** X29: an export button never lets a failure escape: its handler always
    completes, and it shows exactly two toasts under one toast id, the
    loading toast and then the success toast when the export completed or
    the error toast when it was rejected. The export completes exactly when
    signing settles: the digest is available, the request is answered
    (whatever the status) and the body of the answer can be read; a missing
    digest, a rejected request and an answer whose body cannot be read (an
    ok status with a body that is not JSON) all end in the error toast. *)
Theorem export_button_always_ends_in_one_toast (pf : Platform)
  (em : ExportMessages) (payload : IracPayload) (locale : Orchestrator.Locale) :
  let pdfSettles :=
    signingSettles pf (pdfSignedText payload) (exportFilename pf payload ".pdf") in
  let docxSettles :=
    signingSettles pf (jsonStringify pf payload) (exportFilename pf payload ".docx") in
  outcomeOf (exportIracToPdf pf payload locale)
  = (if pdfSettles then Fulfilled tt else RejectedPromise)
  /\ outcomeOf (onExportPdf pf em payload locale) = Fulfilled tt
  /\ filter isExportToast (logOf (onExportPdf pf em payload locale))
     = [ ToastLoading (exportPdfMessage em) "export-pdf";
         if pdfSettles
         then ToastSuccess (exportPdfSuccessMessage em) "export-pdf"
         else ToastError (exportErrorMessage em) "export-pdf" ]
  /\ outcomeOf (exportIracToDocx pf payload locale)
     = (if docxSettles then Fulfilled tt else RejectedPromise)
  /\ outcomeOf (onExportDocx pf em payload locale) = Fulfilled tt
  /\ filter isExportToast (logOf (onExportDocx pf em payload locale))
     = [ ToastLoading (exportDocxMessage em) "export-docx";
         if docxSettles
         then ToastSuccess (exportDocxSuccessMessage em) "export-docx"
         else ToastError (exportErrorMessage em) "export-docx" ].
Proof.
  intros pdfSettles docxSettles. subst pdfSettles docxSettles.
  destruct pf. repeat split; run_export_all; split_signing; reflexivity.
Qed.

(** The three ways signing fails to settle, and the two ways it settles
    without a signature, on the example platform. *)
Example signingSettles_examples :
  let answer res := Fixtures.examplePlatform (fun _ => FetchResponse res) in
  let body ok text json := {| res_ok := ok; res_text := text; res_json := json |} in
  signingSettles (Fixtures.examplePlatform (fun _ => FetchRejected)) [] [] = false
  /\ signingSettles (answer (body true (Some []) JsonRejected)) [] [] = false
  /\ signingSettles (answer (body false None JsonFalsy)) [] [] = false
  /\ signingSettles (answer (body true None JsonFalsy)) [] [] = true
  /\ signingSettles (answer (body false (Some []) JsonRejected)) [] [] = true.
Proof. repeat split; reflexivity. Qed.

End ExportFacts.
